(** * Fox Energy power monitor display (v3 sketch): model and properties

    A shallow embedding of the v3 firmware: [config.h], [types.h],
    [display_manager.h], [data_fetcher.h], [wifi_manager.h] and the
    sketch's [loop] and [handleWiFiDisconnection].

    Conventions of the embedding
    - a C [float] is an IEEE-754 binary32 value ([spec_float] with
      precision 24), a [double] a binary64 value; arithmetic is the
      correctly rounded arithmetic of the standard library's [SpecFloat];
    - [int], [long] and [unsigned long] are 32 bits wide on the ESP32-C3;
      they are integers in [Z] with the wrap-around written out;
    - every call made on a drawing surface ([Adafruit_GFX]) is recorded, in
      order, in a log of events, together with the surface it was made on;
    - what the sketch reads from its environment (the clock, the radio,
      the temperature sensor, the HTTP response) is an explicit input;
    - output on [Serial] and the [delay] calls are left out. *)

From Stdlib Require Import ZArith QArith Qround Qabs List String Ascii Bool Lia.
From Stdlib Require Import SpecFloat DecimalString.
Import ListNotations.

Local Open Scope string_scope.
Local Open Scope Z_scope.

(** ** Machine integers *)

Module MachineInt.

Definition wrap_unsigned (bits z : Z) : Z := z mod 2 ^ bits.

Definition wrap_signed (bits z : Z) : Z :=
  (z + 2 ^ (bits - 1)) mod 2 ^ bits - 2 ^ (bits - 1).

Definition to_int (z : Z) : Z := wrap_signed 32 z.
Definition to_ulong (z : Z) : Z := wrap_unsigned 32 z.
Definition to_int16 (z : Z) : Z := wrap_signed 16 z.
Definition to_uint16 (z : Z) : Z := wrap_unsigned 16 z.
Definition to_uint8 (z : Z) : Z := wrap_unsigned 8 z.

Definition INT_MAX : Z := 2147483647.
Definition INT_MIN : Z := -2147483648.

(** [1 << n] on a 32-bit [int]; the shift amount is taken modulo 32, as
    the shift instruction of the target does. *)
Definition shl_int (x n : Z) : Z := to_int (Z.shiftl x (n mod 32)).

(** [a * b] on 32-bit [int]. *)
Definition mul_int (a b : Z) : Z := to_int (a * b).

(** [a - b] on [unsigned long]. *)
Definition sub_ulong (a b : Z) : Z := to_ulong (a - b).

(** C division truncates toward zero. *)
Definition cdiv (a b : Z) : Z := Z.quot a b.

(** Decimal text of an integer, as [%d], [%ld] and [String(int, 10)]
    print it. *)
Definition decimal (z : Z) : string := NilZero.string_of_int (Z.to_int z).

End MachineInt.

(** ** Floating point *)

Module Fl.

(** Exact value of a finite float, zero for the others. *)
Definition to_Q (x : spec_float) : Q :=
  match x with
  | S754_finite s m e =>
      let mag := if (0 <=? e)%Z then inject_Z (Zpos m * 2 ^ e)
                 else Qmake (Zpos m) (Z.to_pos (2 ^ (- e))) in
      if s then Qopp mag else mag
  | _ => 0%Q
  end.

Definition is_finite (x : spec_float) : bool :=
  match x with
  | S754_finite _ _ _ | S754_zero _ => true
  | _ => false
  end.

Definition sign (x : spec_float) : bool :=
  match x with
  | S754_finite s _ _ | S754_zero s | S754_infinity s => s
  | S754_nan => false
  end.

(** Nearest integer, halfway cases away from zero. *)
Definition round_half_away (q : Q) : Z :=
  if Qle_bool 0 q then Qfloor (q + (1 # 2)) else (- Qfloor (- q + (1 # 2)))%Z.

(** Nearest integer, halfway cases to the even one. *)
Definition round_half_even (q : Q) : Z :=
  let f := Qfloor q in
  match Qcompare (q - inject_Z f) (1 # 2) with
  | Lt => f
  | Gt => (f + 1)%Z
  | Eq => if Z.even f then f else (f + 1)%Z
  end.

End Fl.

(** *** binary32, the C [float] *)

Module F32.

Definition prec : Z := 24.
Definition emax : Z := 128.

Definition float := spec_float.

Definition of_Z (z : Z) : float := binary_normalize prec emax z 0 false.

Definition sub (x y : float) : float := SFsub prec emax x y.
Definition div (x y : float) : float := SFdiv prec emax x y.
Definition abs (x : float) : float := SFabs x.

Definition ltb (x y : float) : bool := SFltb x y.
Definition leb (x y : float) : bool := SFleb x y.
Definition gtb (x y : float) : bool := SFltb y x.
Definition geb (x y : float) : bool := SFleb y x.

(** The values the format has: the mantissa and the exponent of a finite
    value are in canonical form. *)
Definition valid (x : float) : bool := valid_binary prec emax x.

(** The value of a finite float in units of 2^-149, the least positive
    binary32 value. *)
Definition units (x : float) : Z :=
  match x with
  | S754_finite s m e => (if s then -1 else 1) * (Zpos m * 2 ^ (e + 149))
  | _ => 0
  end.

(** The float nearest to the decimal [n / 10^k], the value a decimal
    literal or a decimal number in a JSON text denotes. *)
Definition of_decimal (n : Z) (k : Z) : float := div (of_Z n) (of_Z (10 ^ k)).

(** C [round]: the nearest integral value, halfway cases away from zero.
    Zeros, infinities and NaN are returned unchanged.  The result of
    rounding a binary32 value is again a binary32 value. *)
Definition round (x : float) : float :=
  match x with
  | S754_finite s _ _ =>
      binary_normalize prec emax (Fl.round_half_away (Fl.to_Q x)) 0 s
  | _ => x
  end.

(** Conversion of a float to [int] or [long], as in [(int)round(v)]:
    the fraction is dropped; values outside the range of the type, for
    which C leaves the conversion undefined, saturate. *)
Definition to_int (x : float) : Z :=
  match x with
  | S754_finite _ _ _ =>
      let q := Fl.to_Q x in
      let t := if Qle_bool 0 q then Qfloor q else (- Qfloor (- q))%Z in
      Z.max MachineInt.INT_MIN (Z.min MachineInt.INT_MAX t)
  | S754_zero _ => 0
  | S754_infinity true => MachineInt.INT_MIN
  | S754_infinity false => MachineInt.INT_MAX
  | S754_nan => MachineInt.INT_MAX
  end.

End F32.

(** *** binary64, the C [double] *)

Module F64.

Definition prec : Z := 53.
Definition emax : Z := 1024.

Definition double := spec_float.

Definition of_Z (z : Z) : double := binary_normalize prec emax z 0 false.
Definition div (x y : double) : double := SFdiv prec emax x y.

(** The double nearest to the decimal [n / 10^k]. *)
Definition of_decimal (n : Z) (k : Z) : double := div (of_Z n) (of_Z (10 ^ k)).

(** Promotion of a [float] to [double]; it is exact. *)
Definition of_float (x : F32.float) : double :=
  match x with
  | S754_finite s m e =>
      binary_normalize prec emax (if s then Zneg m else Zpos m) e s
  | _ => x
  end.

Definition ltb (x y : double) : bool := SFltb x y.
Definition leb (x y : double) : bool := SFleb x y.
Definition gtb (x y : double) : bool := SFltb y x.
Definition geb (x y : double) : bool := SFleb y x.

Definition add (x y : double) : double := SFadd prec emax x y.
Definition sub (x y : double) : double := SFsub prec emax x y.
Definition mul (x y : double) : double := SFmul prec emax x y.
Definition opp (x : double) : double := SFopp x.

(** Conversion of a [double] to [int8_t], as in [(int8_t)number]: the
    fraction is dropped; values outside the range of the type, for which
    C leaves the conversion undefined, saturate. *)
Definition to_int8 (x : double) : Z :=
  match x with
  | S754_finite _ _ _ =>
      let q := Fl.to_Q x in
      let t := if Qle_bool 0 q then Qfloor q else (- Qfloor (- q))%Z in
      Z.max (-128) (Z.min 127 t)
  | S754_zero _ => 0
  | S754_infinity true => -128
  | S754_infinity false => 127
  | S754_nan => 0
  end.

End F64.

(** ** Text formatting of the C library and of the Arduino core *)

Module Format.

Definition digit1 (d : Z) : string := MachineInt.decimal d.

(** [snprintf] writes at most [size - 1] characters. *)
Definition snprintf_fit (size : nat) (s : string) : string :=
  substring 0 (size - 1) s.

(** [%.1f]: one digit after the point, the exact value rounded to the
    nearest tenth, halfway cases to even. *)
Definition printf_f1 (x : spec_float) : string :=
  match x with
  | S754_nan => "nan"
  | S754_infinity s => if s then "-inf" else "inf"
  | _ =>
      let t := Fl.round_half_even (Qabs (Fl.to_Q x) * 10) in
      (if Fl.sign x then "-" else "")
        ++ MachineInt.decimal (t / 10) ++ "." ++ digit1 (t mod 10)
  end.

(** [dtostrf(number, width, prec, s)] of the Arduino core for the ESP32
    ([stdlib_noniso.c]), which [String(float, decimalPlaces)] calls with
    the width [decimalPlaces + 2].  All its arithmetic is in [double].

    The rounding term: [2.0] multiplied [prec] times by [10.0], then
    [1.0 / rounding]. *)
Fixpoint dtostrf_rounding (prec : nat) (rounding : F64.double) : F64.double :=
  match prec with
  | O => F64.div (F64.of_Z 1) rounding
  | S prec' => dtostrf_rounding prec' (F64.mul rounding (F64.of_Z 10))
  end.

(** [while (number >= 10.0 * tenpow) { tenpow *= 10.0; digitcount++; }];
    the powers of ten leave the range of [double] after 308 steps, and the
    test fails from then on for every number but infinity. *)
Fixpoint dtostrf_magnitude (fuel : nat) (number tenpow : F64.double) (digitcount : Z)
  : F64.double * Z :=
  match fuel with
  | O => (tenpow, digitcount)
  | S fuel' =>
      if F64.geb number (F64.mul (F64.of_Z 10) tenpow)
      then dtostrf_magnitude fuel' number (F64.mul tenpow (F64.of_Z 10)) (digitcount + 1)
      else (tenpow, digitcount)
  end.

(** The character [(char)('0' | digit)]. *)
Definition digit_char (digit : Z) : ascii :=
  ascii_of_nat (Z.to_nat (MachineInt.to_uint8 (Z.lor 48 digit))).

(** [while (digitcount-- > 0) { ... }]: one character for each digit, the
    point after the digit that leaves [prec] digits to go; [digitcount]
    is the number of digits still to print. *)
Fixpoint dtostrf_digits (digitcount : nat) (prec : Z) (number : F64.double) : string :=
  match digitcount with
  | O => ""
  | S rest =>
      let digit0 := F64.to_int8 number in
      let digit := if 9 <? digit0 then 9 else digit0 in
      String (digit_char digit)
             ((if (Z.of_nat rest =? prec) && (0 <? prec) then "." else "")
                ++ dtostrf_digits rest prec
                     (F64.mul (F64.sub number (F64.of_Z digit)) (F64.of_Z 10)))
  end.

Fixpoint spaces (n : nat) : string :=
  match n with
  | O => ""
  | S n' => String " " (spaces n')
  end.

Definition dtostrf (number : F64.double) (width : Z) (prec : Z) : string :=
  match number with
  | S754_nan => "nan"
  | S754_infinity _ => "inf"
  | _ =>
      let fillme := if 0 <? prec then width - (prec + 1) else width in
      let negative := F64.ltb number (F64.of_Z 0) in
      let fillme := if negative then fillme - 1 else fillme in
      let number := if negative then F64.opp number else number in
      let rounding := dtostrf_rounding (Z.to_nat prec) (F64.of_Z 2) in
      let number := F64.add number rounding in
      let '(tenpow, digitcount) := dtostrf_magnitude 400 number (F64.of_Z 1) 1 in
      let number := F64.div number tenpow in
      let fillme := fillme - digitcount in
      spaces (Z.to_nat fillme)
        ++ (if negative then "-" else "")
        ++ dtostrf_digits (Z.to_nat (digitcount + prec)) prec number
  end.

(** [String(float, 1)] of the Arduino core: the value, promoted to
    [double], printed by [dtostrf] with width 3 and one digit after the
    point. *)
Definition String_float1 (x : spec_float) : string :=
  dtostrf (F64.of_float x) 3 1.

(** [String(int, 10)]. *)
Definition String_int (z : Z) : string := MachineInt.decimal z.

(** [%H], [%M], [%S] of [strftime]: two digits, zero padded. *)
Definition two_digits (z : Z) : string :=
  if z <? 10 then "0" ++ MachineInt.decimal z else MachineInt.decimal z.

End Format.

(** ** config.h *)

Module Config.

(** Colours of the display library (RGB565). *)
Definition ST77XX_BLACK : Z := 0x0000.
Definition ST77XX_WHITE : Z := 0xFFFF.
Definition ST77XX_RED : Z := 0xF800.
Definition ST77XX_GREEN : Z := 0x07E0.
Definition ST77XX_CYAN : Z := 0x07FF.
Definition ST77XX_MAGENTA : Z := 0xF81F.
Definition ST77XX_YELLOW : Z := 0xFFE0.
Definition ST77XX_ORANGE : Z := 0xFC00.

Definition SCREEN_WIDTH : Z := 320.
Definition SCREEN_HEIGHT : Z := 240.

Definition LOOP_DELAY_MS : Z := 1000.
Definition HTTP_TIMEOUT_MS : Z := 4000.
Definition TIME_UPDATE_INTERVAL : Z := 1000.
Definition WIFI_CONNECT_TIMEOUT : Z := 20.
Definition WIFI_RECONNECT_TIMEOUT : Z := 10.

Definition STATUS_BAR_HEIGHT : Z := 40.
Definition STATUS_BAR_V_PADDING : Z := 20.
Definition STATUS_BAR_FONT_SIZE : Z := 2.

Definition POWER_VALUE_FONT_SIZE : Z := 11.
Definition POWER_UNIT_FONT_SIZE : Z := 3.
Definition VA_FONT_SIZE : Z := 5.
Definition TIME_FONT_SIZE : Z := 2.

Definition WIFI_ICON_WIDTH : Z := 24.
Definition WIFI_ICON_HEIGHT : Z := 18.
Definition WIFI_RIGHT_PADDING : Z := 5.
Definition TEMP_WIFI_GAP : Z := 8.

Definition TIME_SEGMENT_WIDTH : Z := 28.
Definition TIME_SEPARATOR_WIDTH : Z := 8.

Definition ST77XX_DARKGREY : Z := 0x4228.
Definition BG_COLOR : Z := ST77XX_BLACK.
Definition STATUS_BAR_BG_COLOR : Z := ST77XX_BLACK.
Definition STATUS_BAR_LINE_COLOR : Z := ST77XX_DARKGREY.

Definition POWER_COLOR_NORMAL : Z := ST77XX_GREEN.
Definition POWER_COLOR_MEDIUM : Z := ST77XX_YELLOW.
Definition POWER_COLOR_HIGH : Z := ST77XX_ORANGE.
Definition POWER_COLOR_MAX : Z := ST77XX_RED.

Definition VOLTAGE_COLOR : Z := ST77XX_CYAN.
Definition CURRENT_COLOR : Z := ST77XX_MAGENTA.
Definition WIFI_ICON_COLOR : Z := ST77XX_WHITE.
Definition TIME_COLOR : Z := ST77XX_WHITE.

Definition TEMP_COLOR_GREEN : Z := ST77XX_GREEN.
Definition TEMP_COLOR_YELLOW : Z := ST77XX_YELLOW.
Definition TEMP_COLOR_ORANGE : Z := ST77XX_ORANGE.
Definition TEMP_COLOR_RED : Z := ST77XX_RED.

Definition ENABLE_DOUBLE_BUFFER : bool := true.

(** The two thresholds are [double] literals. *)
Definition POWER_CHANGE_THRESHOLD : F64.double := F64.of_decimal 5 1.
Definition CURRENT_CHANGE_THRESHOLD : F64.double := F64.of_decimal 5 2.

Definition WIFI_RECONNECT_MAX_ATTEMPTS : Z := 3.
Definition WIFI_RECONNECT_BACKOFF_MS : Z := 1000.

End Config.

(** [tft->width()] and [tft->height()] once [begin] has initialised the
    240 by 320 panel and set rotation 3. *)
Module Panel.

Definition width : Z := 320.
Definition height : Z := 240.

End Panel.

(** ** types.h *)

Record PowerData : Type := mkPowerData {
  voltage : F32.float;
  current : F32.float;
  power_active : F32.float
}.

Record StatusData : Type := mkStatusData {
  internal_temp : F32.float;
  rssi : Z;
  time_str : string;
  hours : string;
  minutes : string;
  seconds : string
}.

Inductive BufferMode : Type := DIRECT | TILE | FULL.

Inductive WiFiState : Type :=
| WIFI_DISCONNECTED
| WIFI_CONNECTING
| WIFI_CONNECTED
| WIFI_RECONNECTING
| WIFI_FAILED.

(** ** Drawing surfaces and the log of calls made on them *)

(** The objects a drawing call can be made on: the panel and the three
    off-screen canvases of the display manager. *)
Inductive surface : Type := Tft | StatusCanvas | MainCanvas | Strip.

Inductive gfx_call : Type :=
| FillScreen (color : Z)
| FillRect (x y w h : Z) (color : Z)
| DrawFastHLine (x y w : Z) (color : Z)
| SetTextWrap (wrap : bool)
| SetTextSize (size : Z)
| SetTextColor (color : Z)
| SetCursor (x y : Z)
| Print (text : string)
| DrawRGBBitmap (x y : Z) (from : surface) (w h : Z).

Inductive event : Type :=
| Gfx (target : surface) (call : gfx_call)
| NewCanvas (which : surface) (w h : Z)
| DeleteCanvas (which : surface).

Definition surface_eqb (a b : surface) : bool :=
  match a, b with
  | Tft, Tft | StatusCanvas, StatusCanvas
  | MainCanvas, MainCanvas | Strip, Strip => true
  | _, _ => false
  end.

(** The calls that put pixels on their target. *)
Definition is_paint (c : gfx_call) : bool :=
  match c with
  | FillScreen _ | FillRect _ _ _ _ _ | DrawFastHLine _ _ _ _
  | Print _ | DrawRGBBitmap _ _ _ _ _ => true
  | _ => false
  end.

(** Calls with the argument conversions of their C++ signatures. *)
Definition fillRect (t : surface) (x y w h color : Z) : event :=
  Gfx t (FillRect (MachineInt.to_int16 x) (MachineInt.to_int16 y)
                  (MachineInt.to_int16 w) (MachineInt.to_int16 h)
                  (MachineInt.to_uint16 color)).
Definition fillScreen (t : surface) (color : Z) : event :=
  Gfx t (FillScreen (MachineInt.to_uint16 color)).
Definition drawFastHLine (t : surface) (x y w color : Z) : event :=
  Gfx t (DrawFastHLine (MachineInt.to_int16 x) (MachineInt.to_int16 y)
                       (MachineInt.to_int16 w) (MachineInt.to_uint16 color)).
Definition setTextSize (t : surface) (s : Z) : event :=
  Gfx t (SetTextSize (MachineInt.to_uint8 s)).
Definition setTextColor (t : surface) (color : Z) : event :=
  Gfx t (SetTextColor (MachineInt.to_uint16 color)).
Definition setCursor (t : surface) (x y : Z) : event :=
  Gfx t (SetCursor (MachineInt.to_int16 x) (MachineInt.to_int16 y)).
Definition print (t : surface) (s : string) : event := Gfx t (Print s).
Definition setTextWrap (t : surface) (w : bool) : event := Gfx t (SetTextWrap w).
Definition drawRGBBitmap (t : surface) (x y : Z) (from : surface) (w h : Z) : event :=
  Gfx t (DrawRGBBitmap (MachineInt.to_int16 x) (MachineInt.to_int16 y) from
                       (MachineInt.to_int16 w) (MachineInt.to_int16 h)).

(** ** Programs: a state, a result and the calls made *)

Definition Prog (St A : Type) : Type := St -> A * St * list event.

Definition ret {St A} (a : A) : Prog St A := fun s => (a, s, []).

Definition bind {St A B} (m : Prog St A) (k : A -> Prog St B) : Prog St B :=
  fun s =>
    let '(a, s1, l1) := m s in
    let '(b, s2, l2) := k a s1 in
    (b, s2, (l1 ++ l2)%list).

Definition get {St} : Prog St St := fun s => (s, s, []).
Definition modify {St} (f : St -> St) : Prog St unit := fun s => (tt, f s, []).
Definition emit {St} (l : list event) : Prog St unit := fun s => (tt, s, l).
Definition when {St} (b : bool) (m : Prog St unit) : Prog St unit :=
  if b then m else ret tt.

(** Run a program of a component inside a larger state. *)
Definition zoom {St T A} (proj : St -> T) (upd : T -> St -> St)
           (m : Prog T A) : Prog St A :=
  fun s => let '(a, t, l) := m (proj s) in (a, upd t s, l).

Definition result_of {St A} (r : A * St * list event) : A := fst (fst r).
Definition state_of {St A} (r : A * St * list event) : St := snd (fst r).
Definition log_of {St A} (r : A * St * list event) : list event := snd r.

Declare Scope prog_scope.
Delimit Scope prog_scope with prog.
Notation "x <- m ;; k" := (bind m (fun x => k))
  (at level 61, m at next level, right associativity) : prog_scope.
Notation "m ;; k" := (bind m (fun _ => k))
  (at level 61, right associativity) : prog_scope.

(** ** display_manager.h *)

(** An off-screen canvas: its size and whether its pixel buffer exists. *)
Record GFXcanvas16 : Type := mkCanvas {
  canvas_width : Z;
  canvas_height : Z;
  has_buffer : bool
}.

(** What [new GFXcanvas16(w, h)] can produce: no object, an object whose
    buffer could not be allocated, or a usable canvas. *)
Inductive alloc_result : Type := AllocNull | AllocNoBuffer | AllocOk.

Definition new_GFXcanvas16 (r : alloc_result) (w h : Z) : option GFXcanvas16 :=
  match r with
  | AllocNull => None
  | AllocNoBuffer => Some (mkCanvas (MachineInt.to_uint16 w) (MachineInt.to_uint16 h) false)
  | AllocOk => Some (mkCanvas (MachineInt.to_uint16 w) (MachineInt.to_uint16 h) true)
  end.

(** [canvas && canvas->getBuffer()] *)
Definition usable (c : option GFXcanvas16) : bool :=
  match c with
  | Some cv => has_buffer cv
  | None => false
  end.

Record DisplayManager : Type := mkDisplayManager {
  status_canvas : option GFXcanvas16;
  main_canvas : option GFXcanvas16;
  buffer_mode : BufferMode;
  screen_width : Z;
  wifi_icon_x : Z;
  wifi_icon_y : Z;
  temp_text_right_x : Z;
  time_text_left_x : Z;
  prev_power : PowerData;
  prev_status : StatusData;
  prev_power_color : Z;
  prev_rssi_level : Z
}.

Definition set_status_canvas (c : option GFXcanvas16) (d : DisplayManager) :=
  mkDisplayManager c (main_canvas d) (buffer_mode d) (screen_width d)
    (wifi_icon_x d) (wifi_icon_y d) (temp_text_right_x d) (time_text_left_x d)
    (prev_power d) (prev_status d) (prev_power_color d) (prev_rssi_level d).

Definition set_main_canvas (c : option GFXcanvas16) (d : DisplayManager) :=
  mkDisplayManager (status_canvas d) c (buffer_mode d) (screen_width d)
    (wifi_icon_x d) (wifi_icon_y d) (temp_text_right_x d) (time_text_left_x d)
    (prev_power d) (prev_status d) (prev_power_color d) (prev_rssi_level d).

Definition set_buffer_mode (m : BufferMode) (d : DisplayManager) :=
  mkDisplayManager (status_canvas d) (main_canvas d) m (screen_width d)
    (wifi_icon_x d) (wifi_icon_y d) (temp_text_right_x d) (time_text_left_x d)
    (prev_power d) (prev_status d) (prev_power_color d) (prev_rssi_level d).

Definition set_layout (sw ix iy tr tl : Z) (d : DisplayManager) :=
  mkDisplayManager (status_canvas d) (main_canvas d) (buffer_mode d) sw
    ix iy tr tl
    (prev_power d) (prev_status d) (prev_power_color d) (prev_rssi_level d).

Definition set_prev_power (p : PowerData) (d : DisplayManager) :=
  mkDisplayManager (status_canvas d) (main_canvas d) (buffer_mode d) (screen_width d)
    (wifi_icon_x d) (wifi_icon_y d) (temp_text_right_x d) (time_text_left_x d)
    p (prev_status d) (prev_power_color d) (prev_rssi_level d).

Definition set_prev_status (s : StatusData) (d : DisplayManager) :=
  mkDisplayManager (status_canvas d) (main_canvas d) (buffer_mode d) (screen_width d)
    (wifi_icon_x d) (wifi_icon_y d) (temp_text_right_x d) (time_text_left_x d)
    (prev_power d) s (prev_power_color d) (prev_rssi_level d).

Definition set_prev_power_color (c : Z) (d : DisplayManager) :=
  mkDisplayManager (status_canvas d) (main_canvas d) (buffer_mode d) (screen_width d)
    (wifi_icon_x d) (wifi_icon_y d) (temp_text_right_x d) (time_text_left_x d)
    (prev_power d) (prev_status d) c (prev_rssi_level d).

Definition set_prev_rssi_level (l : Z) (d : DisplayManager) :=
  mkDisplayManager (status_canvas d) (main_canvas d) (buffer_mode d) (screen_width d)
    (wifi_icon_x d) (wifi_icon_y d) (temp_text_right_x d) (time_text_left_x d)
    (prev_power d) (prev_status d) (prev_power_color d) l.

(** [prev_status.internal_temp = t] *)
Definition set_prev_temp (t : F32.float) (d : DisplayManager) :=
  let s := prev_status d in
  set_prev_status (mkStatusData t (rssi s) (time_str s) (hours s) (minutes s) (seconds s)) d.

(** [prev_status.hours = h; prev_status.minutes = m; prev_status.seconds = s] *)
Definition set_prev_time (h m sec : string) (d : DisplayManager) :=
  let s := prev_status d in
  set_prev_status (mkStatusData (internal_temp s) (rssi s) (time_str s) h m sec) d.

(** The constructor. *)
Definition DisplayManager_new : DisplayManager :=
  mkDisplayManager None None DIRECT 0 0 0 0 0
    (mkPowerData (F32.of_Z (-1)) (F32.of_Z (-1)) (F32.of_Z (-1)))
    (mkStatusData (F32.of_Z (-100)) (-100) "--:--:--" "" "" "")
    Config.BG_COLOR (-1).

(** [getDrawTarget]: the canvas when it is usable, the panel otherwise.
    [which] names the canvas the pointer refers to. *)
Definition getDrawTarget (which : surface) (canvas : option GFXcanvas16) : surface :=
  if usable canvas then which else Tft.

(** [flushCanvas] *)
Definition flushCanvas (which : surface) (canvas : option GFXcanvas16) (x y : Z)
  : list event :=
  match canvas with
  | Some cv =>
      if has_buffer cv
      then [drawRGBBitmap Tft x y which (canvas_width cv) (canvas_height cv)]
      else []
  | None => []
  end.

Definition getRSSILevel (rssi : Z) : Z :=
  if -55 <=? rssi then 4
  else if -65 <=? rssi then 3
  else if -75 <=? rssi then 2
  else if -85 <=? rssi then 1
  else 0.

Definition getPowerColor (power : F32.float) : Z :=
  if F32.leb power (F32.of_Z 1500) then Config.POWER_COLOR_NORMAL
  else if F32.leb power (F32.of_Z 2500) then Config.POWER_COLOR_MEDIUM
  else if F32.leb power (F32.of_Z 3500) then Config.POWER_COLOR_HIGH
  else Config.POWER_COLOR_MAX.

(** [grayToRGB565]; the argument is converted to [uint8_t]. *)
Definition grayToRGB565 (g : Z) : Z :=
  let gray := MachineInt.to_uint8 g in
  let r := Z.land (Z.shiftr gray 3) 0x1F in
  let gr := Z.land (Z.shiftr gray 2) 0x3F in
  let b := Z.land (Z.shiftr gray 3) 0x1F in
  MachineInt.to_uint16 (Z.lor (Z.lor (Z.shiftl r 11) (Z.shiftl gr 5)) b).

(** Lines 602-615 of [drawPowerValue]: the text of the value, the unit and
    the gap between them. *)
Definition power_text (value : F32.float) : string * string * Z :=
  if F32.geb value (F32.of_Z 1000) then
    let kw_value := F32.div value (F32.of_Z 1000) in
    (Format.String_float1 kw_value, "kW", 2)
  else
    (Format.String_int (F32.to_int (F32.round value)), "W", 3).

(** The two texts of [drawVoltageCurrentRevised]. *)
Definition voltage_text (v : F32.float) : string :=
  Format.snprintf_fit 16 (MachineInt.decimal (F32.to_int (F32.round v)) ++ "V").

Definition current_text (c : F32.float) : string :=
  Format.snprintf_fit 16 (Format.printf_f1 c ++ "A").

(** The text of [drawTemperature]; character 247 is the degree sign of the
    built-in font. *)
Definition temperature_text (rounded_temp : Z) : string :=
  Format.snprintf_fit 8
    (MachineInt.decimal rounded_temp ++ String (ascii_of_nat 247) "C").

Section Renderers.

(** [getTextBounds] of the graphics library: the width and height of
    [text] drawn on the given surface at the given text size. *)
Variable getTextBounds : surface -> Z -> string -> Z * Z.

Definition text_w (t : surface) (size : Z) (s : string) : Z :=
  MachineInt.to_uint16 (fst (getTextBounds t size s)).
Definition text_h (t : surface) (size : Z) (s : string) : Z :=
  MachineInt.to_uint16 (snd (getTextBounds t size s)).

(** [drawFullScreenMessage] *)
Definition drawFullScreenMessage (text : string) (textSize : Z) (color : Z)
  : Prog DisplayManager unit :=
  let w := text_w Tft (MachineInt.to_uint8 textSize) text in
  let h := text_h Tft (MachineInt.to_uint8 textSize) text in
  let x := MachineInt.cdiv (Panel.width - w) 2 in
  let y := MachineInt.cdiv (Panel.height - h) 2 in
  emit [ fillScreen Tft Config.BG_COLOR;
         setTextWrap Tft true;
         setTextSize Tft textSize;
         setTextColor Tft color;
         setCursor Tft 0 0;
         setCursor Tft x y;
         print Tft text;
         setTextWrap Tft false ].

(** [getTextCenterPos]: sets the text size of the target and returns the
    cursor position. *)
Definition getTextCenterPos (target : surface) (text : string) (font_size : Z)
           (area_x area_y area_w area_h : Z) : list event * (Z * Z) :=
  let w := text_w target (MachineInt.to_uint8 font_size) text in
  let h := text_h target (MachineInt.to_uint8 font_size) text in
  ([setTextSize target font_size],
   (MachineInt.to_int16 (area_x + MachineInt.cdiv (area_w - w) 2),
    MachineInt.to_int16 (area_y + MachineInt.cdiv (area_h - h) 2 + 1))).

(** The four bars of the icon, from bar [i] on. *)
Fixpoint wifi_bars (n : nat) (target : surface) (d : DisplayManager)
         (level i current_x : Z) : list event :=
  match n with
  | O => []
  | S n' =>
      let bar_max_h := Config.WIFI_ICON_HEIGHT in
      let bar_w := 4 in
      let bar_gap := 2 in
      let color := if i + 1 <=? level then Config.WIFI_ICON_COLOR
                   else Config.STATUS_BAR_LINE_COLOR in
      let bar_h := MachineInt.cdiv (bar_max_h * (i + 1)) 4 in
      fillRect target current_x (wifi_icon_y d + bar_max_h - bar_h) bar_w bar_h color
        :: wifi_bars n' target d level (i + 1) (current_x + (bar_w + bar_gap))
  end.

(** [drawWiFiIcon] *)
Definition drawWiFiIcon (d : DisplayManager) (target : surface) (level : Z)
  : list event :=
  let bar_w := 4 in
  let bar_gap := 2 in
  let total_icon_w := 4 * bar_w + 3 * bar_gap in
  let start_x := wifi_icon_x d + MachineInt.cdiv (Config.WIFI_ICON_WIDTH - total_icon_w) 2 in
  fillRect target (wifi_icon_x d) (wifi_icon_y d)
           Config.WIFI_ICON_WIDTH Config.WIFI_ICON_HEIGHT Config.STATUS_BAR_BG_COLOR
    :: wifi_bars 4 target d level 0 start_x.

(** The rectangle [drawTemperature] clears. *)
Definition temp_clear_rect (d : DisplayManager) : Z * Z :=
  let max_temp_width_pixels := 65 in
  let clear_x0 := temp_text_right_x d - max_temp_width_pixels in
  let clear_x := if clear_x0 <? 0 then 0 else clear_x0 in
  let clear_width := if clear_x =? 0 then temp_text_right_x d
                     else max_temp_width_pixels in
  (clear_x, clear_width).

Definition temp_color (rounded_temp : Z) : Z :=
  if rounded_temp <? 60 then Config.TEMP_COLOR_GREEN
  else if rounded_temp <=? 65 then Config.TEMP_COLOR_YELLOW
  else if rounded_temp <=? 70 then Config.TEMP_COLOR_ORANGE
  else Config.TEMP_COLOR_RED.

(** [drawTemperature] *)
Definition drawTemperature (d : DisplayManager) (target : surface)
           (rounded_temp : Z) : list event :=
  let temp_str := temperature_text rounded_temp in
  let '(clear_x, clear_width) := temp_clear_rect d in
  let w := text_w target Config.STATUS_BAR_FONT_SIZE temp_str in
  let h := text_h target Config.STATUS_BAR_FONT_SIZE temp_str in
  let text_y := MachineInt.cdiv (Config.STATUS_BAR_HEIGHT - h) 2 + 1 in
  let text_x := temp_text_right_x d - w in
  [ fillRect target clear_x 0 clear_width Config.STATUS_BAR_HEIGHT
             Config.STATUS_BAR_BG_COLOR;
    setTextSize target Config.STATUS_BAR_FONT_SIZE;
    setTextColor target (temp_color rounded_temp);
    setCursor target text_x text_y;
    print target temp_str ].

(** [drawTimeSegment] *)
Definition drawTimeSegment (target : surface) (text prev_text : string)
           (x_pos : Z) (force_redraw : bool) : list event :=
  if negb (String.eqb text prev_text) || force_redraw then
    let w := text_w target Config.TIME_FONT_SIZE text in
    let h := text_h target Config.TIME_FONT_SIZE text in
    let text_y := MachineInt.cdiv (Config.STATUS_BAR_HEIGHT - h) 2 + 1 in
    let text_x := x_pos + Config.TIME_SEGMENT_WIDTH - w in
    [ fillRect target x_pos 0 Config.TIME_SEGMENT_WIDTH Config.STATUS_BAR_HEIGHT
               Config.STATUS_BAR_BG_COLOR;
      setTextSize target Config.TIME_FONT_SIZE;
      setTextColor target Config.TIME_COLOR;
      setCursor target text_x text_y;
      print target text ]
  else [].

(** [drawTimeSeparator] *)
Definition drawTimeSeparator (target : surface) (x_pos : Z) (force_redraw : bool)
  : list event :=
  if force_redraw then
    [ setTextSize target Config.TIME_FONT_SIZE;
      setTextColor target Config.TIME_COLOR;
      setCursor target x_pos (MachineInt.cdiv (Config.STATUS_BAR_HEIGHT - 16) 2 + 1);
      print target ":" ]
  else [].

(** Left edges of the three time slots. *)
Definition hours_x (d : DisplayManager) : Z := time_text_left_x d.
Definition minutes_x (d : DisplayManager) : Z :=
  time_text_left_x d + Config.TIME_SEGMENT_WIDTH + Config.TIME_SEPARATOR_WIDTH.
Definition seconds_x (d : DisplayManager) : Z :=
  minutes_x d + Config.TIME_SEGMENT_WIDTH + Config.TIME_SEPARATOR_WIDTH.

(** [drawTime] *)
Definition drawTime (d : DisplayManager) (target : surface) (status : StatusData)
           (force_redraw : bool) : list event :=
  let time_start_x := time_text_left_x d in
  let sep1_x := time_start_x + Config.TIME_SEGMENT_WIDTH in
  let min_x := sep1_x + Config.TIME_SEPARATOR_WIDTH in
  let sep2_x := min_x + Config.TIME_SEGMENT_WIDTH in
  let sec_x := sep2_x + Config.TIME_SEPARATOR_WIDTH in
  (drawTimeSegment target (hours status) (hours (prev_status d)) time_start_x force_redraw
   ++ drawTimeSeparator target sep1_x force_redraw
   ++ drawTimeSegment target (minutes status) (minutes (prev_status d)) min_x force_redraw
   ++ drawTimeSeparator target sep2_x force_redraw
   ++ drawTimeSegment target (seconds status) (seconds (prev_status d)) sec_x force_redraw)%list.

(** [drawPowerValue] *)
Definition drawPowerValue (target : surface) (value : F32.float) (value_color : Z)
           (area_x area_y area_w area_h : Z)
           (prev_value : F32.float) (prev_color : Z) (force_redraw : bool)
  : list event :=
  let value_changed :=
    F64.gtb (F64.of_float (F32.abs (F32.sub value prev_value)))
            Config.POWER_CHANGE_THRESHOLD in
  let color_changed := negb (value_color =? prev_color) in
  if negb value_changed && negb color_changed && negb force_redraw then []
  else
    let '(value_str, unit_str, unit_gap) := power_text value in
    let value_w := text_w target Config.POWER_VALUE_FONT_SIZE value_str in
    let value_h := text_h target Config.POWER_VALUE_FONT_SIZE value_str in
    let unit_w := text_w target Config.POWER_UNIT_FONT_SIZE unit_str in
    let unit_h := text_h target Config.POWER_UNIT_FONT_SIZE unit_str in
    let total_w := MachineInt.to_uint16 (value_w + unit_gap + unit_w) in
    let start_x := MachineInt.to_int16 (area_x + MachineInt.cdiv (area_w - total_w) 2) in
    let start_y := MachineInt.to_int16 (area_y + MachineInt.cdiv (area_h - value_h) 2) in
    let unit_y :=
      MachineInt.to_int16 (start_y + (value_h - unit_h) - MachineInt.cdiv value_h 10) in
    [ fillRect target area_x area_y area_w area_h Config.BG_COLOR;
      setTextSize target Config.POWER_VALUE_FONT_SIZE;
      setTextSize target Config.POWER_UNIT_FONT_SIZE;
      setTextSize target Config.POWER_VALUE_FONT_SIZE;
      setTextColor target value_color;
      setCursor target start_x start_y;
      print target value_str;
      setTextSize target Config.POWER_UNIT_FONT_SIZE;
      setTextColor target value_color;
      setCursor target (start_x + value_w + unit_gap) unit_y;
      print target unit_str ].

(** One half of [drawVoltageCurrentRevised]: clear the half and print
    the text centred in it. *)
Definition draw_centered (target : surface) (text : string) (font_size color : Z)
           (x area_y value_area_w area_h : Z) : list event :=
  let '(ev, (cursor_x, cursor_y)) :=
    getTextCenterPos target text font_size x area_y value_area_w area_h in
  (fillRect target x area_y value_area_w area_h Config.BG_COLOR
     :: ev
     ++ [ setTextSize target font_size;
          setTextColor target color;
          setCursor target cursor_x cursor_y;
          print target text ])%list.

(** [drawVoltageCurrentRevised] *)
Definition drawVoltageCurrentRevised (target : surface) (v c : F32.float)
           (font_size v_color c_color : Z)
           (area_x area_y area_w area_h : Z)
           (prev_v prev_c : F32.float) (force_redraw : bool) : list event :=
  let v_str := voltage_text v in
  let c_str := current_text c in
  let v_changed :=
    negb (SFeqb (F64.of_float (F32.round v)) (F64.of_float (F32.round prev_v))) in
  let c_changed :=
    F64.gtb (F64.of_float (F32.abs (F32.sub c prev_c)))
            Config.CURRENT_CHANGE_THRESHOLD in
  if negb v_changed && negb c_changed && negb force_redraw then []
  else
    let value_area_w := MachineInt.cdiv area_w 2 in
    let v_area_x := area_x in
    let c_area_x := area_x + value_area_w in
    ((if v_changed || force_redraw
      then draw_centered target v_str font_size v_color v_area_x area_y value_area_w area_h
      else [])
     ++
     (if c_changed || force_redraw
      then draw_centered target c_str font_size c_color c_area_x area_y value_area_w area_h
      else []))%list.

(** [begin]; the two arguments are the outcomes of the two allocations. *)
Definition begin (alloc_status alloc_main : alloc_result) : Prog DisplayManager unit :=
  (let screen_w := Panel.width in
   let icon_y := MachineInt.cdiv (Config.STATUS_BAR_HEIGHT - Config.WIFI_ICON_HEIGHT) 2 in
   let icon_x := screen_w - Config.WIFI_ICON_WIDTH - Config.WIFI_RIGHT_PADDING in
   modify (set_layout screen_w icon_x icon_y (icon_x - Config.TEMP_WIFI_GAP) 5) ;;
   if Config.ENABLE_DOUBLE_BUFFER then
     emit [NewCanvas StatusCanvas 320 Config.STATUS_BAR_HEIGHT] ;;
     modify (set_status_canvas
               (new_GFXcanvas16 alloc_status 320 Config.STATUS_BAR_HEIGHT)) ;;
     d <- get ;;
     when (negb (usable (status_canvas d)))
          (match status_canvas d with
           | Some _ => emit [DeleteCanvas StatusCanvas] ;;
                       modify (set_status_canvas None)
           | None => ret tt
           end) ;;
     let main_height :=
       Panel.height - Config.STATUS_BAR_HEIGHT - 1 - Config.STATUS_BAR_V_PADDING in
     emit [NewCanvas MainCanvas 320 main_height] ;;
     modify (set_main_canvas (new_GFXcanvas16 alloc_main 320 main_height)) ;;
     d <- get ;;
     when (negb (usable (main_canvas d)))
          (match main_canvas d with
           | Some _ => emit [DeleteCanvas MainCanvas] ;;
                       modify (set_main_canvas None)
           | None => ret tt
           end) ;;
     d <- get ;;
     match status_canvas d, main_canvas d with
     | None, None => modify (set_buffer_mode DIRECT)
     | _, _ => modify (set_buffer_mode TILE)
     end
   else
     modify (set_buffer_mode DIRECT))%prog.

(** The strips of one frame of [drawStartupFrame], from [strip_y] down;
    [fuel] bounds the number of strips. *)
Fixpoint startup_strips (fuel : nat) (strip_y strip_h : Z) (bgColor textColor : Z)
         (showText : bool) (title subtitle : string)
         (title_x title_y sub_x sub_y : Z) : list event :=
  match fuel with
  | O => []
  | S fuel' =>
      let screen_h := Panel.height in
      let screen_w := Panel.width in
      if strip_y <? screen_h then
        let current_strip_h := Z.min strip_h (screen_h - strip_y) in
        let title_h := 21 in
        let sub_h := 14 in
        ([fillScreen Strip bgColor]
         ++ (if showText
             then
               (if (title_y <? strip_y + current_strip_h) && (strip_y <? title_y + title_h)
                then [ setTextColor Strip textColor;
                       setTextSize Strip 3;
                       setCursor Strip title_x (title_y - strip_y);
                       print Strip title ]
                else [])
               ++
               (if (sub_y <? strip_y + current_strip_h) && (strip_y <? sub_y + sub_h)
                then [ setTextColor Strip textColor;
                       setTextSize Strip 2;
                       setCursor Strip sub_x (sub_y - strip_y);
                       print Strip subtitle ]
                else [])
             else [])
         ++ [drawRGBBitmap Tft 0 strip_y Strip screen_w current_strip_h]
         ++ startup_strips fuel' (strip_y + strip_h) strip_h bgColor textColor
              showText title subtitle title_x title_y sub_x sub_y)%list
      else []
  end.

(** [drawStartupFrame]; with a positive strip height the loop makes at
    most one pass per pixel row. *)
Definition drawStartupFrame (strip_h : Z) (bgColor textColor : Z)
           (showText : bool) (title subtitle : string)
           (title_x title_y sub_x sub_y : Z) : list event :=
  startup_strips (Z.to_nat Panel.height) 0 strip_h bgColor textColor
                 showText title subtitle title_x title_y sub_x sub_y.

(** The values [0, 20, ..., 240] of the fade-in loop and
    [255, 235, ..., 15] of the fade-out loop. *)
Definition fade_in_steps : list Z := map (fun k => 20 * Z.of_nat k) (seq 0 13).
Definition fade_out_steps : list Z := map (fun k => 255 - 20 * Z.of_nat k) (seq 0 13).

(** [drawStartupAnimation]; the argument is the outcome of allocating
    the strip buffer. *)
Definition drawStartupAnimation (alloc_strip : alloc_result)
  : Prog DisplayManager unit :=
  let title := "ESP32-C3" in
  let subtitle := "Energy Monitor" in
  let tw := text_w Tft 3 title in
  let th := text_h Tft 3 title in
  let sw := text_w Tft 2 subtitle in
  let title_x := MachineInt.cdiv (Panel.width - tw) 2 in
  let title_y := MachineInt.cdiv Panel.height 2 - 20 in
  let sub_x := MachineInt.cdiv (Panel.width - sw) 2 in
  let sub_y := title_y + th + 15 in
  let STRIP_HEIGHT := 60 in
  let strip := new_GFXcanvas16 alloc_strip 320 STRIP_HEIGHT in
  let frame bg fg show :=
    drawStartupFrame STRIP_HEIGHT bg fg show title subtitle title_x title_y sub_x sub_y in
  emit ([ setTextSize Tft 3; setTextSize Tft 2; NewCanvas Strip 320 STRIP_HEIGHT ]
        ++ (if negb (usable strip) then
              [ fillScreen Tft Config.ST77XX_BLACK;
                fillScreen Tft Config.ST77XX_WHITE;
                setTextColor Tft Config.ST77XX_BLACK;
                setTextSize Tft 3;
                setCursor Tft title_x title_y;
                print Tft title;
                setTextSize Tft 2;
                setCursor Tft sub_x sub_y;
                print Tft subtitle;
                fillScreen Tft Config.ST77XX_BLACK ]
              ++ (match strip with Some _ => [DeleteCanvas Strip] | None => [] end)
            else
              frame Config.ST77XX_BLACK Config.ST77XX_BLACK false
              ++ flat_map (fun i => frame (grayToRGB565 i) (grayToRGB565 i) false)
                          fade_in_steps
              ++ frame Config.ST77XX_WHITE Config.ST77XX_BLACK true
              ++ flat_map (fun i => frame (grayToRGB565 i)
                                          (grayToRGB565 (Z.max 0 (i - 80)))
                                          (30 <? i))
                          fade_out_steps
              ++ frame Config.ST77XX_BLACK Config.ST77XX_BLACK false
              ++ [DeleteCanvas Strip]))%list.

(** The three change tests of [drawStatusBar]. *)
Definition rounded_temp_of (status : StatusData) : Z :=
  F32.to_int (F32.round (internal_temp status)).

Definition time_changed (d : DisplayManager) (status : StatusData) : bool :=
  negb (String.eqb (hours status) (hours (prev_status d)))
  || negb (String.eqb (minutes status) (minutes (prev_status d)))
  || negb (String.eqb (seconds status) (seconds (prev_status d))).

Definition rssi_changed (d : DisplayManager) (status : StatusData) : bool :=
  negb (getRSSILevel (rssi status) =? prev_rssi_level d).

Definition temp_changed (d : DisplayManager) (status : StatusData) : bool :=
  negb (SFeqb (F64.of_Z (rounded_temp_of status))
              (F64.of_float (F32.round (internal_temp (prev_status d))))).

(** [drawStatusBar] *)
Definition drawStatusBar (status : StatusData) (force_redraw : bool)
  : Prog DisplayManager unit :=
  (d <- get ;;
   let current_level := getRSSILevel (rssi status) in
   let rounded_temp := rounded_temp_of status in
   let target := getDrawTarget StatusCanvas (status_canvas d) in
   let using_canvas := surface_eqb target StatusCanvas in
   let effective_force_redraw := force_redraw || using_canvas in
   if negb (rssi_changed d status) && negb (temp_changed d status)
      && negb (time_changed d status) && negb effective_force_redraw
   then ret tt
   else
     when using_canvas (emit [fillScreen StatusCanvas Config.STATUS_BAR_BG_COLOR]) ;;
     when (rssi_changed d status || effective_force_redraw)
          (emit (drawWiFiIcon d target current_level) ;;
           modify (set_prev_rssi_level current_level)) ;;
     when (temp_changed d status || effective_force_redraw)
          (emit (drawTemperature d target rounded_temp) ;;
           modify (set_prev_temp (internal_temp status))) ;;
     when (time_changed d status || effective_force_redraw)
          (d1 <- get ;;
           emit (drawTime d1 target status effective_force_redraw) ;;
           modify (set_prev_time (hours status) (minutes status) (seconds status))) ;;
     when using_canvas (emit (flushCanvas StatusCanvas (status_canvas d) 0 0)))%prog.

(** Layout of the main area. *)
Definition main_area_y : Z := Config.STATUS_BAR_HEIGHT + 1 + Config.STATUS_BAR_V_PADDING.
Definition main_area_h : Z := Panel.height - main_area_y.
Definition power_area_h : Z := MachineInt.cdiv (main_area_h * 3) 5.
Definition va_area_y : Z := power_area_h.
Definition va_area_h : Z := main_area_h - power_area_h.

(** The call of [drawPowerValue] made by [drawMainDisplay]. *)
Definition main_power_events (d : DisplayManager) (power : PowerData)
           (force_redraw : bool) : list event :=
  let target := getDrawTarget MainCanvas (main_canvas d) in
  let using_canvas := surface_eqb target MainCanvas in
  drawPowerValue target (power_active power) (getPowerColor (power_active power))
                 0 0 (screen_width d) power_area_h
                 (power_active (prev_power d)) (prev_power_color d)
                 (force_redraw || using_canvas).

(** The call of [drawVoltageCurrentRevised] made by [drawMainDisplay]. *)
Definition main_va_events (d : DisplayManager) (power : PowerData)
           (force_redraw : bool) : list event :=
  let target := getDrawTarget MainCanvas (main_canvas d) in
  let using_canvas := surface_eqb target MainCanvas in
  drawVoltageCurrentRevised target (voltage power) (current power)
                 Config.VA_FONT_SIZE Config.VOLTAGE_COLOR Config.CURRENT_COLOR
                 0 va_area_y (screen_width d) va_area_h
                 (voltage (prev_power d)) (current (prev_power d))
                 (force_redraw || using_canvas).

(** [drawMainDisplay] *)
Definition drawMainDisplay (power : PowerData) (force_redraw : bool)
  : Prog DisplayManager unit :=
  (d <- get ;;
   let current_power_color := getPowerColor (power_active power) in
   let target := getDrawTarget MainCanvas (main_canvas d) in
   let using_canvas := surface_eqb target MainCanvas in
   when using_canvas (emit [fillScreen MainCanvas Config.BG_COLOR]) ;;
   emit (main_power_events d power force_redraw) ;;
   emit (main_va_events d power force_redraw) ;;
   when using_canvas (emit (flushCanvas MainCanvas (main_canvas d) 0 main_area_y)) ;;
   modify (set_prev_power power) ;;
   modify (set_prev_power_color current_power_color))%prog.

(** [drawInitialUI]; the argument is the reading of [temperatureRead]. *)
Definition drawInitialUI (temperature : F32.float) : Prog DisplayManager unit :=
  (d <- get ;;
   emit [ fillScreen Tft Config.BG_COLOR;
          drawFastHLine Tft 0 Config.STATUS_BAR_HEIGHT (screen_width d)
                        Config.STATUS_BAR_LINE_COLOR ] ;;
   let init_status := mkStatusData temperature (-100) "--:--:--" "--" "--" "--" in
   let init_power := mkPowerData (S754_zero false) (S754_zero false) (S754_zero false) in
   drawStatusBar init_status true ;;
   drawMainDisplay init_power true ;;
   modify (set_prev_status init_status) ;;
   modify (set_prev_power init_power) ;;
   modify (set_prev_power_color Config.POWER_COLOR_NORMAL) ;;
   modify (set_prev_rssi_level (getRSSILevel (rssi init_status))))%prog.

End Renderers.

(** Text metrics of the built-in 6x8 font: six by eight pixels per
    character, times the text size, for a text on one line. *)
Definition classic_font_bounds (_ : surface) (size : Z) (s : string) : Z * Z :=
  (6 * size * Z.of_nat (String.length s), 8 * size).

(** ** data_fetcher.h *)

(** The document [deserializeJson] builds from the payload: for each
    member, its name and the value [as<float>()] returns for it. *)
Definition JsonDocument : Type := list (string * F32.float).

Fixpoint containsKey (doc : JsonDocument) (key : string) : bool :=
  match doc with
  | [] => false
  | (k, _) :: rest => String.eqb k key || containsKey rest key
  end.

(** [doc[key].as<float>()]; a missing member reads as zero. *)
Fixpoint as_float (doc : JsonDocument) (key : string) : F32.float :=
  match doc with
  | [] => S754_zero false
  | (k, v) :: rest => if String.eqb k key then v else as_float rest key
  end.

(** The answer to [http.GET()]: the status code and, for the payload, the
    outcome of [deserializeJson] ([None] is a deserialization error). *)
Record HttpReply : Type := mkHttpReply {
  http_code : Z;
  http_payload : option JsonDocument
}.

Definition HTTP_CODE_OK : Z := 200.

Record DataFetcher : Type := mkDataFetcher {
  last_fetch_time : Z;
  last_fetch_successful : bool;
  consecutive_failures : Z
}.

Definition DataFetcher_new : DataFetcher := mkDataFetcher 0 false 0.

(** An [int] compared with a float: the integer is converted first. *)
Definition out_of_range (x : F32.float) (lo hi : Z) : bool :=
  F32.ltb x (F32.of_Z lo) || F32.gtb x (F32.of_Z hi).

(** [parseJSON]: the result and the contents of the out-parameter [data]
    when it returns. *)
Definition parseJSON (payload : option JsonDocument) (data : PowerData)
  : bool * PowerData :=
  match payload with
  | None => (false, data)
  | Some doc =>
      if negb (containsKey doc "voltage")
         || negb (containsKey doc "current")
         || negb (containsKey doc "power_active")
      then (false, data)
      else
        let data1 := mkPowerData (as_float doc "voltage")
                                 (as_float doc "current")
                                 (as_float doc "power_active") in
        if out_of_range (voltage data1) 0 500 then (false, data1)
        else if out_of_range (current data1) 0 100 then (false, data1)
        else if out_of_range (power_active data1) 0 50000 then (false, data1)
        else (true, data1)
  end.

(** [consecutive_failures++] *)
Definition count_failure (f : DataFetcher) : DataFetcher :=
  mkDataFetcher (last_fetch_time f) false
                (MachineInt.to_int (consecutive_failures f + 1)).

(** [fetchPowerData]: [reply] is the answer of the server, [now] the
    reading of [millis] after a successful parse.  The result is the
    returned flag, the contents of the out-parameter and the fetcher. *)
Definition fetchPowerData (reply : HttpReply) (now : Z) (data : PowerData)
           (f : DataFetcher) : bool * PowerData * DataFetcher :=
  if http_code reply =? HTTP_CODE_OK then
    let '(ok, data1) := parseJSON (http_payload reply) data in
    if ok then (true, data1, mkDataFetcher (MachineInt.to_ulong now) true 0)
    else (false, data1, count_failure f)
  else if 0 <? http_code reply then (false, data, count_failure f)
  else (false, data, count_failure f).

Definition getConsecutiveFailures (f : DataFetcher) : Z := consecutive_failures f.

Definition resetFailures (f : DataFetcher) : DataFetcher :=
  mkDataFetcher (last_fetch_time f) (last_fetch_successful f) 0.

(** ** wifi_manager.h *)

(** The credentials and their storage play no part in what follows and
    are left out. *)
Record WiFiManager : Type := mkWiFiManager {
  state : WiFiState;
  reconnect_attempts : Z;
  last_reconnect_attempt : Z
}.

Definition WiFiManager_new : WiFiManager := mkWiFiManager WIFI_DISCONNECTED 0 0.

(** What one call of [connect] or [reconnect] observes: the link state on
    entry, the clock, and the link state at each later poll. *)
Record LinkEnv : Type := mkLinkEnv {
  link_up_on_entry : bool;
  link_millis : Z;
  link_poll : nat -> bool
}.

(** The wait loop [while (WiFi.status() != WL_CONNECTED && timeout > 0)]:
    the index of the poll that follows the loop. *)
Fixpoint wait_for_link (timeout : nat) (poll : nat -> bool) (k : nat) : nat :=
  if poll k then S k
  else match timeout with
       | O => S k
       | S t => wait_for_link t poll (S k)
       end.

(** [connect] *)
Definition connect (env : LinkEnv) (w : WiFiManager) : bool * WiFiManager :=
  let k := wait_for_link (Z.to_nat Config.WIFI_CONNECT_TIMEOUT) (link_poll env) 0 in
  if link_poll env k
  then (true, mkWiFiManager WIFI_CONNECTED 0 (last_reconnect_attempt w))
  else (false, mkWiFiManager WIFI_FAILED (reconnect_attempts w) (last_reconnect_attempt w)).

(** The delay [reconnect] requires since the last attempt:
    [WIFI_RECONNECT_BACKOFF_MS * (1 << reconnect_attempts)] in [int],
    converted to [unsigned long] and capped. *)
Definition backoff_delay (attempts : Z) : Z :=
  let d := MachineInt.to_ulong
             (MachineInt.mul_int Config.WIFI_RECONNECT_BACKOFF_MS
                                 (MachineInt.shl_int 1 attempts)) in
  Z.min d 16000.

(** [reconnect] *)
Definition reconnect (env : LinkEnv) (w : WiFiManager) : bool * WiFiManager :=
  if link_up_on_entry env then
    (true, mkWiFiManager WIFI_CONNECTED (reconnect_attempts w) (last_reconnect_attempt w))
  else
    let current_time := MachineInt.to_ulong (link_millis env) in
    if MachineInt.sub_ulong current_time (last_reconnect_attempt w)
       <? backoff_delay (reconnect_attempts w)
    then (false, w)
    else
      let k := wait_for_link (Z.to_nat Config.WIFI_RECONNECT_TIMEOUT) (link_poll env) 0 in
      if link_poll env k
      then (true, mkWiFiManager WIFI_CONNECTED 0 current_time)
      else
        let attempts := MachineInt.to_int (reconnect_attempts w + 1) in
        (false,
         mkWiFiManager
           (if Config.WIFI_RECONNECT_MAX_ATTEMPTS <=? attempts
            then WIFI_FAILED else WIFI_RECONNECTING)
           attempts current_time).

(** [getRSSI]: the link state it observes and the reading of the radio. *)
Record RssiEnv : Type := mkRssiEnv {
  rssi_link_up : bool;
  rssi_reading : Z
}.

Definition getRSSI (env : RssiEnv) : Z :=
  if rssi_link_up env then rssi_reading env else -100.

(** ** The sketch *)

Record Sketch : Type := mkSketch {
  wifiMgr : WiFiManager;
  displayMgr : DisplayManager;
  dataFetcher : DataFetcher;
  currentPower : PowerData;
  currentStatus : StatusData;
  last_data_fetch : Z;
  last_time_update : Z;
  first_loop : bool
}.

Definition set_wifiMgr (w : WiFiManager) (s : Sketch) :=
  mkSketch w (displayMgr s) (dataFetcher s) (currentPower s) (currentStatus s)
           (last_data_fetch s) (last_time_update s) (first_loop s).
Definition set_displayMgr (d : DisplayManager) (s : Sketch) :=
  mkSketch (wifiMgr s) d (dataFetcher s) (currentPower s) (currentStatus s)
           (last_data_fetch s) (last_time_update s) (first_loop s).
Definition set_dataFetcher (f : DataFetcher) (s : Sketch) :=
  mkSketch (wifiMgr s) (displayMgr s) f (currentPower s) (currentStatus s)
           (last_data_fetch s) (last_time_update s) (first_loop s).
Definition set_currentPower (p : PowerData) (s : Sketch) :=
  mkSketch (wifiMgr s) (displayMgr s) (dataFetcher s) p (currentStatus s)
           (last_data_fetch s) (last_time_update s) (first_loop s).
Definition set_currentStatus (c : StatusData) (s : Sketch) :=
  mkSketch (wifiMgr s) (displayMgr s) (dataFetcher s) (currentPower s) c
           (last_data_fetch s) (last_time_update s) (first_loop s).
Definition set_last_data_fetch (t : Z) (s : Sketch) :=
  mkSketch (wifiMgr s) (displayMgr s) (dataFetcher s) (currentPower s) (currentStatus s)
           t (last_time_update s) (first_loop s).
Definition set_last_time_update (t : Z) (s : Sketch) :=
  mkSketch (wifiMgr s) (displayMgr s) (dataFetcher s) (currentPower s) (currentStatus s)
           (last_data_fetch s) t (first_loop s).
Definition set_first_loop (b : bool) (s : Sketch) :=
  mkSketch (wifiMgr s) (displayMgr s) (dataFetcher s) (currentPower s) (currentStatus s)
           (last_data_fetch s) (last_time_update s) b.

(** The global objects before [setup] runs. *)
Definition Sketch_new : Sketch :=
  mkSketch WiFiManager_new DisplayManager_new DataFetcher_new
           (mkPowerData (S754_zero false) (S754_zero false) (S754_zero false))
           (mkStatusData (S754_zero false) (-100) "--:--:--" "--" "--" "--")
           0 0 true.

(** The broken-down time [getLocalTime] delivers. *)
Record tm : Type := mkTm { tm_hour : Z; tm_min : Z; tm_sec : Z }.

Definition newline : string := String (ascii_of_nat 10) "".

(** What [handleWiFiDisconnection] reads from its environment, in the
    order it reads it. *)
Record HandlerEnv : Type := mkHandlerEnv {
  h_temp_lost : F32.float;
  h_link : LinkEnv;
  h_time : option tm;
  h_rssi : RssiEnv;
  h_temp_back : F32.float;
  h_temp_ui : F32.float
}.

(** What one pass of [loop] reads from its environment. *)
Record LoopEnv : Type := mkLoopEnv {
  l_millis : Z;
  l_status_link_up : bool;
  l_temp : F32.float;
  l_rssi : RssiEnv;
  l_time : option tm;
  l_fetch_link_up : bool;
  l_reply : HttpReply;
  l_fetch_millis : Z;
  l_handler : HandlerEnv
}.

Section SketchCode.

Variable getTextBounds : surface -> Z -> string -> Z * Z.

(** A call on the global [displayMgr]. *)
Definition onDisplay {A} (m : Prog DisplayManager A) : Prog Sketch A :=
  zoom displayMgr set_displayMgr m.

Definition set_status_temp (t : F32.float) (s : Sketch) :=
  let c := currentStatus s in
  set_currentStatus
    (mkStatusData t (rssi c) (time_str c) (hours c) (minutes c) (seconds c)) s.

Definition set_status_rssi (r : Z) (s : Sketch) :=
  let c := currentStatus s in
  set_currentStatus
    (mkStatusData (internal_temp c) r (time_str c) (hours c) (minutes c) (seconds c)) s.

(** [updateTime] *)
Definition updateTime (t : option tm) (s : Sketch) : Sketch :=
  let c := currentStatus s in
  match t with
  | None =>
      set_currentStatus
        (mkStatusData (internal_temp c) (rssi c) "--:--:--" "--" "--" "--") s
  | Some t =>
      let h := Format.two_digits (tm_hour t) in
      let m := Format.two_digits (tm_min t) in
      let sec := Format.two_digits (tm_sec t) in
      set_currentStatus
        (mkStatusData (internal_temp c) (rssi c) (h ++ ":" ++ m ++ ":" ++ sec)%string
                      h m sec) s
  end.

(** [initializeNTP] *)
Definition initializeNTP (t : option tm) (s : Sketch) : Sketch := updateTime t s.

(** [handleWiFiDisconnection]; the result tells whether [reconnect]
    succeeded. *)
Definition handleWiFiDisconnection (env : HandlerEnv) : Prog Sketch bool :=
  (modify (set_status_rssi (-100)) ;;
   modify (set_status_temp (h_temp_lost env)) ;;
   s <- get ;;
   onDisplay (drawStatusBar getTextBounds (currentStatus s) true) ;;
   onDisplay (drawFullScreenMessage getTextBounds
                ("WiFi Lost!" ++ newline ++ "Reconnecting...")%string 2
                Config.ST77XX_RED) ;;
   let '(ok, w) := reconnect (h_link env) (wifiMgr s) in
   modify (set_wifiMgr w) ;;
   if ok then
     modify (initializeNTP (h_time env)) ;;
     modify (set_status_rssi (getRSSI (h_rssi env))) ;;
     modify (set_status_temp (h_temp_back env)) ;;
     onDisplay (drawFullScreenMessage getTextBounds "WiFi Reconnected!" 2
                  Config.ST77XX_GREEN) ;;
     onDisplay (drawInitialUI getTextBounds (h_temp_ui env)) ;;
     modify (fun s => set_dataFetcher (resetFailures (dataFetcher s)) s) ;;
     ret true
   else
     onDisplay (drawFullScreenMessage getTextBounds
                  ("Reconnecting..." ++ newline ++ "Please wait")%string 2
                  Config.ST77XX_ORANGE) ;;
     onDisplay (drawInitialUI getTextBounds (h_temp_ui env)) ;;
     ret false)%prog.

(** The first half of [loop]: the status bar, once a second. *)
Definition loop_time_update (env : LoopEnv) : Prog Sketch unit :=
  (s <- get ;;
   let current_time := MachineInt.to_ulong (l_millis env) in
   if (Config.TIME_UPDATE_INTERVAL
         <=? MachineInt.sub_ulong current_time (last_time_update s))
      && l_status_link_up env
   then
     modify (set_status_temp (l_temp env)) ;;
     modify (set_status_rssi (getRSSI (l_rssi env))) ;;
     modify (updateTime (l_time env)) ;;
     s1 <- get ;;
     onDisplay (drawStatusBar getTextBounds (currentStatus s1) false) ;;
     modify (set_last_time_update current_time)
   else ret tt)%prog.

(** The second half of [loop]: the data fetch.  The assignment
    [force_redraw = true] that follows the call of the handler stores to
    a local variable that is not read again; it has no counterpart. *)
Definition loop_data_fetch (env : LoopEnv) : Prog Sketch unit :=
  (s <- get ;;
   let current_time := MachineInt.to_ulong (l_millis env) in
   let force_redraw := first_loop s in
   let should_fetch :=
     (Config.LOOP_DELAY_MS <=? MachineInt.sub_ulong current_time (last_data_fetch s))
     || first_loop s in
   if should_fetch then
     modify (set_last_data_fetch current_time) ;;
     (if negb (l_fetch_link_up env) then
        _ <- handleWiFiDisconnection (l_handler env) ;; ret tt
      else
        s1 <- get ;;
        let '(ok, data, f) :=
          fetchPowerData (l_reply env) (l_fetch_millis env)
                         (currentPower s1) (dataFetcher s1) in
        modify (set_currentPower data) ;;
        modify (set_dataFetcher f) ;;
        if ok then onDisplay (drawMainDisplay getTextBounds data force_redraw)
        else ret tt) ;;
     modify (set_first_loop false)
   else ret tt)%prog.

(** [loop] *)
Definition loop (env : LoopEnv) : Prog Sketch unit :=
  (loop_time_update env ;; loop_data_fetch env)%prog.

(** Successive passes of [loop], one per environment. *)
Fixpoint run (envs : list LoopEnv) : Prog Sketch unit :=
  match envs with
  | [] => ret tt
  | e :: rest => (loop e ;; run rest)%prog
  end.

(** What [setup] reads from its environment: the outcomes of the two
    canvas allocations, what each connection attempt observes, and the
    first readings. *)
Record SetupEnv : Type := mkSetupEnv {
  s_alloc_status : alloc_result;
  s_alloc_main : alloc_result;
  s_connects : list LinkEnv;
  s_temp : F32.float;
  s_rssi : RssiEnv;
  s_time : option tm;
  s_temp_ui : F32.float
}.

(** The countdown shown after a failed connection attempt, from [i]
    seconds down to one. *)
Fixpoint countdown (i : nat) : Prog Sketch unit :=
  match i with
  | O => ret tt
  | S i' =>
      (onDisplay (drawFullScreenMessage getTextBounds
                    (Format.snprintf_fit 40
                       ("WiFi Failed!" ++ newline ++ "Retry in "
                          ++ MachineInt.decimal (Z.of_nat i) ++ "s...")%string)
                    2 Config.ST77XX_RED) ;;
       countdown i')%prog
  end.

(** [while (!wifiMgr.connect()) { ... }], one attempt per element of
    [envs]; the result tells whether an attempt succeeded. *)
Fixpoint connect_loop (envs : list LinkEnv) : Prog Sketch bool :=
  match envs with
  | [] => ret false
  | e :: rest =>
      (s <- get ;;
       let '(ok, w) := connect e (wifiMgr s) in
       modify (set_wifiMgr w) ;;
       if ok then ret true
       else
         onDisplay (drawFullScreenMessage getTextBounds
                      ("WiFi Failed!" ++ newline ++ "Retrying in 30s...")%string
                      2 Config.ST77XX_RED) ;;
         countdown 30 ;;
         onDisplay (drawFullScreenMessage getTextBounds "Connecting WiFi..." 2
                      Config.ST77XX_YELLOW) ;;
         connect_loop rest)%prog
  end.

(** [setup] once [displayMgr.begin()] has returned; the result tells
    whether it ran to its end, which it does as soon as one of the
    connection attempts succeeds. *)
Definition setup_after_begin (env : SetupEnv) : Prog Sketch bool :=
  (onDisplay (drawFullScreenMessage getTextBounds "Starting..." 2 Config.ST77XX_WHITE) ;;
   onDisplay (drawFullScreenMessage getTextBounds "Connecting WiFi..." 2
                Config.ST77XX_YELLOW) ;;
   connected <- connect_loop (s_connects env) ;;
   if connected then
     modify (set_status_temp (s_temp env)) ;;
     modify (set_status_rssi (getRSSI (s_rssi env))) ;;
     modify (initializeNTP (s_time env)) ;;
     onDisplay (drawFullScreenMessage getTextBounds "Connected!" 2 Config.ST77XX_GREEN) ;;
     onDisplay (drawInitialUI getTextBounds (s_temp_ui env)) ;;
     modify (set_first_loop true) ;;
     ret true
   else ret false)%prog.

(** [setup] *)
Definition setup (env : SetupEnv) : Prog Sketch bool :=
  (onDisplay (begin (s_alloc_status env) (s_alloc_main env)) ;;
   setup_after_begin env)%prog.

End SketchCode.

(** ** Vocabulary of the properties *)

(** The texts printed by a sequence of calls, in order. *)
Definition printed (l : list event) : list string :=
  flat_map (fun e => match e with Gfx _ (Print s) => [s] | _ => [] end) l.

(** The calls of a log that put pixels on a surface. *)
Definition is_paint_event (e : event) : bool :=
  match e with
  | Gfx _ c => is_paint c
  | _ => false
  end.

Definition paint_events (l : list event) : list event := filter is_paint_event l.

(** An event that allocates, frees, draws on or reads from the surface
    [which]. *)
Definition involves (which : surface) (e : event) : bool :=
  match e with
  | Gfx t (DrawRGBBitmap _ _ from _ _) => surface_eqb t which || surface_eqb from which
  | Gfx t _ => surface_eqb t which
  | NewCanvas w _ _ => surface_eqb w which
  | DeleteCanvas w => surface_eqb w which
  end.

Definition never_involves (which : surface) (l : list event) : bool :=
  forallb (fun e => negb (involves which e)) l.

(** The canvas of the display manager a surface name stands for. *)
Definition canvas_of (which : surface) (d : DisplayManager) : option GFXcanvas16 :=
  match which with
  | StatusCanvas => status_canvas d
  | MainCanvas => main_canvas d
  | _ => None
  end.

Definition alloc_failed (r : alloc_result) : bool :=
  match r with
  | AllocOk => false
  | _ => true
  end.

(** The public operations of the display manager that follow [begin]. *)
Inductive display_op : Type :=
| OpFullScreenMessage (text : string) (textSize color : Z)
| OpStartupAnimation (alloc_strip : alloc_result)
| OpInitialUI (temperature : F32.float)
| OpStatusBar (status : StatusData) (force_redraw : bool)
| OpMainDisplay (power : PowerData) (force_redraw : bool).

Definition do_op (gtb : surface -> Z -> string -> Z * Z) (op : display_op)
  : Prog DisplayManager unit :=
  match op with
  | OpFullScreenMessage text size color => drawFullScreenMessage gtb text size color
  | OpStartupAnimation a => drawStartupAnimation gtb a
  | OpInitialUI t => drawInitialUI gtb t
  | OpStatusBar st f => drawStatusBar gtb st f
  | OpMainDisplay p f => drawMainDisplay gtb p f
  end.

Fixpoint do_ops (gtb : surface -> Z -> string -> Z * Z) (ops : list display_op)
  : Prog DisplayManager unit :=
  match ops with
  | [] => ret tt
  | op :: rest => (do_op gtb op ;; do_ops gtb rest)%prog
  end.

(** The fields of the screen and the rectangle each renderer clears before
    it paints its field. *)
Inductive field : Type :=
| FSignal | FTemperature | FHours | FMinutes | FSeconds
| FPower | FVoltage | FCurrent.

Definition all_fields : list field :=
  [FSignal; FTemperature; FHours; FMinutes; FSeconds; FPower; FVoltage; FCurrent].

Definition field_surface (d : DisplayManager) (f : field) : surface :=
  match f with
  | FPower | FVoltage | FCurrent => getDrawTarget MainCanvas (main_canvas d)
  | _ => getDrawTarget StatusCanvas (status_canvas d)
  end.

Definition field_area (d : DisplayManager) (f : field) : Z * Z * Z * Z :=
  match f with
  | FSignal => (wifi_icon_x d, wifi_icon_y d, Config.WIFI_ICON_WIDTH, Config.WIFI_ICON_HEIGHT)
  | FTemperature =>
      (fst (temp_clear_rect d), 0, snd (temp_clear_rect d), Config.STATUS_BAR_HEIGHT)
  | FHours => (hours_x d, 0, Config.TIME_SEGMENT_WIDTH, Config.STATUS_BAR_HEIGHT)
  | FMinutes => (minutes_x d, 0, Config.TIME_SEGMENT_WIDTH, Config.STATUS_BAR_HEIGHT)
  | FSeconds => (seconds_x d, 0, Config.TIME_SEGMENT_WIDTH, Config.STATUS_BAR_HEIGHT)
  | FPower => (0, 0, screen_width d, power_area_h)
  | FVoltage => (0, va_area_y, MachineInt.cdiv (screen_width d) 2, va_area_h)
  | FCurrent =>
      (MachineInt.cdiv (screen_width d) 2, va_area_y,
       MachineInt.cdiv (screen_width d) 2, va_area_h)
  end.

(** The event clears the rectangle of the field. *)
Definition clears_field (d : DisplayManager) (f : field) (e : event) : bool :=
  let '(x, y, w, h) := field_area d f in
  match e with
  | Gfx t (FillRect x' y' w' h' _) =>
      surface_eqb t (field_surface d f)
      && (x' =? x) && (y' =? y) && (w' =? w) && (h' =? h)
  | _ => false
  end.

(** How often a log repaints a field. *)
Definition repaints (d : DisplayManager) (f : field) (l : list event) : nat :=
  List.length (filter (clears_field d f) l).

(** The layout [begin] computes. *)
Definition laid_out (d : DisplayManager) : Prop :=
  screen_width d = 320 /\ wifi_icon_x d = 291 /\ wifi_icon_y d = 11
  /\ temp_text_right_x d = 283 /\ time_text_left_x d = 5.

(** How often a log asks for the canvas [which] to be allocated. *)
Definition is_allocation (which : surface) (e : event) : bool :=
  match e with
  | NewCanvas w _ _ => surface_eqb w which
  | _ => false
  end.

Definition allocations (which : surface) (l : list event) : nat :=
  List.length (filter (is_allocation which) l).

(** Run from a state that satisfies [I], the program ends in a state that
    satisfies [I], and its log satisfies [L]. *)
Definition maintains_at {St A : Type} (I : St -> Prop) (L : list event -> Prop)
           (m : Prog St A) (s : St) : Prop :=
  I s -> I (state_of (m s)) /\ L (log_of (m s)).

(** The canvas [which] is absent. *)
Definition lost (which : surface) (d : DisplayManager) : Prop :=
  canvas_of which d = None.

(** No event of the log involves the canvas [which]. *)
Definition untouched (which : surface) (l : list event) : Prop :=
  never_involves which l = true.

(** The calls that repaint one time slot. *)
Definition slot_repaint (gtb : surface -> Z -> string -> Z * Z)
           (t : surface) (x_pos : Z) (text : string) : list event :=
  [ fillRect t x_pos 0 Config.TIME_SEGMENT_WIDTH Config.STATUS_BAR_HEIGHT
             Config.STATUS_BAR_BG_COLOR;
    setTextSize t Config.TIME_FONT_SIZE;
    setTextColor t Config.TIME_COLOR;
    setCursor t (x_pos + Config.TIME_SEGMENT_WIDTH - text_w gtb t Config.TIME_FONT_SIZE text)
              (MachineInt.cdiv (Config.STATUS_BAR_HEIGHT
                                - text_h gtb t Config.TIME_FONT_SIZE text) 2 + 1);
    print t text ].

(** *** Concrete states and inputs used in the examples *)

Definition link_up : LinkEnv := mkLinkEnv true 0 (fun _ => true).
Definition link_back : LinkEnv := mkLinkEnv false 60000 (fun _ => true).

Definition rssi_good : RssiEnv := mkRssiEnv true (-60).

(** A boot on which both canvases are allocated, and one on which the
    allocation of both fails. *)
Definition boot_buffered : SetupEnv :=
  mkSetupEnv AllocOk AllocOk [link_up] (F32.of_Z 40) rssi_good
             (Some (mkTm 12 34 9)) (F32.of_Z 40).

Definition boot_direct : SetupEnv :=
  mkSetupEnv AllocNoBuffer AllocNull [link_up] (F32.of_Z 40) rssi_good
             (Some (mkTm 12 34 9)) (F32.of_Z 40).

Definition sketch_buffered : Sketch :=
  state_of (setup classic_font_bounds boot_buffered Sketch_new).

Definition sketch_direct : Sketch :=
  state_of (setup classic_font_bounds boot_direct Sketch_new).

(** Two samples 0.3 W apart. *)
Definition watts_100_0 : PowerData :=
  mkPowerData (F32.of_Z 230) (F32.of_Z 2) (F32.of_Z 100).
Definition watts_100_3 : PowerData :=
  mkPowerData (F32.of_Z 230) (F32.of_Z 2) (F32.of_decimal 1003 1).

(** The sample of the scenario: 230.4 V, 4.35 A, 1001 W. *)
Definition scenario_sample : PowerData :=
  mkPowerData (F32.of_decimal 2304 1) (F32.of_decimal 435 2) (F32.of_Z 1001).

Definition json_of (p : PowerData) : JsonDocument :=
  [("voltage", voltage p); ("current", current p); ("power_active", power_active p)].

(** The status at 12:34:09 and one second later, and the display
    managers that have just drawn the former. *)
Definition status_12_34_09 : StatusData :=
  mkStatusData (F32.of_Z 40) (-60) "12:34:09" "12" "34" "09".
Definition status_12_34_10 : StatusData :=
  mkStatusData (F32.of_Z 40) (-60) "12:34:10" "12" "34" "10".

Definition display_buffered_at_09 : DisplayManager :=
  state_of (drawStatusBar classic_font_bounds status_12_34_09 false
                          (displayMgr sketch_buffered)).
Definition display_direct_at_09 : DisplayManager :=
  state_of (drawStatusBar classic_font_bounds status_12_34_09 false
                          (displayMgr sketch_direct)).

(** Samples 0.4 W apart. *)
Definition watts_100_4 : PowerData :=
  mkPowerData (F32.of_Z 230) (F32.of_Z 2) (F32.of_decimal 1004 1).
Definition watts_100_8 : PowerData :=
  mkPowerData (F32.of_Z 230) (F32.of_Z 2) (F32.of_decimal 1008 1).

(** A sample with a voltage of 600 V, and the answer that carries it. *)
Definition sample_600V : PowerData :=
  mkPowerData (F32.of_Z 600) (F32.of_decimal 435 2) (F32.of_Z 1001).

Definition reply_600V : HttpReply := mkHttpReply 200 (Some (json_of sample_600V)).

(** What [handleWiFiDisconnection] observes when the link comes back at
    the first poll of the attempt, and when it stays down. *)
Definition handler_link_back : HandlerEnv :=
  mkHandlerEnv (F32.of_Z 40) link_back (Some (mkTm 12 35 0)) rssi_good
               (F32.of_Z 40) (F32.of_Z 40).

(** A pass of [loop], five seconds after boot, with the link up, in which
    the server answers with the 600 V sample. *)
Definition pass_600V : LoopEnv :=
  mkLoopEnv 5000 true (F32.of_Z 40) rssi_good (Some (mkTm 12 34 10)) true
            reply_600V 5003 handler_link_back.











(** A number of tenths written with one digit after the point. *)
Definition tenths_text (t : Z) : string :=
  MachineInt.decimal (t / 10) ++ "." ++ Format.digit1 (t mod 10).

(** A text that ends in a point and one more character, with at least one
    character before the point. *)
Definition one_decimal (s : string) : Prop :=
  exists (before : string) (d : ascii),
    before <> "" /\ s = before ++ String "." (String d "").

(** The [n] integers from [from] on. *)
Fixpoint Z_range (n : nat) (from : Z) : list Z :=
  match n with
  | O => []
  | S n' => from :: Z_range n' (from + 1)
  end.

(** The test of [drawPowerValue] that decides whether the field is
    painted. *)
Definition power_field_painted (value prev_value : F32.float) (value_color prev_color : Z)
           (force_redraw : bool) : bool :=
  F64.gtb (F64.of_float (F32.abs (F32.sub value prev_value)))
          Config.POWER_CHANGE_THRESHOLD
  || negb (value_color =? prev_color)
  || force_redraw.

(** The calls of a log made on the surface [t]. *)
Definition is_call_on (t : surface) (e : event) : bool :=
  match e with
  | Gfx t' _ => surface_eqb t' t
  | _ => false
  end.

Definition calls_on (t : surface) (l : list event) : list event :=
  filter (is_call_on t) l.



(** Whether the power field shows [10 * k] watts as kilowatts with one
    decimal, rounded to the nearest tenth, a tie going either way. *)
Definition kilowatts_checked (k : Z) : bool :=
  let text := power_text (F32.of_Z (10 * k)) in
  (String.eqb (fst (fst text)) (tenths_text ((k + 5) / 10))
   || String.eqb (fst (fst text)) (tenths_text ((k + 4) / 10)))
  && String.eqb (snd (fst text)) "kW".

(** ** Further vocabulary: what a log shows *)

(** The rectangles filled in the colour of a lit bar of the signal icon. *)
Definition is_lit_bar (e : event) : bool :=
  match e with
  | Gfx _ (FillRect _ _ _ _ c) => c =? Config.WIFI_ICON_COLOR
  | _ => false
  end.

Definition lit_bars (l : list event) : Z := Z.of_nat (List.length (filter is_lit_bar l)).

(** The colour [drawWiFiIcon] gives bar [k] (1 to 4) at a signal level. *)
Definition bar_color (k level : Z) : Z :=
  if k <=? level then Config.WIFI_ICON_COLOR else Config.STATUS_BAR_LINE_COLOR.

(** The three channels packed in an RGB565 colour. *)
Definition red_of (c : Z) : Z := Z.land (Z.shiftr c 11) 0x1F.
Definition green_of (c : Z) : Z := Z.land (Z.shiftr c 5) 0x3F.
Definition blue_of (c : Z) : Z := Z.land c 0x1F.

(** All calls of a log are made on the surface [t]. *)
Definition all_on (t : surface) (l : list event) : bool := forallb (is_call_on t) l.

(** The strips a log sends to the panel: the first row and the height of
    each bitmap transfer, in order. *)
Definition strip_rows (l : list event) : list (Z * Z) :=
  flat_map (fun e => match e with
                     | Gfx Tft (DrawRGBBitmap _ y _ _ h) => [(y, h)]
                     | _ => []
                     end) l.

(** The strips [rows] cut the rows from [from] up to [to] into consecutive
    pieces, none empty and none higher than [max_h]. *)
Fixpoint tiles (max_h from to : Z) (rows : list (Z * Z)) : bool :=
  match rows with
  | [] => from =? to
  | (y, h) :: rest =>
      (y =? from) && (0 <? h) && (h <=? max_h) && tiles max_h (from + h) to rest
  end.

(** How often a log frees the canvas [which]. *)
Definition is_release (which : surface) (e : event) : bool :=
  match e with
  | DeleteCanvas w => surface_eqb w which
  | _ => false
  end.

Definition releases (which : surface) (l : list event) : nat :=
  List.length (filter (is_release which) l).

(** The four strips of one frame of the startup animation. *)
Definition frame_strips : list (Z * Z) := [(0, 60); (60, 60); (120, 60); (180, 60)].

(** ** data_fetcher.h: the getters, and runs of fetches *)

Definition isDataValid (f : DataFetcher) : bool := last_fetch_successful f.

Definition getLastFetchTime (f : DataFetcher) : Z := last_fetch_time f.

(** Successive calls of [fetchPowerData] on the same out-parameter, one
    for each answer of the server (with the reading of the clock that
    follows it): the flags returned, and the out-parameter and the fetcher
    after the last call. *)
Fixpoint fetch_all (answers : list (HttpReply * Z)) (data : PowerData) (f : DataFetcher)
  : list bool * PowerData * DataFetcher :=
  match answers with
  | [] => ([], data, f)
  | (reply, now) :: rest =>
      let '(ok, data1, f1) := fetchPowerData reply now data f in
      let '(oks, data2, f2) := fetch_all rest data1 f1 in
      (ok :: oks, data2, f2)
  end.

(** The number of failures a list of results begins with, and the number
    it ends with. *)
Fixpoint leading_failures (oks : list bool) : nat :=
  match oks with
  | false :: rest => S (leading_failures rest)
  | _ => O
  end.

Definition trailing_failures (oks : list bool) : nat := leading_failures (rev oks).

(** The sample a document holds. *)
Definition sample_of (doc : JsonDocument) : PowerData :=
  mkPowerData (as_float doc "voltage") (as_float doc "current")
              (as_float doc "power_active").

(** The document has the three members [parseJSON] asks for. *)
Definition has_fields (doc : JsonDocument) : bool :=
  containsKey doc "voltage" && containsKey doc "current" && containsKey doc "power_active".

(** A binary32 number: a finite value in canonical form. *)
Definition is_number (x : F32.float) : bool := F32.valid x && Fl.is_finite x.

(** ** wifi_manager.h: the credentials

    The part of the class left out above.  The namespace of the
    non-volatile storage ([Preferences]) is a finite map from keys to
    strings, here a list of bindings of which the first one for a key
    counts; its content outlives the program.  [putString] is taken to
    succeed. *)
Definition Preferences : Type := list (string * string).

Fixpoint getString (p : Preferences) (key default : string) : string :=
  match p with
  | [] => default
  | (k, v) :: rest => if String.eqb k key then v else getString rest key default
  end.

Definition putString (p : Preferences) (key value : string) : Preferences :=
  (key, value) :: p.

Record Credentials : Type := mkCredentials {
  preferences : Preferences;
  saved_ssid : string;
  saved_password : string;
  preferences_initialized : bool
}.

(** The constructor; [nvs] is what the storage holds when the program
    starts. *)
Definition Credentials_new (nvs : Preferences) : Credentials :=
  mkCredentials nvs "" "" false.

(** [saveCredentials] *)
Definition saveCredentials (ssid password : string) (c : Credentials) : Credentials :=
  if negb (preferences_initialized c) then c
  else mkCredentials (putString (putString (preferences c) "ssid" ssid)
                                "password" password)
                     ssid password (preferences_initialized c).

(** [loadCredentials] *)
Definition loadCredentials (c : Credentials) : bool * Credentials :=
  if negb (preferences_initialized c) then (false, c)
  else
    let ssid := getString (preferences c) "ssid" "" in
    let password := getString (preferences c) "password" "" in
    ((0 <? String.length ssid)%nat && (0 <? String.length password)%nat,
     mkCredentials (preferences c) ssid password (preferences_initialized c)).

(** [clearCredentials] *)
Definition clearCredentials (c : Credentials) : Credentials :=
  if negb (preferences_initialized c) then c
  else mkCredentials [] "" "" (preferences_initialized c).

(** [getSSID] *)
Definition getSSID (c : Credentials) : string := saved_ssid c.

(** [WiFiManager::begin]; the two arguments are [DEFAULT_SSID] and
    [DEFAULT_PASSWORD] of [secrets.h]. *)
Definition WiFiManager_begin (default_ssid default_password : string) (c : Credentials)
  : Credentials :=
  let c1 := mkCredentials (preferences c) (saved_ssid c) (saved_password c) true in
  let '(found, c2) := loadCredentials c1 in
  if found then c2
  else
    saveCredentials default_ssid default_password
      (mkCredentials (preferences c2) default_ssid default_password
                     (preferences_initialized c2)).

(** [connect(ssid, password)]: the connection attempt of [connect] above,
    and the credentials, saved when the attempt succeeds with credentials
    other than the stored ones. *)
Definition connect_with (env : LinkEnv) (ssid password : string)
           (w : WiFiManager) (c : Credentials) : bool * WiFiManager * Credentials :=
  let '(ok, w1) := connect env w in
  if ok then
    (true, w1,
     if negb (String.eqb ssid (saved_ssid c)) || negb (String.eqb password (saved_password c))
     then saveCredentials ssid password c else c)
  else (false, w1, c).

(** [getState] *)
Definition getState (w : WiFiManager) : WiFiState := state w.

(** ** Further vocabulary of the display *)



(** The canvas [begin] keeps for an allocation. *)
Definition kept_canvas (r : alloc_result) (w h : Z) : option GFXcanvas16 :=
  match r with
  | AllocOk => Some (mkCanvas w h true)
  | _ => None
  end.

(** The stored values of both areas. *)
Definition stored_values (d : DisplayManager) : PowerData * StatusData * Z * Z :=
  (prev_power d, prev_status d, prev_power_color d, prev_rssi_level d).

(** Whether the text of a temperature, drawn in the classic font at the
    size of the status bar, ends inside the rectangle [drawTemperature]
    clears. *)
Definition temperature_text_fits (n : Z) : bool :=
  (Z.of_nat (String.length (temperature_text n)) <=? 5)%Z.

Definition two_digits_check (z : Z) : bool :=
  Nat.eqb (String.length (Format.two_digits z)) 2.


(** What [grayToRGB565] is checked for on one grey level. *)
Definition gray_check (g : Z) : bool :=
  let c := grayToRGB565 g in
  (red_of c =? g / 8) && (green_of c =? g / 4) && (blue_of c =? g / 8)
  && (0 <=? c) && (c <? 65536)
  && (c =? (g / 8) * 2048 + (g / 4) * 32 + g / 8).

(** Whether the binary32 value of the integer [n], with either sign for
    a zero, converted to [long] and back to [double] compares equal to
    itself converted to [double]. *)
Definition temp_round_trip_check (n : Z) : bool :=
  SFeqb (F64.of_Z (F32.to_int (binary_normalize F32.prec F32.emax n 0 true)))
        (F64.of_float (binary_normalize F32.prec F32.emax n 0 true))
  && SFeqb (F64.of_Z (F32.to_int (binary_normalize F32.prec F32.emax n 0 false)))
           (F64.of_float (binary_normalize F32.prec F32.emax n 0 false)).

(** * Properties *)

(** ** Floating-point comparisons and differences *)

Lemma SFcompare_antisym (x y : spec_float) (c : comparison) :
  SFcompare x y = Some c -> SFcompare y x = Some (CompOpp c).
Proof.
  destruct x as [sx | sx | | sx mx ex], y as [sy | sy | | sy my ey];
    cbn; try discriminate;
    try (intros [= <-]; reflexivity);
    try (destruct sx; intros [= <-]; reflexivity);
    try (destruct sy; intros [= <-]; reflexivity);
    try (destruct sx, sy; intros [= <-]; reflexivity).
  destruct sx, sy; intros [= <-]; try reflexivity;
    rewrite (Z.compare_antisym ex ey);
    destruct (ex ?= ey); cbn; try reflexivity;
    pose proof (Pos.compare_cont_antisym mx my Eq) as H; cbn in H;
    rewrite <- H; try rewrite CompOpp_involutive; reflexivity.
Qed.

Lemma SFleb_not_SFltb (x y : spec_float) : SFleb x y = true -> SFltb y x = false.
Proof.
  unfold SFleb, SFltb.
  destruct (SFcompare x y) as [c |] eqn:E; [| discriminate].
  rewrite (SFcompare_antisym _ _ _ E).
  destruct c; cbn; congruence.
Qed.

Lemma SFltb_not_SFleb (x y : spec_float) : SFltb x y = true -> SFleb y x = false.
Proof.
  unfold SFleb, SFltb.
  destruct (SFcompare x y) as [c |] eqn:E; [| discriminate].
  rewrite (SFcompare_antisym _ _ _ E).
  destruct c; cbn; congruence.
Qed.

Lemma SFabs_binary_round_aux (prec emax : Z) (s s' : bool) (m e : Z) (l : location) :
  SFabs (binary_round_aux prec emax s m e l) = SFabs (binary_round_aux prec emax s' m e l).
Proof.
  unfold binary_round_aux.
  destruct (shr_fexp prec emax m e l) as [mrs' e'].
  destruct (shr_fexp prec emax _ e' loc_Exact) as [mrs'' e''].
  destruct (shr_m mrs''); try reflexivity.
  destruct (e'' <=? emax - prec); reflexivity.
Qed.

Lemma SFabs_binary_normalize_opp (prec emax m e : Z) (sz sz' : bool) :
  SFabs (binary_normalize prec emax (- m) e sz) = SFabs (binary_normalize prec emax m e sz').
Proof.
  destruct m; cbn; try reflexivity; unfold binary_round;
    destruct (shl_align _ _ _); apply SFabs_binary_round_aux.
Qed.

Lemma SFabs_SFsub_comm (prec emax : Z) (x y : spec_float) :
  SFabs (SFsub prec emax x y) = SFabs (SFsub prec emax y x).
Proof.
  destruct x as [sx | sx | | sx mx ex], y as [sy | sy | | sy my ey];
    try reflexivity;
    try (destruct sx, sy; reflexivity).
  cbn [SFsub]. rewrite (Z.min_comm ey ex).
  rewrite <- (SFabs_binary_normalize_opp prec emax _ _ false false).
  f_equal. f_equal. lia.
Qed.

(** ** The order of binary32 values is the order of the numbers *)

Lemma digits2_pos_bounds (m : positive) :
  2 ^ (Zpos (digits2_pos m) - 1) <= Zpos m < 2 ^ Zpos (digits2_pos m).
Proof.
  induction m as [p IH | p IH |]; cbn [digits2_pos].
  - rewrite Pos2Z.inj_succ.
    replace (Z.succ (Zpos (digits2_pos p)) - 1) with (Z.succ (Zpos (digits2_pos p) - 1)) by lia.
    rewrite !Z.pow_succ_r by lia. lia.
  - rewrite Pos2Z.inj_succ.
    replace (Z.succ (Zpos (digits2_pos p)) - 1) with (Z.succ (Zpos (digits2_pos p) - 1)) by lia.
    rewrite !Z.pow_succ_r by lia. lia.
  - cbn. lia.
Qed.

(** A valid binary32 value has at most 24 digits, exactly 24 unless its
    exponent is the least one, and its exponent is at least -149. *)
Lemma valid_finite_bounds (s : bool) (m : positive) (e : Z) :
  F32.valid (S754_finite s m e) = true ->
  -149 <= e
  /\ Zpos m < 2 ^ 24
  /\ (-149 < e -> 2 ^ 23 <= Zpos m).
Proof.
  unfold F32.valid, valid_binary, bounded, canonical_mantissa, fexp, emin,
    F32.prec, F32.emax.
  intros H. apply andb_true_iff in H as [H _]. apply Z.eqb_eq in H.
  pose proof (digits2_pos_bounds m) as [Hlo Hhi].
  assert (D : Zpos (digits2_pos m) <= 24) by lia.
  split; [lia |]. split.
  - eapply Z.lt_le_trans; [exact Hhi |]. apply Z.pow_le_mono_r; lia.
  - intros He. assert (Zpos (digits2_pos m) = 24) as E by lia.
    rewrite E in Hlo. exact Hlo.
Qed.

Lemma to_Q_units (x : spec_float) :
  F32.valid x = true -> Fl.is_finite x = true ->
  (Fl.to_Q x == F32.units x # Z.to_pos (2 ^ 149))%Q.
Proof.
  intros V F. destruct x as [s | s | | s m e]; try discriminate.
  - reflexivity.
  - destruct (valid_finite_bounds s m e V) as (He & _ & _).
    unfold Fl.to_Q, F32.units.
    assert (P149 : Zpos (Z.to_pos (2 ^ 149)) = 2 ^ 149) by (apply Z2Pos.id; lia).
    destruct (Z.leb_spec 0 e) as [Hp | Hn].
    + destruct s; unfold Qeq, Qopp, inject_Z; cbn [Qnum Qden];
        rewrite P149, Z.pow_add_r by lia; lia.
    + assert (Pe : Zpos (Z.to_pos (2 ^ (- e))) = 2 ^ (- e)).
      { apply Z2Pos.id. apply Z.pow_pos_nonneg; lia. }
      assert (E : 2 ^ 149 = 2 ^ (e + 149) * 2 ^ (- e)).
      { rewrite <- Z.pow_add_r by lia. f_equal. lia. }
      destruct s; unfold Qeq, Qopp; cbn [Qnum Qden]; rewrite P149, Pe, E; lia.
Qed.

Lemma units_order_by_exponent (m1 m2 : positive) (e1 e2 : Z) :
  F32.valid (S754_finite false m1 e1) = true ->
  F32.valid (S754_finite false m2 e2) = true ->
  e1 < e2 ->
  Zpos m1 * 2 ^ (e1 + 149) < Zpos m2 * 2 ^ (e2 + 149).
Proof.
  intros V1 V2 He.
  destruct (valid_finite_bounds _ _ _ V1) as (He1 & Hm1 & _).
  destruct (valid_finite_bounds _ _ _ V2) as (He2 & _ & Hm2).
  specialize (Hm2 ltac:(lia)).
  assert (P1 : 0 < 2 ^ (e1 + 149)) by (apply Z.pow_pos_nonneg; lia).
  apply Z.lt_le_trans with (2 ^ 24 * 2 ^ (e1 + 149)).
  - apply Z.mul_lt_mono_pos_r; assumption.
  - replace (2 ^ 24) with (2 ^ 23 * 2 ^ 1) by reflexivity.
    rewrite <- Z.mul_assoc, <- Z.pow_add_r by lia.
    apply Z.mul_le_mono_nonneg; try lia.
    apply Z.pow_le_mono_r; lia.
Qed.

Lemma valid_sign_irrelevant (s s' : bool) (m : positive) (e : Z) :
  F32.valid (S754_finite s m e) = F32.valid (S754_finite s' m e).
Proof. reflexivity. Qed.

Lemma SFcompare_units (x y : spec_float) :
  F32.valid x = true -> F32.valid y = true ->
  Fl.is_finite x = true -> Fl.is_finite y = true ->
  SFcompare x y = Some (F32.units x ?= F32.units y).
Proof.
  intros Vx Vy Fx Fy.
  destruct x as [sx | sx | | sx mx ex]; try discriminate;
    destruct y as [sy | sy | | sy my ey]; try discriminate.
  - reflexivity.
  - cbn [SFcompare F32.units].
    assert (0 < Zpos my * 2 ^ (ey + 149)).
    { destruct (valid_finite_bounds _ _ _ Vy) as (He & _ & _).
      apply Z.mul_pos_pos; [lia | apply Z.pow_pos_nonneg; lia]. }
    destruct sy; f_equal; symmetry;
      [apply Z.compare_gt_iff | apply Z.compare_lt_iff]; lia.
  - cbn [SFcompare F32.units].
    assert (0 < Zpos mx * 2 ^ (ex + 149)).
    { destruct (valid_finite_bounds _ _ _ Vx) as (He & _ & _).
      apply Z.mul_pos_pos; [lia | apply Z.pow_pos_nonneg; lia]. }
    destruct sx; f_equal; symmetry;
      [apply Z.compare_lt_iff | apply Z.compare_gt_iff]; lia.
  - rewrite (valid_sign_irrelevant sx false) in Vx.
    rewrite (valid_sign_irrelevant sy false) in Vy.
    destruct (valid_finite_bounds _ _ _ Vx) as (Hex & _ & _).
    destruct (valid_finite_bounds _ _ _ Vy) as (Hey & _ & _).
    assert (Px : 0 < Zpos mx * 2 ^ (ex + 149))
      by (apply Z.mul_pos_pos; [lia | apply Z.pow_pos_nonneg; lia]).
    assert (Py : 0 < Zpos my * 2 ^ (ey + 149))
      by (apply Z.mul_pos_pos; [lia | apply Z.pow_pos_nonneg; lia]).
    assert (Same : forall c,
               match ex ?= ey with
               | Eq => Pos.compare_cont Eq mx my
               | Lt => Lt
               | Gt => Gt
               end = c ->
               (Zpos mx * 2 ^ (ex + 149) ?= Zpos my * 2 ^ (ey + 149)) = c).
    { intros c <-. destruct (Z.compare_spec ex ey) as [E | L | G].
      - subst ey.
        rewrite <- Zmult_compare_compat_r
          by (apply Z.lt_gt, Z.pow_pos_nonneg; lia).
        reflexivity.
      - apply Z.compare_lt_iff. now apply units_order_by_exponent.
      - apply Z.compare_gt_iff. now apply units_order_by_exponent. }
    cbn [SFcompare F32.units]. destruct sx, sy; f_equal; symmetry.
    + replace (-1 * (Zpos mx * 2 ^ (ex + 149))) with (- (Zpos mx * 2 ^ (ex + 149))) by lia.
      replace (-1 * (Zpos my * 2 ^ (ey + 149))) with (- (Zpos my * 2 ^ (ey + 149))) by lia.
      rewrite Z.compare_opp, Z.compare_antisym, (Same _ eq_refl).
      destruct (ex ?= ey); reflexivity.
    + apply Z.compare_lt_iff. lia.
    + apply Z.compare_gt_iff. lia.
    + rewrite !Z.mul_1_l. now apply Same.
Qed.

(** On valid finite binary32 values the comparison of the floats is the
    comparison of the numbers they stand for. *)
Lemma SFcompare_exact (x y : spec_float) :
  F32.valid x = true -> F32.valid y = true ->
  Fl.is_finite x = true -> Fl.is_finite y = true ->
  SFcompare x y = Some (Fl.to_Q x ?= Fl.to_Q y)%Q.
Proof.
  intros Vx Vy Fx Fy.
  rewrite (SFcompare_units x y Vx Vy Fx Fy). f_equal.
  rewrite (to_Q_units x Vx Fx), (to_Q_units y Vy Fy).
  unfold Qcompare. cbn [Qnum Qden].
  apply Zmult_compare_compat_r. reflexivity.
Qed.

Lemma SFleb_exact (x y : spec_float) :
  F32.valid x = true -> F32.valid y = true ->
  Fl.is_finite x = true -> Fl.is_finite y = true ->
  SFleb x y = true <-> (Fl.to_Q x <= Fl.to_Q y)%Q.
Proof.
  intros Vx Vy Fx Fy. unfold SFleb.
  rewrite (SFcompare_exact x y Vx Vy Fx Fy), Qle_alt.
  destruct (Fl.to_Q x ?= Fl.to_Q y)%Q; split; congruence.
Qed.

Lemma SFltb_exact (x y : spec_float) :
  F32.valid x = true -> F32.valid y = true ->
  Fl.is_finite x = true -> Fl.is_finite y = true ->
  SFltb x y = true <-> (Fl.to_Q x < Fl.to_Q y)%Q.
Proof.
  intros Vx Vy Fx Fy. unfold SFltb.
  rewrite (SFcompare_exact x y Vx Vy Fx Fy), Qlt_alt.
  destruct (Fl.to_Q x ?= Fl.to_Q y)%Q; split; congruence.
Qed.

(** ** Running programs *)

Ltac run_prog :=
  cbv beta iota zeta delta
      [bind get modify emit when ret zoom state_of log_of result_of fst snd].

Ltac simpl_dm :=
  cbn [status_canvas main_canvas buffer_mode screen_width wifi_icon_x wifi_icon_y
       temp_text_right_x time_text_left_x prev_power prev_status prev_power_color
       prev_rssi_level set_status_canvas set_main_canvas set_buffer_mode set_layout
       set_prev_power set_prev_status set_prev_power_color set_prev_rssi_level
       set_prev_temp set_prev_time
       voltage current power_active
       internal_temp rssi time_str hours minutes seconds].

Section MainDisplay.
Variable gtb : surface -> Z -> string -> Z * Z.

Lemma drawMainDisplay_state (p : PowerData) (f : bool) (d : DisplayManager) :
  state_of (drawMainDisplay gtb p f d)
  = set_prev_power_color (getPowerColor (power_active p)) (set_prev_power p d).
Proof.
  unfold drawMainDisplay. run_prog.
  destruct (surface_eqb _ _); reflexivity.
Qed.

Lemma drawMainDisplay_log_direct (p : PowerData) (f : bool) (d : DisplayManager) :
  usable (main_canvas d) = false ->
  log_of (drawMainDisplay gtb p f d)
  = (main_power_events gtb d p f ++ main_va_events gtb d p f)%list.
Proof.
  intros H. unfold drawMainDisplay. run_prog.
  unfold getDrawTarget. rewrite H. cbn [surface_eqb app].
  now rewrite !app_nil_r.
Qed.

Lemma drawMainDisplay_log_canvas (p : PowerData) (f : bool) (d : DisplayManager) :
  usable (main_canvas d) = true ->
  log_of (drawMainDisplay gtb p f d)
  = (fillScreen MainCanvas Config.BG_COLOR
       :: main_power_events gtb d p f ++ main_va_events gtb d p f
       ++ flushCanvas MainCanvas (main_canvas d) 0 main_area_y)%list.
Proof.
  intros H. unfold drawMainDisplay. run_prog.
  unfold getDrawTarget. rewrite H. cbn [surface_eqb app].
  now rewrite !app_nil_r.
Qed.

(** With the main canvas in use the power field is cleared and printed
    on it by every render, forced or not, whatever was stored. *)
Lemma main_power_events_canvas (p : PowerData) (f : bool) (d : DisplayManager) :
  usable (main_canvas d) = true ->
  paint_events (main_power_events gtb d p f)
  = [ fillRect MainCanvas 0 0 (screen_width d) power_area_h Config.BG_COLOR;
      print MainCanvas (fst (fst (power_text (power_active p))));
      print MainCanvas (snd (fst (power_text (power_active p)))) ].
Proof.
  intros H. unfold main_power_events, getDrawTarget. rewrite H.
  cbn [surface_eqb]. rewrite orb_true_r.
  unfold drawPowerValue. rewrite !andb_false_r.
  destruct (power_text (power_active p)) as [[v u] g]. reflexivity.
Qed.

(** Claim C1, as amended.  When the main area has no usable canvas, so
    that it is drawn directly on the panel: if the active power of [B]
    differs from that of [A] by at most [POWER_CHANGE_THRESHOLD] and both
    fall in the same colour bucket, then rendering [B] right after [A]
    without a forced redraw makes no call at all for the power field; the
    calls of that cycle are those of the voltage and current renderer.
    When the main canvas is in use, every render, forced or not and
    whatever the two samples are, clears the canvas, clears the rectangle
    of the power field on it and prints the value and the unit again, and
    ends by sending the canvas to the panel. *)
Theorem power_field_quiet_under_threshold
        (d : DisplayManager) (A B : PowerData) (force force' : bool) :
  let d1 := state_of (drawMainDisplay gtb A force d) in
  (usable (main_canvas d) = false ->
   F64.leb (F64.of_float (F32.abs (F32.sub (power_active A) (power_active B))))
           Config.POWER_CHANGE_THRESHOLD = true ->
   getPowerColor (power_active A) = getPowerColor (power_active B) ->
   main_power_events gtb d1 B false = []
   /\ log_of (drawMainDisplay gtb B false d1) = main_va_events gtb d1 B false)
  /\ (usable (main_canvas d) = true ->
      log_of (drawMainDisplay gtb B force' d1)
      = (fillScreen MainCanvas Config.BG_COLOR
           :: main_power_events gtb d1 B force' ++ main_va_events gtb d1 B force'
           ++ flushCanvas MainCanvas (main_canvas d) 0 main_area_y)%list
      /\ paint_events (main_power_events gtb d1 B force')
         = [ fillRect MainCanvas 0 0 (screen_width d) power_area_h Config.BG_COLOR;
             print MainCanvas (fst (fst (power_text (power_active B))));
             print MainCanvas (snd (fst (power_text (power_active B)))) ]).
Proof.
  intros d1.
  assert (Hc : main_canvas d1 = main_canvas d)
    by (subst d1; now rewrite drawMainDisplay_state).
  assert (Hw : screen_width d1 = screen_width d)
    by (subst d1; now rewrite drawMainDisplay_state).
  split.
  - intros Hdirect Hle Hcol.
    assert (Hquiet : main_power_events gtb d1 B false = []).
    { subst d1. rewrite drawMainDisplay_state.
      unfold main_power_events, drawPowerValue. simpl_dm.
      unfold F32.abs, F32.sub, F64.leb in *.
      rewrite (SFabs_SFsub_comm F32.prec F32.emax).
      unfold F64.gtb. rewrite (SFleb_not_SFltb _ _ Hle).
      rewrite Hcol, Z.eqb_refl.
      unfold getDrawTarget. rewrite Hdirect. reflexivity. }
    split; [exact Hquiet |].
    rewrite drawMainDisplay_log_direct, Hquiet; [reflexivity |].
    now rewrite Hc.
  - intros Hcanvas. rewrite <- Hc, <- Hw. rewrite <- Hc in Hcanvas.
    split.
    + now apply drawMainDisplay_log_canvas.
    + now apply main_power_events_canvas.
Qed.
End MainDisplay.

Lemma power_field_quiet_under_threshold_witness :
  let d := displayMgr sketch_direct in
  let d1 := state_of (drawMainDisplay classic_font_bounds watts_100_0 false d) in
  let b := displayMgr sketch_buffered in
  let b1 := state_of (drawMainDisplay classic_font_bounds watts_100_0 false b) in
  usable (main_canvas d) = false
  /\ F64.leb (F64.of_float (F32.abs (F32.sub (power_active watts_100_0)
                                            (power_active watts_100_3))))
             Config.POWER_CHANGE_THRESHOLD = true
  /\ getPowerColor (power_active watts_100_0) = getPowerColor (power_active watts_100_3)
  /\ main_power_events classic_font_bounds d1 watts_100_3 false = []
  /\ log_of (drawMainDisplay classic_font_bounds watts_100_3 false d1)
     = main_va_events classic_font_bounds d1 watts_100_3 false
  /\ usable (main_canvas b) = true
  /\ paint_events (main_power_events classic_font_bounds b1 watts_100_3 false)
     = [ fillRect MainCanvas 0 0 320 107 Config.BG_COLOR;
         print MainCanvas "100"; print MainCanvas "W" ].
Proof.
  assert (H1 : usable (main_canvas (displayMgr sketch_direct)) = false)
    by (vm_compute; reflexivity).
  assert (H2 : F64.leb (F64.of_float (F32.abs (F32.sub (power_active watts_100_0)
                                            (power_active watts_100_3))))
             Config.POWER_CHANGE_THRESHOLD = true) by (vm_compute; reflexivity).
  assert (H3 : getPowerColor (power_active watts_100_0)
               = getPowerColor (power_active watts_100_3)) by (vm_compute; reflexivity).
  assert (H4 : usable (main_canvas (displayMgr sketch_buffered)) = true)
    by (vm_compute; reflexivity).
  destruct (proj1 (power_field_quiet_under_threshold classic_font_bounds
                     (displayMgr sketch_direct) watts_100_0 watts_100_3 false false)
                  H1 H2 H3) as [Q1 Q2].
  destruct (proj2 (power_field_quiet_under_threshold classic_font_bounds
                     (displayMgr sketch_buffered) watts_100_0 watts_100_3 false false)
                  H4) as [_ Q3].
  split; [exact H1 |]. split; [exact H2 |]. split; [exact H3 |].
  split; [exact Q1 |]. split; [exact Q2 |]. split; [exact H4 |].
  exact Q3.
Defined.

(** Claim C1, counterexample.  With the main canvas in use, rendering the
    same sample twice in a row, without a forced redraw, clears and prints
    the power field again, on the canvas. *)
Lemma power_field_repainted_when_buffered :
  let d := displayMgr sketch_buffered in
  let A := scenario_sample in
  let B := scenario_sample in
  let d1 := state_of (drawMainDisplay classic_font_bounds A false d) in
  F64.leb (F64.of_float (F32.abs (F32.sub (power_active A) (power_active B))))
          Config.POWER_CHANGE_THRESHOLD = true
  /\ getPowerColor (power_active A) = getPowerColor (power_active B)
  /\ paint_events (main_power_events classic_font_bounds d1 B false)
     = [ fillRect MainCanvas 0 0 320 107 Config.BG_COLOR;
         print MainCanvas "1.0"; print MainCanvas "kW" ].
Proof. vm_compute. auto. Qed.

(** ** The text of the power field *)

Section PowerText.
Variable gtb : surface -> Z -> string -> Z * Z.

Lemma drawPowerValue_forced_printed (t : surface) (p : F32.float) (c : Z)
      (ax ay aw ah : Z) (prev : F32.float) (pc : Z) :
  printed (drawPowerValue gtb t p c ax ay aw ah prev pc true)
  = [fst (fst (power_text p)); snd (fst (power_text p))].
Proof.
  unfold drawPowerValue.
  rewrite !andb_false_r.
  destruct (power_text p) as [[v u] g]. reflexivity.
Qed.

(** Up to 1000 the integers are binary32 values, and converting them back
    gives the integer. *)
Lemma small_integers_are_floats (n : Z) (s : bool) :
  0 <= n <= 1000 ->
  F32.to_int (binary_normalize F32.prec F32.emax n 0 s) = n.
Proof.
  intros H.
  assert (C : forallb
                (fun k => F32.to_int (binary_normalize F32.prec F32.emax
                                                        (Z.of_nat (S k)) 0 false)
                          =? Z.of_nat (S k))
                (seq 0 1000) = true) by (vm_compute; reflexivity).
  destruct n as [| n | n]; [reflexivity | | lia].
  rewrite forallb_forall in C.
  specialize (C (Nat.pred (Pos.to_nat n))).
  assert (E : Z.of_nat (S (Nat.pred (Pos.to_nat n))) = Zpos n) by lia.
  rewrite E in C. apply Z.eqb_eq.
  change (binary_normalize F32.prec F32.emax (Zpos n) 0 s)
    with (binary_normalize F32.prec F32.emax (Zpos n) 0 false).
  apply C. apply in_seq. lia.
Qed.

(** Below 1000 W, and from 0 W on, the watts printed are the integer
    nearest to the value. *)
Lemma rounded_watts (p : F32.float) :
  Fl.is_finite p = true ->
  (0 <= Fl.to_Q p)%Q -> (Fl.to_Q p < 1000)%Q ->
  F32.to_int (F32.round p) = Fl.round_half_away (Fl.to_Q p).
Proof.
  intros F H0 H1.
  assert (R : 0 <= Fl.round_half_away (Fl.to_Q p) <= 1000).
  { unfold Fl.round_half_away.
    destruct (Qle_bool 0 (Fl.to_Q p)) eqn:E.
    - split.
      + change 0 with (Qfloor 0). apply Qfloor_resp_le.
        apply Qle_trans with (Fl.to_Q p); [exact H0 |].
        rewrite <- (Qplus_0_r (Fl.to_Q p)) at 1.
        apply Qplus_le_r. discriminate.
      + change 1000 with (Qfloor (1000 + (1 # 2))). apply Qfloor_resp_le.
        apply Qplus_le_l. now apply Qlt_le_weak.
    - apply Qle_bool_iff in H0. congruence. }
  destruct p as [s | s | | s m e]; try discriminate.
  - reflexivity.
  - unfold F32.round. now apply small_integers_are_floats.
Qed.

Lemma to_Q_1000 : (Fl.to_Q (F32.of_Z 1000) == 1000)%Q.
Proof. reflexivity. Qed.

(** The texts of the power field, painted or not. *)
Lemma drawPowerValue_printed (t : surface) (p : F32.float) (c : Z)
      (ax ay aw ah : Z) (prev : F32.float) (pc : Z) (force : bool) :
  printed (drawPowerValue gtb t p c ax ay aw ah prev pc force)
  = if power_field_painted p prev c pc force
    then [fst (fst (power_text p)); snd (fst (power_text p))]
    else [].
Proof.
  unfold drawPowerValue, power_field_painted.
  destruct (F64.gtb _ _), (c =? pc), force; cbn [negb andb orb];
    try reflexivity; destruct (power_text p) as [[v u] g]; reflexivity.
Qed.

(** *** Rounding never turns a number into NaN *)

Lemma shr_1_nonneg (mrs : shr_record) : 0 <= shr_m mrs -> 0 <= shr_m (shr_1 mrs).
Proof.
  destruct mrs as [m r s]. cbn [shr_m shr_1].
  destruct m as [| p | p]; [cbn; lia | | lia].
  intros _. destruct p; cbn; lia.
Qed.

Lemma iter_shr_1_nonneg (p : positive) (mrs : shr_record) :
  0 <= shr_m mrs -> 0 <= shr_m (iter_pos shr_1 p mrs).
Proof.
  revert mrs. induction p as [p IH | p IH |]; intros mrs H; cbn [iter_pos].
  - apply IH, IH, shr_1_nonneg, H.
  - apply IH, IH, H.
  - apply shr_1_nonneg, H.
Qed.

Lemma shr_fexp_nonneg (prec emax m e : Z) (l : location) :
  0 <= m -> 0 <= shr_m (fst (shr_fexp prec emax m e l)).
Proof.
  intros H. unfold shr_fexp, shr.
  assert (R : 0 <= shr_m (shr_record_of_loc m l)) by (destruct l as [| []]; exact H).
  destruct (fexp prec emax (Zdigits2 m + e) - e); cbn [fst]; try exact R.
  now apply iter_shr_1_nonneg.
Qed.

Lemma binary_round_aux_not_nan (prec emax : Z) (s : bool) (m e : Z) (l : location) :
  0 <= m -> binary_round_aux prec emax s m e l <> S754_nan.
Proof.
  intros H. unfold binary_round_aux.
  pose proof (shr_fexp_nonneg prec emax m e l H) as H1.
  destruct (shr_fexp prec emax m e l) as [mrs' e']. cbn [fst] in H1.
  assert (H2 : 0 <= round_nearest_even (shr_m mrs') (loc_of_shr_record mrs')).
  { unfold round_nearest_even.
    destruct (loc_of_shr_record mrs') as [| []]; try lia.
    destruct (Z.even (shr_m mrs')); lia. }
  pose proof (shr_fexp_nonneg prec emax _ e' loc_Exact H2) as H3.
  destruct (shr_fexp prec emax _ e' loc_Exact) as [mrs'' e'']. cbn [fst] in H3.
  destruct (shr_m mrs''); try discriminate; [| lia].
  destruct (e'' <=? emax - prec); discriminate.
Qed.

Lemma SFdiv_finite_not_nan (prec emax : Z) (sx sy : bool) (mx my : positive) (ex ey : Z) :
  SFdiv prec emax (S754_finite sx mx ex) (S754_finite sy my ey) <> S754_nan.
Proof.
  cbn [SFdiv]. unfold SFdiv_core_binary.
  match goal with
  | |- context [Z.div_eucl ?a ?b] =>
      pose proof (Z.div_pos a b) as Hq;
      unfold Z.div in Hq; destruct (Z.div_eucl a b) as [q r]; cbn [fst] in Hq;
      assert (0 <= a) as Ha
  end.
  { destruct (ex - ey - Z.min _ _); try lia. apply Z.shiftl_nonneg. lia. }
  apply binary_round_aux_not_nan. apply Hq; [exact Ha | lia].
Qed.

Lemma of_float_not_nan (x : F32.float) : x <> S754_nan -> F64.of_float x <> S754_nan.
Proof.
  destruct x as [s | s | | s m e]; try (intros _; discriminate); [congruence |].
  intros _. unfold F64.of_float.
  destruct s; cbn [binary_normalize]; unfold binary_round;
    destruct (shl_align _ _ _); apply binary_round_aux_not_nan; lia.
Qed.

Lemma kilowatts_not_nan (p : F32.float) :
  F32.geb p (F32.of_Z 1000) = true ->
  F64.of_float (F32.div p (F32.of_Z 1000)) <> S754_nan.
Proof.
  intros H. apply of_float_not_nan.
  change (F32.of_Z 1000) with (S754_finite false 16384000 (-14)) in *.
  destruct p as [s | s | | s m e].
  - exfalso. revert H. destruct s; vm_compute; discriminate.
  - unfold F32.div. cbn [SFdiv]. discriminate.
  - exfalso. revert H. vm_compute. discriminate.
  - apply SFdiv_finite_not_nan.
Qed.

(** *** The digits [dtostrf] prints *)

(** The loop that counts the digits before the point leaves by its own
    test: ten times the power of ten is infinite after 308 steps, and no
    number but infinity compares above it. *)
Lemma dtostrf_magnitude_stable (k fuel extra : nat) (number tenpow : F64.double)
      (digitcount : Z) :
  F64.geb number
          (F64.mul (F64.of_Z 10)
                   (Nat.iter k (fun x => F64.mul x (F64.of_Z 10)) tenpow)) = false ->
  (k < fuel)%nat ->
  Format.dtostrf_magnitude (fuel + extra) number tenpow digitcount
  = Format.dtostrf_magnitude fuel number tenpow digitcount.
Proof.
  revert fuel tenpow digitcount.
  induction k as [| k IH]; intros fuel tenpow dc E Hk.
  - destruct fuel as [| fuel]; [lia |].
    cbn [Nat.iter nat_rect] in E. cbn [Format.dtostrf_magnitude Nat.add]. now rewrite E.
  - destruct fuel as [| fuel]; [lia |].
    cbn [Format.dtostrf_magnitude Nat.add].
    destruct (F64.geb number (F64.mul (F64.of_Z 10) tenpow)); [| reflexivity].
    apply IH; [| lia].
    rewrite Nat.iter_succ_r in E. exact E.
Qed.

Lemma dtostrf_magnitude_fuel (extra : nat) (number : F64.double) :
  number <> S754_infinity false ->
  Format.dtostrf_magnitude (400 + extra) number (F64.of_Z 1) 1
  = Format.dtostrf_magnitude 400 number (F64.of_Z 1) 1.
Proof.
  intros H.
  apply (dtostrf_magnitude_stable 308); [| lia].
  assert (T : F64.mul (F64.of_Z 10)
                      (Nat.iter 308 (fun x => F64.mul x (F64.of_Z 10)) (F64.of_Z 1))
              = S754_infinity false) by (vm_compute; reflexivity).
  rewrite T. destruct number as [s | [|] | | s m e]; try reflexivity. congruence.
Qed.

Lemma dtostrf_magnitude_count (fuel : nat) (number tenpow : F64.double) (dc : Z) :
  dc <= snd (Format.dtostrf_magnitude fuel number tenpow dc).
Proof.
  revert tenpow dc. induction fuel as [| fuel IH]; intros tenpow dc.
  - cbn. lia.
  - cbn [Format.dtostrf_magnitude].
    destruct (F64.geb _ _); [| cbn; lia].
    specialize (IH (F64.mul tenpow (F64.of_Z 10)) (dc + 1)). lia.
Qed.

(** With one digit after the point the digits end in a point and one
    more character. *)
Lemma dtostrf_digits_one_decimal (k : nat) (x : F64.double) :
  one_decimal (Format.dtostrf_digits (S (S k)) 1 x).
Proof.
  revert x. induction k as [| k IH]; intros x.
  - cbn [Format.dtostrf_digits].
    change (Z.of_nat 1 =? 1) with true. change (Z.of_nat 0 =? 1) with false.
    change (0 <? 1) with true. cbn [andb].
    eexists (String _ ""), _. split; [discriminate | reflexivity].
  - remember (S (S k)) as n eqn:En.
    cbn [Format.dtostrf_digits].
    replace (Z.of_nat n =? 1) with false by (symmetry; apply Z.eqb_neq; lia).
    cbn [andb]. change ("" ++ ?s) with s.
    match goal with
    | |- one_decimal (String ?c (Format.dtostrf_digits n 1 ?y)) =>
        destruct (IH y) as (b & d & Hb & E); rewrite E; exists (String c b), d
    end.
    split; [discriminate | reflexivity].
Qed.

Lemma append_assoc (a b c : string) : (a ++ b) ++ c = a ++ b ++ c.
Proof. induction a as [| x a IH]; [reflexivity | cbn; now rewrite IH]. Qed.

Lemma append_nonempty_r (a b : string) : b <> "" -> a ++ b <> "".
Proof. intros H. destruct a; [exact H | discriminate]. Qed.

Lemma dtostrf_one_decimal (x : F64.double) (width : Z) :
  x <> S754_nan ->
  Format.dtostrf x width 1 = "inf" \/ one_decimal (Format.dtostrf x width 1).
Proof.
  intros N. unfold Format.dtostrf.
  destruct x as [s | s | | s m e]; [| now left | congruence |]; right.
  all: match goal with
       | |- context [Format.dtostrf_magnitude ?f ?n ?t ?c] =>
           pose proof (dtostrf_magnitude_count f n t c) as Hc;
           destruct (Format.dtostrf_magnitude f n t c) as [tenpow dc]
       end; cbn [snd] in Hc;
       replace (Z.to_nat (dc + 1)) with (S (S (Z.to_nat (dc - 1)))) by lia;
       match goal with
       | |- one_decimal (?a ++ ?b ++ Format.dtostrf_digits _ _ ?y) =>
           destruct (dtostrf_digits_one_decimal (Z.to_nat (dc - 1)) y)
             as (u & d & Hu & Eu);
           rewrite Eu; exists (a ++ b ++ u), d
       end;
       (split; [now apply append_nonempty_r, append_nonempty_r
               | now rewrite !append_assoc]).
Qed.

(** *** Kilowatts, every 10 W from 1000 W to 50000 W *)

Lemma kilowatts_checked_all : forallb kilowatts_checked (Z_range 4901 100) = true.
Proof. vm_compute. reflexivity. Qed.

Lemma In_Z_range (n : nat) (from z : Z) :
  from <= z < from + Z.of_nat n -> In z (Z_range n from).
Proof.
  revert from. induction n as [| n IH]; intros from H; [lia |].
  cbn [Z_range In].
  destruct (Z.eq_dec from z) as [E | N]; [now left | right].
  apply IH. lia.
Qed.

Lemma kilowatts_every_ten_watts (n : Z) :
  1000 <= n <= 50000 -> n mod 10 = 0 ->
  exists tenths : Z,
    (n + 40) / 100 <= tenths <= (n + 50) / 100
    /\ fst (fst (power_text (F32.of_Z n))) = tenths_text tenths
    /\ snd (fst (power_text (F32.of_Z n))) = "kW".
Proof.
  intros Hn Hm.
  assert (E : n = 10 * (n / 10)) by (rewrite (Z.div_mod n 10) at 1; lia).
  set (k := n / 10) in *.
  assert (Hk : 100 <= k <= 5000) by lia.
  assert (Hin : In k (Z_range 4901 100)) by (apply In_Z_range; lia).
  pose proof (proj1 (forallb_forall _ _) kilowatts_checked_all k Hin) as C.
  unfold kilowatts_checked in C. rewrite <- E in C.
  apply andb_true_iff in C. destruct C as [C U].
  apply String.eqb_eq in U.
  assert (D1 : (n + 50) / 100 = (k + 5) / 10).
  { rewrite E. replace (10 * k + 50) with ((k + 5) * 10) by lia.
    change 100 with (10 * 10). rewrite Z.div_mul_cancel_r by lia. reflexivity. }
  assert (D2 : (n + 40) / 100 = (k + 4) / 10).
  { rewrite E. replace (10 * k + 40) with ((k + 4) * 10) by lia.
    change 100 with (10 * 10). rewrite Z.div_mul_cancel_r by lia. reflexivity. }
  assert (M : (k + 4) / 10 <= (k + 5) / 10) by (apply Z.div_le_mono; lia).
  apply orb_true_iff in C. destruct C as [C | C]; apply String.eqb_eq in C.
  - exists ((k + 5) / 10). rewrite D1, D2. repeat split; try assumption; lia.
  - exists ((k + 4) / 10). rewrite D1, D2. repeat split; try assumption; lia.
Qed.

(** Claim C2.  The unit of the power field switches exactly at 1000 W.
    The field is painted when the value differs from the stored one by
    more than the threshold, when the colour differs, or when the redraw
    is forced; otherwise nothing is printed.  When it is painted, for
    every binary32 value: if the comparison [value >= 1000.0f] holds the
    field prints [String(value / 1000.0f, 1)] and the unit kW, a text
    that ends in a point and one digit (or is "inf"); if the value
    compares below 1000 it prints the value rounded to the nearest watt
    and the unit W.  For the finite values of the format the comparison
    is the comparison of the numbers: the first case is that of the
    values of at least 1000, the second that of the values below 1000,
    and from 0 up to 1000 the number printed is the integer nearest to the
    value, halves away from zero.  For every multiple of 10 W from 1000 W
    to 50000 W the kilowatts printed are the value rounded to the nearest
    tenth of a kilowatt; a value half way between two tenths goes to
    either (1250 W prints as 1.3 kW, 2250 W as 2.2 kW).  999.9 W prints as
    1000 W and 1000.0 W as 1.0 kW. *)
Theorem power_unit_switch_at_1000 (t : surface) (p : F32.float) (c : Z)
        (ax ay aw ah : Z) (prev : F32.float) (pc : Z) (force : bool) :
  let texts := printed (drawPowerValue gtb t p c ax ay aw ah prev pc force) in
  let in_kilowatts := [Format.String_float1 (F32.div p (F32.of_Z 1000)); "kW"] in
  let in_watts := [Format.String_int (F32.to_int (F32.round p)); "W"] in
  (power_field_painted p prev c pc force = false -> texts = [])
  /\ (power_field_painted p prev c pc force = true ->
      (F32.geb p (F32.of_Z 1000) = true ->
       texts = in_kilowatts
       /\ (Format.String_float1 (F32.div p (F32.of_Z 1000)) = "inf"
           \/ one_decimal (Format.String_float1 (F32.div p (F32.of_Z 1000)))))
      /\ (F32.ltb p (F32.of_Z 1000) = true -> texts = in_watts)
      /\ (F32.valid p = true -> Fl.is_finite p = true ->
          ((1000 <= Fl.to_Q p)%Q -> texts = in_kilowatts)
          /\ ((Fl.to_Q p < 1000)%Q -> texts = in_watts)
          /\ ((0 <= Fl.to_Q p)%Q -> (Fl.to_Q p < 1000)%Q ->
              texts = [MachineInt.decimal (Fl.round_half_away (Fl.to_Q p)); "W"])))
  /\ (forall n : Z,
         1000 <= n <= 50000 -> n mod 10 = 0 ->
         exists tenths : Z,
           (n + 40) / 100 <= tenths <= (n + 50) / 100
           /\ printed (drawPowerValue gtb t (F32.of_Z n) c ax ay aw ah prev pc true)
              = [tenths_text tenths; "kW"])
  /\ printed (drawPowerValue gtb t (F32.of_decimal 9999 1) c ax ay aw ah prev pc true)
     = ["1000"; "W"]
  /\ printed (drawPowerValue gtb t (F32.of_Z 1000) c ax ay aw ah prev pc true)
     = ["1.0"; "kW"]
  /\ printed (drawPowerValue gtb t (F32.of_Z 1250) c ax ay aw ah prev pc true)
     = ["1.3"; "kW"]
  /\ printed (drawPowerValue gtb t (F32.of_Z 2250) c ax ay aw ah prev pc true)
     = ["2.2"; "kW"].
Proof.
  intros texts in_kilowatts in_watts. subst texts in_kilowatts in_watts.
  rewrite !drawPowerValue_printed.
  assert (K : F32.geb p (F32.of_Z 1000) = true ->
              [fst (fst (power_text p)); snd (fst (power_text p))]
              = [Format.String_float1 (F32.div p (F32.of_Z 1000)); "kW"]).
  { intros H. unfold power_text. rewrite H. reflexivity. }
  assert (W : F32.ltb p (F32.of_Z 1000) = true ->
              [fst (fst (power_text p)); snd (fst (power_text p))]
              = [Format.String_int (F32.to_int (F32.round p)); "W"]).
  { intros H. unfold power_text, F32.geb.
    unfold F32.ltb in H. rewrite (SFltb_not_SFleb _ _ H). reflexivity. }
  split; [intros E; now rewrite E |].
  split.
  { intros E. rewrite E.
    split.
    { intros H. split; [exact (K H) |].
      unfold Format.String_float1.
      apply dtostrf_one_decimal, kilowatts_not_nan, H. }
    split; [exact W |].
    intros V F.
    assert (W' : (Fl.to_Q p < 1000)%Q ->
                 [fst (fst (power_text p)); snd (fst (power_text p))]
                 = [Format.String_int (F32.to_int (F32.round p)); "W"]).
    { intros H. apply W. unfold F32.ltb.
      apply (SFltb_exact p (F32.of_Z 1000)); try reflexivity; try assumption.
      now rewrite to_Q_1000. }
    split; [| split; [exact W' |]].
    - intros H. apply K. unfold F32.geb.
      apply (SFleb_exact (F32.of_Z 1000) p); try reflexivity; try assumption.
      now rewrite to_Q_1000.
    - intros H0 H1. rewrite (W' H1). unfold Format.String_int.
      now rewrite (rounded_watts p F H0 H1). }
  split.
  { intros n Hn Hm.
    destruct (kilowatts_every_ten_watts n Hn Hm) as (tenths & B & T & U).
    exists tenths. split; [exact B |].
    rewrite drawPowerValue_printed.
    unfold power_field_painted. rewrite orb_true_r. now rewrite T, U. }
  unfold power_field_painted. rewrite !orb_true_r.
  split; [reflexivity |]. split; [reflexivity |]. split; reflexivity.
Qed.
End PowerText.

Lemma power_unit_switch_at_1000_witness :
  power_field_painted (F32.of_Z 2300) (F32.of_Z 0) Config.POWER_COLOR_MEDIUM 0 false = true
  /\ F32.valid (F32.of_Z 2300) = true
  /\ (1000 <= Fl.to_Q (F32.of_Z 2300))%Q
  /\ printed (drawPowerValue classic_font_bounds Tft (F32.of_Z 2300)
                Config.POWER_COLOR_MEDIUM 0 0 320 107 (F32.of_Z 0) 0 false) = ["2.3"; "kW"]
  /\ power_field_painted (F32.of_decimal 4504 1) (F32.of_Z 0)
                         Config.POWER_COLOR_NORMAL 0 false = true
  /\ F32.ltb (F32.of_decimal 4504 1) (F32.of_Z 1000) = true
  /\ printed (drawPowerValue classic_font_bounds Tft (F32.of_decimal 4504 1)
                Config.POWER_COLOR_NORMAL 0 0 320 107 (F32.of_Z 0) 0 false) = ["450"; "W"]
  /\ power_field_painted (F32.of_decimal 1003 1) (F32.of_Z 100)
                         Config.POWER_COLOR_NORMAL Config.POWER_COLOR_NORMAL false = false
  /\ printed (drawPowerValue classic_font_bounds Tft (F32.of_decimal 1003 1)
                Config.POWER_COLOR_NORMAL 0 0 320 107 (F32.of_Z 100)
                Config.POWER_COLOR_NORMAL false) = []
  /\ (exists tenths : Z,
         (12250 + 40) / 100 <= tenths <= (12250 + 50) / 100
         /\ printed (drawPowerValue classic_font_bounds Tft (F32.of_Z 12250)
                       Config.POWER_COLOR_MAX 0 0 320 107 (F32.of_Z 0) 0 true)
            = [tenths_text tenths; "kW"]).
Proof.
  assert (P1 : power_field_painted (F32.of_Z 2300) (F32.of_Z 0)
                                   Config.POWER_COLOR_MEDIUM 0 false = true)
    by (vm_compute; reflexivity).
  assert (V : F32.valid (F32.of_Z 2300) = true) by (vm_compute; reflexivity).
  assert (H1 : (1000 <= Fl.to_Q (F32.of_Z 2300))%Q) by (vm_compute; discriminate).
  assert (P2 : power_field_painted (F32.of_decimal 4504 1) (F32.of_Z 0)
                                   Config.POWER_COLOR_NORMAL 0 false = true)
    by (vm_compute; reflexivity).
  assert (H2 : F32.ltb (F32.of_decimal 4504 1) (F32.of_Z 1000) = true)
    by (vm_compute; reflexivity).
  assert (P3 : power_field_painted (F32.of_decimal 1003 1) (F32.of_Z 100)
                 Config.POWER_COLOR_NORMAL Config.POWER_COLOR_NORMAL false = false)
    by (vm_compute; reflexivity).
  split; [exact P1 |]. split; [exact V |]. split; [exact H1 |]. split.
  { exact (proj1 (proj2 (proj2
             (proj1 (proj2 (power_unit_switch_at_1000 classic_font_bounds Tft
                              (F32.of_Z 2300) Config.POWER_COLOR_MEDIUM 0 0 320 107
                              (F32.of_Z 0) 0 false)) P1)) V eq_refl) H1). }
  split; [exact P2 |]. split; [exact H2 |]. split.
  { exact (proj1 (proj2
             (proj1 (proj2 (power_unit_switch_at_1000 classic_font_bounds Tft
                              (F32.of_decimal 4504 1) Config.POWER_COLOR_NORMAL
                              0 0 320 107 (F32.of_Z 0) 0 false)) P2)) H2). }
  split; [exact P3 |]. split.
  { exact (proj1 (power_unit_switch_at_1000 classic_font_bounds Tft
                    (F32.of_decimal 1003 1) Config.POWER_COLOR_NORMAL
                    0 0 320 107 (F32.of_Z 100) Config.POWER_COLOR_NORMAL false) P3). }
  apply (proj1 (proj2 (proj2 (power_unit_switch_at_1000 classic_font_bounds Tft
                                (F32.of_Z 0) Config.POWER_COLOR_MAX 0 0 320 107
                                (F32.of_Z 0) 0 true)))).
  - lia.
  - reflexivity.
Defined.

(** ** The scenario sample *)

(** The binary32 value of the scenario's current lies below 4.35, and its
    upper neighbour lies farther from 4.35 than it does. *)
Remark scenario_current_value :
  current scenario_sample = S754_finite false 9122611 (-21)
  /\ F32.valid (current scenario_sample) = true
  /\ (Fl.to_Q (current scenario_sample) < 435 # 100)%Q
  /\ ((435 # 100) - Fl.to_Q (current scenario_sample)
      < Fl.to_Q (S754_finite false 9122612 (-21)) - (435 # 100))%Q.
Proof. repeat split; vm_compute; reflexivity. Qed.

(** Claim C3, counterexample.  The current of the scenario prints as
    4.3A, not as 4.4A. *)
Lemma scenario_current_is_not_4_4 :
  current_text (current scenario_sample) = "4.3A"
  /\ current_text (current scenario_sample) <> "4.4A".
Proof. split; vm_compute; [reflexivity | discriminate]. Qed.

Section Scenario.
Variable gtb : surface -> Z -> string -> Z * Z.

Lemma draw_centered_printed (t : surface) (text : string) (fs c x y w h : Z) :
  printed (draw_centered gtb t text fs c x y w h) = [text].
Proof. reflexivity. Qed.

Lemma printed_app (l1 l2 : list event) :
  printed (l1 ++ l2) = (printed l1 ++ printed l2)%list.
Proof. apply flat_map_app. Qed.

Lemma drawVoltageCurrentRevised_forced_printed (t : surface) (v c : F32.float)
      (fs vc cc ax ay aw ah : Z) (pv pc : F32.float) :
  printed (drawVoltageCurrentRevised gtb t v c fs vc cc ax ay aw ah pv pc true)
  = [voltage_text v; current_text c].
Proof.
  unfold drawVoltageCurrentRevised.
  rewrite !andb_false_r, !orb_true_r.
  rewrite printed_app, !draw_centered_printed. reflexivity.
Qed.

Lemma flushCanvas_printed (w : surface) (c : option GFXcanvas16) (x y : Z) :
  printed (flushCanvas w c x y) = [].
Proof. destruct c as [cv |]; [destruct cv as [? ? []] |]; reflexivity. Qed.

Lemma drawMainDisplay_forced_printed (p : PowerData) (d : DisplayManager) :
  printed (log_of (drawMainDisplay gtb p true d))
  = [fst (fst (power_text (power_active p))); snd (fst (power_text (power_active p)));
     voltage_text (voltage p); current_text (current p)].
Proof.
  destruct (usable (main_canvas d)) eqn:U.
  - rewrite drawMainDisplay_log_canvas by exact U.
    change (printed (?e :: ?l)) with (printed [e] ++ printed l)%list.
    rewrite !printed_app, flushCanvas_printed.
    unfold main_power_events, main_va_events.
    rewrite drawPowerValue_forced_printed, drawVoltageCurrentRevised_forced_printed.
    reflexivity.
  - rewrite drawMainDisplay_log_direct by exact U.
    rewrite !printed_app.
    unfold main_power_events, main_va_events.
    rewrite drawPowerValue_forced_printed, drawVoltageCurrentRevised_forced_printed.
    reflexivity.
Qed.

(** Claim C3, as amended.  For the sample 230.4 V, 4.35 A, 1001 W, which
    the fetcher accepts, the renderer prints the voltage as 230V, the
    current as 4.3A (the binary32 value nearest to 4.35 lies below it), the
    power as 1.0 with the unit kW, and the colour is the one of the normal
    bucket. *)
Theorem scenario_rendering (d : DisplayManager) (data : PowerData) :
  parseJSON (Some (json_of scenario_sample)) data = (true, scenario_sample)
  /\ voltage_text (voltage scenario_sample) = "230V"
  /\ current_text (current scenario_sample) = "4.3A"
  /\ power_text (power_active scenario_sample) = ("1.0", "kW", 2)
  /\ getPowerColor (power_active scenario_sample) = Config.POWER_COLOR_NORMAL
  /\ printed (log_of (drawMainDisplay gtb scenario_sample true d))
     = ["1.0"; "kW"; "230V"; "4.3A"].
Proof.
  rewrite drawMainDisplay_forced_printed.
  repeat split; vm_compute; reflexivity.
Qed.
End Scenario.

(** ** The status bar and the time slots *)

Section StatusBar.
Variable gtb : surface -> Z -> string -> Z * Z.

Lemma drawTimeSegment_same (t : surface) (text : string) (x : Z) :
  drawTimeSegment gtb t text text x false = [].
Proof. unfold drawTimeSegment. now rewrite String.eqb_refl. Qed.

Lemma drawTimeSegment_changed (t : surface) (text prev : string) (x : Z) (f : bool) :
  text <> prev -> drawTimeSegment gtb t text prev x f = slot_repaint gtb t x text.
Proof.
  intros H. unfold drawTimeSegment.
  destruct (String.eqb_spec text prev) as [E | _]; [contradiction | reflexivity].
Qed.

Lemma drawStatusBar_log_direct (status : StatusData) (d : DisplayManager) :
  usable (status_canvas d) = false ->
  log_of (drawStatusBar gtb status false d)
  = ((if rssi_changed d status
      then drawWiFiIcon d Tft (getRSSILevel (rssi status)) else [])
     ++ (if temp_changed d status
         then drawTemperature gtb d Tft (rounded_temp_of status) else [])
     ++ (if time_changed d status
         then drawTime gtb d Tft status false else []))%list.
Proof.
  intros U. unfold drawStatusBar. run_prog.
  unfold getDrawTarget. rewrite U. cbn [surface_eqb orb].
  destruct (rssi_changed d status), (temp_changed d status), (time_changed d status);
    cbn [negb andb orb]; run_prog; simpl_dm; cbn [app]; rewrite ?app_nil_r; reflexivity.
Qed.

(** With the status canvas in use every status update, forced or not,
    clears the canvas and draws the icon, the temperature, the three time
    slots and the two separators on it, and sends it to the panel. *)
Lemma drawStatusBar_log_canvas (status : StatusData) (force : bool) (d : DisplayManager) :
  usable (status_canvas d) = true ->
  log_of (drawStatusBar gtb status force d)
  = (fillScreen StatusCanvas Config.STATUS_BAR_BG_COLOR
       :: drawWiFiIcon d StatusCanvas (getRSSILevel (rssi status))
       ++ drawTemperature gtb d StatusCanvas (rounded_temp_of status)
       ++ slot_repaint gtb StatusCanvas (hours_x d) (hours status)
       ++ drawTimeSeparator StatusCanvas
            (hours_x d + Config.TIME_SEGMENT_WIDTH) true
       ++ slot_repaint gtb StatusCanvas (minutes_x d) (minutes status)
       ++ drawTimeSeparator StatusCanvas
            (minutes_x d + Config.TIME_SEGMENT_WIDTH) true
       ++ slot_repaint gtb StatusCanvas (seconds_x d) (seconds status)
       ++ flushCanvas StatusCanvas (status_canvas d) 0 0)%list.
Proof.
  intros U. unfold drawStatusBar. run_prog.
  unfold getDrawTarget. rewrite U. cbn [surface_eqb].
  rewrite !orb_true_r. cbn [negb]. rewrite !andb_false_r.
  run_prog. simpl_dm.
  unfold drawTime, drawTimeSegment. rewrite !orb_true_r. simpl_dm.
  unfold drawWiFiIcon, drawTemperature, temp_clear_rect, slot_repaint,
    seconds_x, minutes_x, hours_x. simpl_dm.
  cbn [app]. rewrite ?app_nil_r, <- ?app_assoc. cbn [app].
  reflexivity.
Qed.

(** Claim C4, as amended.  When the status strip has no usable canvas, so
    that it is drawn directly on the panel: if the seconds differ from the
    stored ones while the hours and the minutes do not, a status update
    without a forced redraw makes no call for the hours slot and none for
    the minutes slot; the time is repainted by clearing the rectangle of
    the seconds slot and printing the new seconds, and the only other
    calls of the cycle are those of the signal icon and of the
    temperature, each made only if its own value changed.  When the
    status canvas is in use, every status update, forced or not and
    whatever changed, clears the canvas, clears and prints the hours, the
    minutes and the seconds slot and prints the two separators on it,
    after the icon and the temperature, and sends the canvas to the
    panel. *)
Theorem only_seconds_slot_repainted (status : StatusData) (d : DisplayManager)
        (force : bool) :
  (usable (status_canvas d) = false ->
   laid_out d ->
   hours status = hours (prev_status d) ->
   minutes status = minutes (prev_status d) ->
   seconds status <> seconds (prev_status d) ->
   drawTimeSegment gtb Tft (hours status) (hours (prev_status d)) (hours_x d) false = []
   /\ drawTimeSegment gtb Tft (minutes status) (minutes (prev_status d)) (minutes_x d) false
      = []
   /\ drawTime gtb d Tft status false = slot_repaint gtb Tft (seconds_x d) (seconds status)
   /\ log_of (drawStatusBar gtb status false d)
      = ((if rssi_changed d status
          then drawWiFiIcon d Tft (getRSSILevel (rssi status)) else [])
         ++ (if temp_changed d status
             then drawTemperature gtb d Tft (rounded_temp_of status) else [])
         ++ slot_repaint gtb Tft (seconds_x d) (seconds status))%list
   /\ repaints d FHours (log_of (drawStatusBar gtb status false d)) = 0%nat
   /\ repaints d FMinutes (log_of (drawStatusBar gtb status false d)) = 0%nat
   /\ repaints d FSeconds (log_of (drawStatusBar gtb status false d)) = 1%nat)
  /\ (usable (status_canvas d) = true ->
      log_of (drawStatusBar gtb status force d)
      = (fillScreen StatusCanvas Config.STATUS_BAR_BG_COLOR
           :: drawWiFiIcon d StatusCanvas (getRSSILevel (rssi status))
           ++ drawTemperature gtb d StatusCanvas (rounded_temp_of status)
           ++ slot_repaint gtb StatusCanvas (hours_x d) (hours status)
           ++ drawTimeSeparator StatusCanvas
                (hours_x d + Config.TIME_SEGMENT_WIDTH) true
           ++ slot_repaint gtb StatusCanvas (minutes_x d) (minutes status)
           ++ drawTimeSeparator StatusCanvas
                (minutes_x d + Config.TIME_SEGMENT_WIDTH) true
           ++ slot_repaint gtb StatusCanvas (seconds_x d) (seconds status)
           ++ flushCanvas StatusCanvas (status_canvas d) 0 0)%list
      /\ (laid_out d ->
          repaints d FHours (log_of (drawStatusBar gtb status force d)) = 1%nat
          /\ repaints d FMinutes (log_of (drawStatusBar gtb status force d)) = 1%nat
          /\ repaints d FSeconds (log_of (drawStatusBar gtb status force d)) = 1%nat)).
Proof.
  split.
  - intros U Hl Hh Hm Hs.
    assert (T : drawTime gtb d Tft status false
                = slot_repaint gtb Tft (seconds_x d) (seconds status)).
    { unfold drawTime. rewrite <- Hh, <- Hm, !drawTimeSegment_same.
      rewrite (drawTimeSegment_changed _ _ _ _ _ Hs). reflexivity. }
    assert (C : time_changed d status = true).
    { unfold time_changed.
      destruct (String.eqb_spec (seconds status) (seconds (prev_status d)));
        [contradiction | now rewrite orb_true_r]. }
    assert (E : log_of (drawStatusBar gtb status false d)
       = ((if rssi_changed d status
           then drawWiFiIcon d Tft (getRSSILevel (rssi status)) else [])
          ++ (if temp_changed d status
              then drawTemperature gtb d Tft (rounded_temp_of status) else [])
          ++ slot_repaint gtb Tft (seconds_x d) (seconds status))%list).
    { rewrite drawStatusBar_log_direct by exact U. rewrite C, T. reflexivity. }
    rewrite <- Hh, <- Hm, !drawTimeSegment_same.
    split; [reflexivity |]. split; [reflexivity |].
    split; [exact T |]. split; [exact E |].
    rewrite E. unfold repaints, clears_field, field_surface, getDrawTarget.
    rewrite U. clear - Hl.
    destruct Hl as (L1 & L2 & L3 & L4 & L5).
    destruct (rssi_changed d status), (temp_changed d status);
      unfold drawWiFiIcon, drawTemperature, slot_repaint, field_area, temp_clear_rect,
        seconds_x, minutes_x, hours_x; cbn [wifi_bars];
      rewrite ?L1, ?L2, ?L3, ?L4, ?L5;
      repeat split; lazy; reflexivity.
  - intros U.
    split; [now apply drawStatusBar_log_canvas |].
    intros Hl. rewrite (drawStatusBar_log_canvas status force d U).
    unfold repaints, clears_field, field_surface, getDrawTarget.
    rewrite U.
    destruct (status_canvas d) as [[cw ch cb] |]; [| discriminate].
    cbn [usable has_buffer] in U. subst cb.
    clear - Hl.
    destruct Hl as (L1 & L2 & L3 & L4 & L5).
    unfold drawWiFiIcon, drawTemperature, drawTimeSeparator, slot_repaint, flushCanvas,
      field_area, temp_clear_rect, seconds_x, minutes_x, hours_x;
      cbn [wifi_bars has_buffer canvas_width canvas_height];
      rewrite ?L1, ?L2, ?L3, ?L4, ?L5;
      repeat split; lazy; reflexivity.
Qed.
End StatusBar.

Lemma only_seconds_slot_repainted_witness :
  let d := display_direct_at_09 in
  let b := display_buffered_at_09 in
  let status := status_12_34_10 in
  usable (status_canvas d) = false
  /\ laid_out d
  /\ hours status = hours (prev_status d)
  /\ minutes status = minutes (prev_status d)
  /\ seconds status <> seconds (prev_status d)
  /\ log_of (drawStatusBar classic_font_bounds status false d)
     = slot_repaint classic_font_bounds Tft 77 "10"
  /\ repaints d FHours (log_of (drawStatusBar classic_font_bounds status false d)) = 0%nat
  /\ repaints d FMinutes (log_of (drawStatusBar classic_font_bounds status false d)) = 0%nat
  /\ repaints d FSeconds (log_of (drawStatusBar classic_font_bounds status false d)) = 1%nat
  /\ usable (status_canvas b) = true
  /\ laid_out b
  /\ repaints b FHours (log_of (drawStatusBar classic_font_bounds status false b)) = 1%nat
  /\ repaints b FMinutes (log_of (drawStatusBar classic_font_bounds status false b)) = 1%nat.
Proof.
  assert (U : usable (status_canvas display_direct_at_09) = false)
    by (vm_compute; reflexivity).
  assert (Hl : laid_out display_direct_at_09) by (vm_compute; repeat split; reflexivity).
  assert (Hh : hours status_12_34_10 = hours (prev_status display_direct_at_09))
    by (vm_compute; reflexivity).
  assert (Hm : minutes status_12_34_10 = minutes (prev_status display_direct_at_09))
    by (vm_compute; reflexivity).
  assert (Hs : seconds status_12_34_10 <> seconds (prev_status display_direct_at_09))
    by (vm_compute; discriminate).
  assert (Ub : usable (status_canvas display_buffered_at_09) = true)
    by (vm_compute; reflexivity).
  assert (Hlb : laid_out display_buffered_at_09)
    by (vm_compute; repeat split; reflexivity).
  destruct (proj1 (only_seconds_slot_repainted classic_font_bounds status_12_34_10
                     display_direct_at_09 false) U Hl Hh Hm Hs)
    as (_ & _ & _ & E & R1 & R2 & R3).
  destruct (proj2 (proj2 (only_seconds_slot_repainted classic_font_bounds
                            status_12_34_10 display_buffered_at_09 false) Ub) Hlb)
    as (B1 & B2 & _).
  split; [exact U |]. split; [exact Hl |]. split; [exact Hh |].
  split; [exact Hm |]. split; [exact Hs |].
  split; [rewrite E; vm_compute; reflexivity |].
  split; [exact R1 |]. split; [exact R2 |]. split; [exact R3 |].
  split; [exact Ub |]. split; [exact Hlb |]. split; [exact B1 | exact B2].
Defined.

(** Claim C4, counterexample.  With the status canvas in use, a change of
    the seconds alone, without a forced redraw, clears and prints the hours
    slot and the minutes slot again, on the canvas. *)
Lemma hours_and_minutes_repainted_when_buffered :
  let d := display_buffered_at_09 in
  let status := status_12_34_10 in
  hours status = hours (prev_status d)
  /\ minutes status = minutes (prev_status d)
  /\ seconds status <> seconds (prev_status d)
  /\ repaints d FHours (log_of (drawStatusBar classic_font_bounds status false d)) = 1%nat
  /\ repaints d FMinutes (log_of (drawStatusBar classic_font_bounds status false d)) = 1%nat
  /\ printed (log_of (drawStatusBar classic_font_bounds status false d))
     = [temperature_text 40; "12"; ":"; "34"; ":"; "10"].
Proof.
  repeat split; try (vm_compute; reflexivity); vm_compute; discriminate.
Qed.

(** ** A program logic for invariants *)

Section Maintains.
Context {St : Type}.
Variable I : St -> Prop.
Variable L : list event -> Prop.
Hypothesis L_nil : L [].
Hypothesis L_app : forall l1 l2, L l1 -> L l2 -> L (l1 ++ l2).

Lemma maintains_ret {A} (a : A) (s : St) : maintains_at I L (ret a) s.
Proof. intros H. split; [exact H | exact L_nil]. Qed.

Lemma maintains_emit (l : list event) (s : St) : L l -> maintains_at I L (emit l) s.
Proof. intros Hl H. split; [exact H | exact Hl]. Qed.

Lemma maintains_modify (f : St -> St) (s : St) :
  (I s -> I (f s)) -> maintains_at I L (modify f) s.
Proof. intros Hf H. split; [exact (Hf H) | exact L_nil]. Qed.

Lemma maintains_bind {A B} (m : Prog St A) (k : A -> Prog St B) (s : St) :
  maintains_at I L m s ->
  (I (state_of (m s)) -> maintains_at I L (k (result_of (m s))) (state_of (m s))) ->
  maintains_at I L (bind m k) s.
Proof.
  unfold maintains_at, bind, state_of, log_of, result_of.
  intros Hm Hk H. destruct (m s) as [[a s1] l1]. cbn in *.
  destruct (Hm H) as [H1 Hl1]. specialize (Hk H1 H1).
  destruct (k a s1) as [[b s2] l2]. cbn in *.
  destruct Hk as [H2 Hl2]. split; [exact H2 | exact (L_app _ _ Hl1 Hl2)].
Qed.

Lemma maintains_get_bind {B} (k : St -> Prog St B) (s : St) :
  (I s -> maintains_at I L (k s) s) -> maintains_at I L (bind get k) s.
Proof.
  intros Hk. apply maintains_bind.
  - intros H. split; [exact H | exact L_nil].
  - exact Hk.
Qed.

Lemma maintains_when (b : bool) (m : Prog St unit) (s : St) :
  (b = true -> maintains_at I L m s) -> maintains_at I L (when b m) s.
Proof. destruct b; cbn; intros H; [now apply H | apply maintains_ret]. Qed.

Lemma maintains_if {A} (b : bool) (m1 m2 : Prog St A) (s : St) :
  (b = true -> maintains_at I L m1 s) -> (b = false -> maintains_at I L m2 s) ->
  maintains_at I L (if b then m1 else m2) s.
Proof. destruct b; intros H1 H2; [now apply H1 | now apply H2]. Qed.

End Maintains.

Section MaintainsZoom.
Context {St T : Type}.
Variable proj : St -> T.
Variable upd : T -> St -> St.
Hypothesis proj_upd : forall t s, proj (upd t s) = t.
Variable I : T -> Prop.
Variable L : list event -> Prop.

Lemma maintains_zoom {A} (m : Prog T A) (s : St) :
  maintains_at I L m (proj s) ->
  maintains_at (fun s => I (proj s)) L (zoom proj upd m) s.
Proof.
  unfold maintains_at, zoom, state_of, log_of. intros Hm H.
  destruct (m (proj s)) as [[a t] l]. cbn in *. rewrite proj_upd. now apply Hm.
Qed.
End MaintainsZoom.

(** ** A canvas that could not be allocated stays away *)

Lemma never_involves_app (w : surface) (l1 l2 : list event) :
  never_involves w (l1 ++ l2) = never_involves w l1 && never_involves w l2.
Proof. apply forallb_app. Qed.

Lemma never_involves_flat_map {A} (w : surface) (f : A -> list event) (xs : list A) :
  (forall x, never_involves w (f x) = true) ->
  never_involves w (flat_map f xs) = true.
Proof.
  intros H. induction xs as [| x xs IH]; [reflexivity |].
  cbn [flat_map]. now rewrite never_involves_app, H, IH.
Qed.

Section NoReallocation.
Variable gtb : surface -> Z -> string -> Z * Z.
Variable which : surface.
Hypothesis which_canvas : which = StatusCanvas \/ which = MainCanvas.

Lemma untouched_nil : (untouched which) [].
Proof. reflexivity. Qed.

Lemma untouched_app (l1 l2 : list event) :
  (untouched which) l1 -> (untouched which) l2 -> (untouched which) (l1 ++ l2).
Proof. unfold untouched. intros H1 H2. now rewrite never_involves_app, H1, H2. Qed.

Lemma not_tft : surface_eqb Tft which = false.
Proof. destruct which_canvas; subst; reflexivity. Qed.

Lemma not_strip : surface_eqb Strip which = false.
Proof. destruct which_canvas; subst; reflexivity. Qed.

Lemma status_target_elsewhere (d : DisplayManager) :
  (lost which) d -> surface_eqb (getDrawTarget StatusCanvas (status_canvas d)) which = false.
Proof.
  unfold lost, getDrawTarget. destruct which_canvas; subst; cbn.
  - intros ->. reflexivity.
  - intros _. destruct (usable _); reflexivity.
Qed.

Lemma main_target_elsewhere (d : DisplayManager) :
  (lost which) d -> surface_eqb (getDrawTarget MainCanvas (main_canvas d)) which = false.
Proof.
  unfold lost, getDrawTarget. destruct which_canvas; subst; cbn.
  - intros _. destruct (usable _); reflexivity.
  - intros ->. reflexivity.
Qed.

(** Unfold the calls of a log down to their targets. *)
Ltac on_target H :=
  cbn [never_involves forallb involves negb andb app
       fillRect fillScreen drawFastHLine setTextSize setTextColor setCursor print
       setTextWrap];
  rewrite ?H; reflexivity.

Lemma drawWiFiIcon_elsewhere (d : DisplayManager) (t : surface) (level : Z) :
  surface_eqb t which = false -> (untouched which) (drawWiFiIcon d t level).
Proof. intros H. unfold untouched, drawWiFiIcon. cbn [wifi_bars]. on_target H. Qed.

Lemma drawTemperature_elsewhere (d : DisplayManager) (t : surface) (temp : Z) :
  surface_eqb t which = false -> (untouched which) (drawTemperature gtb d t temp).
Proof.
  intros H. unfold untouched, drawTemperature.
  destruct (temp_clear_rect d). on_target H.
Qed.

Lemma drawTimeSegment_elsewhere (t : surface) (text prev : string) (x : Z) (f : bool) :
  surface_eqb t which = false -> (untouched which) (drawTimeSegment gtb t text prev x f).
Proof.
  intros H. unfold untouched, drawTimeSegment.
  destruct (_ || _); on_target H.
Qed.

Lemma drawTimeSeparator_elsewhere (t : surface) (x : Z) (f : bool) :
  surface_eqb t which = false -> (untouched which) (drawTimeSeparator t x f).
Proof. intros H. unfold untouched, drawTimeSeparator. destruct f; on_target H. Qed.

Lemma drawTime_elsewhere (d : DisplayManager) (t : surface) (st : StatusData) (f : bool) :
  surface_eqb t which = false -> (untouched which) (drawTime gtb d t st f).
Proof.
  intros H. unfold drawTime.
  repeat apply untouched_app;
    auto using drawTimeSegment_elsewhere, drawTimeSeparator_elsewhere.
Qed.

Lemma drawPowerValue_elsewhere (t : surface) (v : F32.float) (c ax ay aw ah : Z)
      (pv : F32.float) (pc : Z) (f : bool) :
  surface_eqb t which = false ->
  (untouched which) (drawPowerValue gtb t v c ax ay aw ah pv pc f).
Proof.
  intros H. unfold untouched, drawPowerValue.
  destruct (_ && _); [reflexivity |].
  destruct (power_text v) as [[vs us] g]. on_target H.
Qed.

Lemma draw_centered_elsewhere (t : surface) (text : string) (fs c x y w h : Z) :
  surface_eqb t which = false -> (untouched which) (draw_centered gtb t text fs c x y w h).
Proof. intros H. unfold untouched, draw_centered, getTextCenterPos. on_target H. Qed.

Lemma drawVoltageCurrentRevised_elsewhere (t : surface) (v c : F32.float)
      (fs vc cc ax ay aw ah : Z) (pv pc : F32.float) (f : bool) :
  surface_eqb t which = false ->
  (untouched which) (drawVoltageCurrentRevised gtb t v c fs vc cc ax ay aw ah pv pc f).
Proof.
  intros H. unfold drawVoltageCurrentRevised.
  destruct (_ && _); [reflexivity |].
  apply untouched_app.
  - destruct (_ || _); [now apply draw_centered_elsewhere | reflexivity].
  - destruct (_ || _); [now apply draw_centered_elsewhere | reflexivity].
Qed.

Lemma flush_status_untouched (d : DisplayManager) (x y : Z) :
  (lost which) d -> (untouched which) (flushCanvas StatusCanvas (status_canvas d) x y).
Proof.
  unfold lost, untouched, flushCanvas. destruct which_canvas; subst; cbn.
  - intros ->. reflexivity.
  - intros _. destruct (status_canvas d) as [[? ? []] |]; reflexivity.
Qed.

Lemma flush_main_untouched (d : DisplayManager) (x y : Z) :
  (lost which) d -> (untouched which) (flushCanvas MainCanvas (main_canvas d) x y).
Proof.
  unfold lost, untouched, flushCanvas. destruct which_canvas; subst; cbn.
  - intros _. destruct (main_canvas d) as [[? ? []] |]; reflexivity.
  - intros ->. reflexivity.
Qed.

Lemma startup_strips_untouched (fuel : nat) (y h bg fg : Z) (show : bool)
      (title sub : string) (tx ty sx sy : Z) :
  (untouched which) (startup_strips fuel y h bg fg show title sub tx ty sx sy).
Proof.
  revert y. induction fuel as [| fuel IH]; intros y; [reflexivity |].
  cbn [startup_strips]. destruct (y <? Panel.height); [| reflexivity].
  repeat apply untouched_app; try apply IH.
  - unfold untouched. on_target not_strip.
  - destruct show; [| reflexivity].
    apply untouched_app; destruct (_ && _); try reflexivity;
      unfold untouched; on_target not_strip.
  - unfold untouched.
    cbn [never_involves forallb involves negb andb drawRGBBitmap].
    now rewrite not_tft, not_strip.
Qed.

Local Abbreviation keeps := (maintains_at (lost which) (untouched which)).

Ltac keep_step :=
  cbv zeta;
  lazymatch goal with
  | |- maintains_at _ _ (bind get _) _ =>
      apply (maintains_get_bind (lost which) (untouched which) untouched_nil untouched_app); intros ?
  | |- maintains_at _ _ (bind _ _) _ =>
      apply (maintains_bind (lost which) (untouched which) untouched_app); [| intros ?]
  | |- maintains_at _ _ (ret _) _ =>
      apply (maintains_ret (lost which) (untouched which) untouched_nil)
  | |- maintains_at _ _ (when _ _) _ =>
      apply (maintains_when (lost which) (untouched which) untouched_nil); intros ?
  | |- maintains_at _ _ (if _ then _ else _) _ =>
      apply (maintains_if (lost which) (untouched which)); intros ?
  | |- maintains_at _ _ (modify _) _ =>
      apply (maintains_modify (lost which) (untouched which) untouched_nil); intros ?
  | |- maintains_at _ _ (emit _) _ =>
      apply (maintains_emit (lost which) (untouched which))
  end.

Lemma lost_frame (d d' : DisplayManager) :
  status_canvas d' = status_canvas d -> main_canvas d' = main_canvas d ->
  (lost which) d -> (lost which) d'.
Proof.
  unfold lost, canvas_of. intros H1 H2. destruct which; congruence.
Qed.

Ltac keep_frame := eapply lost_frame; [| | eassumption]; reflexivity.

Lemma drawFullScreenMessage_keeps (text : string) (size color : Z) (d : DisplayManager) :
  keeps (drawFullScreenMessage gtb text size color) d.
Proof.
  unfold drawFullScreenMessage. keep_step. unfold untouched. on_target not_tft.
Qed.

Lemma drawStartupAnimation_keeps (a : alloc_result) (d : DisplayManager) :
  keeps (drawStartupAnimation gtb a) d.
Proof.
  unfold drawStartupAnimation. keep_step.
  apply untouched_app.
  - unfold untouched.
    cbn [never_involves forallb involves negb andb setTextSize].
    now rewrite not_tft, not_strip.
  - destruct (negb _).
    + apply untouched_app.
      * unfold untouched. on_target not_tft.
      * destruct (new_GFXcanvas16 _ _ _); [| reflexivity].
        unfold untouched. destruct which_canvas as [E | E]; rewrite E; reflexivity.
    + unfold drawStartupFrame.
      apply untouched_app; [apply startup_strips_untouched |].
      apply untouched_app;
        [apply never_involves_flat_map; intros; apply startup_strips_untouched |].
      apply untouched_app; [apply startup_strips_untouched |].
      apply untouched_app;
        [apply never_involves_flat_map; intros; apply startup_strips_untouched |].
      apply untouched_app; [apply startup_strips_untouched |].
      unfold untouched. destruct which_canvas as [E | E]; rewrite E; reflexivity.
Qed.

Lemma drawStatusBar_keeps (st : StatusData) (f : bool) (d : DisplayManager) :
  keeps (drawStatusBar gtb st f) d.
Proof.
  unfold drawStatusBar. keep_step.
  pose proof (status_target_elsewhere d H) as T.
  keep_step; [keep_step |].
  repeat keep_step; try keep_frame.
  - unfold untouched. cbn [never_involves forallb involves negb andb fillScreen].
    destruct which_canvas as [E | E]; rewrite E; [| reflexivity].
    rewrite E in T. congruence.
  - now apply drawWiFiIcon_elsewhere.
  - now apply drawTemperature_elsewhere.
  - now apply drawTime_elsewhere.
  - apply flush_status_untouched; assumption.
Qed.

Lemma drawMainDisplay_keeps (p : PowerData) (f : bool) (d : DisplayManager) :
  keeps (drawMainDisplay gtb p f) d.
Proof.
  unfold drawMainDisplay. keep_step.
  pose proof (main_target_elsewhere d H) as T.
  repeat keep_step; try keep_frame.
  - unfold untouched. cbn [never_involves forallb involves negb andb fillScreen].
    destruct which_canvas as [E | E]; rewrite E; [reflexivity |].
    rewrite E in T. congruence.
  - now apply drawPowerValue_elsewhere.
  - now apply drawVoltageCurrentRevised_elsewhere.
  - apply flush_main_untouched; assumption.
Qed.

Lemma drawInitialUI_keeps (t : F32.float) (d : DisplayManager) :
  keeps (drawInitialUI gtb t) d.
Proof.
  unfold drawInitialUI. keep_step.
  repeat keep_step; try keep_frame;
    try apply drawStatusBar_keeps; try apply drawMainDisplay_keeps.
  unfold untouched. on_target not_tft.
Qed.

Lemma do_op_keeps (op : display_op) (d : DisplayManager) : keeps (do_op gtb op) d.
Proof.
  destruct op; cbn [do_op];
    auto using drawFullScreenMessage_keeps, drawStartupAnimation_keeps,
      drawStatusBar_keeps, drawMainDisplay_keeps, drawInitialUI_keeps.
Qed.

Lemma do_ops_keeps (ops : list display_op) (d : DisplayManager) :
  keeps (do_ops gtb ops) d.
Proof.
  revert d. induction ops as [| op ops IH]; intros d; cbn [do_ops].
  - keep_step.
  - keep_step; [apply do_op_keeps | apply IH].
Qed.

Lemma begin_loses (a_s a_m : alloc_result) (d0 : DisplayManager) :
  (which = StatusCanvas /\ alloc_failed a_s = true)
  \/ (which = MainCanvas /\ alloc_failed a_m = true) ->
  (lost which) (state_of (begin a_s a_m d0)).
Proof.
  unfold lost.
  intros [[-> F] | [-> F]]; destruct a_s, a_m; try discriminate; reflexivity.
Qed.

End NoReallocation.

Lemma log_of_bind {St A B} (m : Prog St A) (k : A -> Prog St B) (s : St) :
  log_of (bind m k s)
  = (log_of (m s) ++ log_of (k (result_of (m s)) (state_of (m s))))%list.
Proof.
  unfold bind, log_of, result_of, state_of.
  destruct (m s) as [[a s1] l1]. cbn. destruct (k a s1) as [[b s2] l2]. reflexivity.
Qed.

Lemma state_of_bind {St A B} (m : Prog St A) (k : A -> Prog St B) (s : St) :
  state_of (bind m k s) = state_of (k (result_of (m s)) (state_of (m s))).
Proof.
  unfold bind, log_of, result_of, state_of.
  destruct (m s) as [[a s1] l1]. cbn. destruct (k a s1) as [[b s2] l2]. reflexivity.
Qed.




Lemma onDisplay_state {A} (m : Prog DisplayManager A) (s : Sketch) :
  displayMgr (state_of (onDisplay m s)) = state_of (m (displayMgr s)).
Proof.
  unfold onDisplay, zoom, state_of. now destruct (m (displayMgr s)) as [[a d] l].
Qed.

Lemma onDisplay_log {A} (m : Prog DisplayManager A) (s : Sketch) :
  log_of (onDisplay m s) = log_of (m (displayMgr s)).
Proof.
  unfold onDisplay, zoom, log_of. now destruct (m (displayMgr s)) as [[a d] l].
Qed.

Lemma allocations_app (w : surface) (l1 l2 : list event) :
  allocations w (l1 ++ l2) = (allocations w l1 + allocations w l2)%nat.
Proof. unfold allocations. now rewrite filter_app, length_app. Qed.

Lemma untouched_no_allocation (w : surface) (l : list event) :
  untouched w l -> allocations w l = 0%nat.
Proof.
  unfold untouched, allocations. induction l as [| e l IH]; [reflexivity |].
  cbn [never_involves forallb filter]. intros H.
  apply andb_true_iff in H as [He Hl].
  replace (is_allocation w e) with false.
  - now apply IH.
  - destruct e as [t c | w' ? ? | w']; try reflexivity.
    cbn in He |- *. now destruct (surface_eqb w' w).
Qed.

Section SketchKeeps.
Variable gtb : surface -> Z -> string -> Z * Z.
Variable which : surface.
Hypothesis which_canvas : which = StatusCanvas \/ which = MainCanvas.

Local Abbreviation lost_s := (fun s : Sketch => lost which (displayMgr s)).
Local Abbreviation keeps_s := (maintains_at lost_s (untouched which)).

Lemma onDisplay_keeps {A} (m : Prog DisplayManager A) (s : Sketch) :
  maintains_at (lost which) (untouched which) m (displayMgr s) ->
  keeps_s (onDisplay m) s.
Proof.
  intros H. unfold onDisplay.
  apply (maintains_zoom displayMgr set_displayMgr); [reflexivity | exact H].
Qed.

Lemma displayMgr_updateTime (t : option tm) (s : Sketch) :
  displayMgr (updateTime t s) = displayMgr s.
Proof. destruct t; reflexivity. Qed.

Ltac sketch_step :=
  cbv zeta;
  lazymatch goal with
  | |- maintains_at _ _ (bind get _) _ =>
      apply (maintains_get_bind lost_s (untouched which)
               (untouched_nil which) (untouched_app which)); intros ?
  | |- maintains_at _ _ (bind _ _) _ =>
      apply (maintains_bind lost_s (untouched which) (untouched_app which));
      [| intros ?]
  | |- maintains_at _ _ (ret _) _ =>
      apply (maintains_ret lost_s (untouched which) (untouched_nil which))
  | |- maintains_at _ _ (if _ then _ else _) _ =>
      apply (maintains_if lost_s (untouched which)); intros ?
  | |- maintains_at _ _ (modify _) _ =>
      apply (maintains_modify lost_s (untouched which) (untouched_nil which));
      let H := fresh in
      intros H;
      first [ exact H
            | unfold initializeNTP; rewrite displayMgr_updateTime; exact H ]
  | |- maintains_at _ _ (onDisplay _) _ => apply onDisplay_keeps
  | |- maintains_at _ _ (match ?x with (_, _) => _ end) _ => destruct x
  end.

Lemma handleWiFiDisconnection_keeps (env : HandlerEnv) (s : Sketch) :
  keeps_s (handleWiFiDisconnection gtb env) s.
Proof.
  unfold handleWiFiDisconnection.
  repeat sketch_step;
    auto using drawStatusBar_keeps, drawFullScreenMessage_keeps, drawInitialUI_keeps.
Qed.

Lemma loop_time_update_keeps (env : LoopEnv) (s : Sketch) :
  keeps_s (loop_time_update gtb env) s.
Proof.
  unfold loop_time_update. repeat sketch_step; auto using drawStatusBar_keeps.
Qed.

Lemma loop_data_fetch_keeps (env : LoopEnv) (s : Sketch) :
  keeps_s (loop_data_fetch gtb env) s.
Proof.
  unfold loop_data_fetch. sketch_step. sketch_step.
  - sketch_step; [sketch_step |]. sketch_step.
    + sketch_step.
      * sketch_step; [apply handleWiFiDisconnection_keeps | sketch_step].
      * repeat sketch_step; auto using drawMainDisplay_keeps.
    + sketch_step.
  - sketch_step.
Qed.

Lemma loop_keeps (env : LoopEnv) (s : Sketch) : keeps_s (loop gtb env) s.
Proof.
  unfold loop. sketch_step; [apply loop_time_update_keeps | apply loop_data_fetch_keeps].
Qed.

Lemma run_keeps (envs : list LoopEnv) (s : Sketch) : keeps_s (run gtb envs) s.
Proof.
  revert s. induction envs as [| e envs IH]; intros s; cbn [run].
  - sketch_step.
  - sketch_step; [apply loop_keeps | apply IH].
Qed.

Lemma countdown_keeps (i : nat) (s : Sketch) : keeps_s (countdown gtb i) s.
Proof.
  revert s. induction i as [| i IH]; intros s; cbn [countdown].
  - sketch_step.
  - sketch_step; [sketch_step; apply drawFullScreenMessage_keeps; assumption | apply IH].
Qed.

Lemma connect_loop_keeps (envs : list LinkEnv) (s : Sketch) :
  keeps_s (connect_loop gtb envs) s.
Proof.
  revert s. induction envs as [| e envs IH]; intros s; cbn [connect_loop].
  - sketch_step.
  - sketch_step. sketch_step. sketch_step; [sketch_step |]. sketch_step.
    + sketch_step.
    + sketch_step; [sketch_step; apply drawFullScreenMessage_keeps; assumption |].
      sketch_step; [apply countdown_keeps |].
      sketch_step; [sketch_step; apply drawFullScreenMessage_keeps; assumption |].
      apply IH.
Qed.

Lemma setup_after_begin_keeps (env : SetupEnv) (s : Sketch) :
  keeps_s (setup_after_begin gtb env) s.
Proof.
  unfold setup_after_begin.
  sketch_step; [sketch_step; apply drawFullScreenMessage_keeps; assumption |].
  sketch_step; [sketch_step; apply drawFullScreenMessage_keeps; assumption |].
  sketch_step; [apply connect_loop_keeps |].
  repeat sketch_step; auto using drawFullScreenMessage_keeps, drawInitialUI_keeps.
Qed.

Lemma begin_allocates_once (a_s a_m : alloc_result) (d0 : DisplayManager) :
  allocations which (log_of (begin a_s a_m d0)) = 1%nat.
Proof.
  destruct which_canvas as [E | E]; rewrite E; destruct a_s, a_m; reflexivity.
Qed.

(** Claim C5.  If the allocation of the canvas of a region fails in
    [begin], with no object or with no buffer, then after [begin] and after
    every sequence of operations of the display manager, and in the sketch
    after [setup] and after every number of passes of [loop], in every
    environment: the canvas is absent, [getDrawTarget] returns the panel
    for the region, no call is made on or from that canvas, and the only
    request to allocate it is the one [begin] made. *)
Theorem allocation_failure_is_permanent (a_s a_m : alloc_result) :
  (which = StatusCanvas /\ alloc_failed a_s = true)
  \/ (which = MainCanvas /\ alloc_failed a_m = true) ->
  (forall (d0 : DisplayManager) (ops : list display_op),
      let b := begin a_s a_m d0 in
      let r := do_ops gtb ops (state_of b) in
      canvas_of which (state_of r) = None
      /\ getDrawTarget which (canvas_of which (state_of r)) = Tft
      /\ never_involves which (log_of r) = true
      /\ allocations which (log_of b ++ log_of r) = 1%nat)
  /\ (forall (env : SetupEnv) (envs : list LoopEnv),
         s_alloc_status env = a_s -> s_alloc_main env = a_m ->
         let r0 := setup gtb env Sketch_new in
         let r := run gtb envs (state_of r0) in
         canvas_of which (displayMgr (state_of r)) = None
         /\ getDrawTarget which (canvas_of which (displayMgr (state_of r))) = Tft
         /\ never_involves which (log_of r) = true
         /\ allocations which (log_of r0 ++ log_of r) = 1%nat).
Proof.
  intros F. split.
  - intros d0 ops b r.
    pose proof (begin_loses which which_canvas a_s a_m d0 F) as Hb.
    destruct (do_ops_keeps gtb which which_canvas ops (state_of b) Hb) as [Hs Hl].
    fold r in Hs, Hl. unfold lost in Hs.
    repeat split.
    + exact Hs.
    + now rewrite Hs.
    + exact Hl.
    + rewrite allocations_app, (untouched_no_allocation _ _ Hl).
      unfold b. now rewrite begin_allocates_once.
  - intros env envs <- <- r0 r.
    set (b := onDisplay (begin (s_alloc_status env) (s_alloc_main env)) Sketch_new).
    assert (Hb : lost which (displayMgr (state_of b))).
    { unfold b. rewrite onDisplay_state.
      exact (begin_loses which which_canvas _ _ (displayMgr Sketch_new) F). }
    destruct (setup_after_begin_keeps env (state_of b) Hb) as [H0 L0].
    assert (E0 : state_of r0 = state_of (setup_after_begin gtb env (state_of b))).
    { unfold r0, setup. now rewrite state_of_bind. }
    assert (El : log_of r0
                 = (log_of b ++ log_of (setup_after_begin gtb env (state_of b)))%list).
    { unfold r0, setup. now rewrite log_of_bind. }
    rewrite <- E0 in H0.
    destruct (run_keeps envs (state_of r0) H0) as [Hs Hl].
    fold r in Hs, Hl. unfold lost in Hs.
    repeat split.
    + exact Hs.
    + now rewrite Hs.
    + exact Hl.
    + rewrite El, !allocations_app.
      rewrite (untouched_no_allocation _ _ Hl), (untouched_no_allocation _ _ L0).
      unfold b. rewrite onDisplay_log. now rewrite begin_allocates_once.
Qed.

End SketchKeeps.

Lemma allocation_failure_is_permanent_witness :
  alloc_failed AllocNull = true
  /\ main_canvas (displayMgr (state_of (run classic_font_bounds []
                                (state_of (setup classic_font_bounds boot_direct
                                                 Sketch_new))))) = None
  /\ getDrawTarget MainCanvas
       (main_canvas (state_of (do_ops classic_font_bounds
                                 [OpInitialUI (F32.of_Z 40);
                                  OpMainDisplay scenario_sample false]
                                 (state_of (begin AllocNoBuffer AllocNull
                                                  DisplayManager_new))))) = Tft.
Proof.
  assert (F : (MainCanvas = StatusCanvas /\ alloc_failed AllocNoBuffer = true)
              \/ (MainCanvas = MainCanvas /\ alloc_failed AllocNull = true))
    by (right; split; reflexivity).
  destruct (allocation_failure_is_permanent classic_font_bounds MainCanvas
              (or_intror eq_refl) AllocNoBuffer AllocNull F) as [Hops Hrun].
  split; [reflexivity |]. split.
  - exact (proj1 (Hrun boot_direct [] eq_refl eq_refl)).
  - exact (proj1 (proj2 (Hops DisplayManager_new
                           [OpInitialUI (F32.of_Z 40);
                            OpMainDisplay scenario_sample false]))).
Defined.

(** ** The stored previous values *)

Section PreviousValues.
Variable gtb : surface -> Z -> string -> Z * Z.

(** In the status bar a stored value changes only in the branch that
    paints its field. *)
Lemma status_values_stored_when_painted (status : StatusData) (d : DisplayManager) :
  usable (status_canvas d) = false ->
  let d' := state_of (drawStatusBar gtb status false d) in
  (rssi_changed d status = false -> prev_rssi_level d' = prev_rssi_level d)
  /\ (temp_changed d status = false ->
      internal_temp (prev_status d') = internal_temp (prev_status d))
  /\ (time_changed d status = false ->
      hours (prev_status d') = hours (prev_status d)
      /\ minutes (prev_status d') = minutes (prev_status d)
      /\ seconds (prev_status d') = seconds (prev_status d)).
Proof.
  intros U. unfold drawStatusBar. run_prog.
  unfold getDrawTarget. rewrite U. cbn [surface_eqb orb].
  destruct (rssi_changed d status), (temp_changed d status), (time_changed d status);
    cbn [negb andb orb]; run_prog; simpl_dm;
    repeat split; intros; try discriminate; reflexivity.
Qed.

Lemma drawStatusBar_keeps_power (status : StatusData) (f : bool) (d : DisplayManager) :
  let d' := state_of (drawStatusBar gtb status f d) in
  prev_power d' = prev_power d /\ prev_power_color d' = prev_power_color d.
Proof.
  unfold drawStatusBar. run_prog.
  destruct (surface_eqb _ _), f,
    (rssi_changed d status), (temp_changed d status), (time_changed d status);
    cbn [negb andb orb]; run_prog; simpl_dm; split; reflexivity.
Qed.

End PreviousValues.

(** Claim C6, the code at the failing input.  With the main area drawn
    directly on the panel and 100.0 W on the screen, the sample 100.3 W is
    rendered without a single call, and yet the stored previous power
    becomes 100.3 W.  Fed 100.4 W and then 100.8 W, the renderer again
    makes no call, although 100.8 W would print as 101 and the screen
    still reads 100. *)
Lemma stored_power_moves_without_repaint :
  let d := state_of (drawMainDisplay classic_font_bounds watts_100_0 true
                                     (displayMgr sketch_direct)) in
  let r := drawMainDisplay classic_font_bounds watts_100_3 false d in
  let r4 := drawMainDisplay classic_font_bounds watts_100_4 false d in
  let r8 := drawMainDisplay classic_font_bounds watts_100_8 false (state_of r4) in
  usable (main_canvas d) = false
  /\ power_active (prev_power d) = F32.of_Z 100
  /\ log_of r = []
  /\ power_active (prev_power (state_of r)) = F32.of_decimal 1003 1
  /\ power_active (prev_power (state_of r)) <> power_active (prev_power d)
  /\ log_of r4 = [] /\ log_of r8 = []
  /\ fst (fst (power_text (power_active watts_100_0))) = "100"
  /\ fst (fst (power_text (power_active watts_100_8))) = "101".
Proof.
  repeat split; try (vm_compute; reflexivity). vm_compute. discriminate.
Qed.

(** ** The data fetcher *)

Lemma parseJSON_out_of_range (doc : JsonDocument) (data : PowerData) :
  containsKey doc "voltage" = true ->
  containsKey doc "current" = true ->
  containsKey doc "power_active" = true ->
  out_of_range (as_float doc "voltage") 0 500
  || out_of_range (as_float doc "current") 0 100
  || out_of_range (as_float doc "power_active") 0 50000 = true ->
  parseJSON (Some doc) data
  = (false, mkPowerData (as_float doc "voltage") (as_float doc "current")
                        (as_float doc "power_active")).
Proof.
  intros Kv Kc Kp R. unfold parseJSON. rewrite Kv, Kc, Kp.
  cbn [negb orb voltage current power_active].
  destruct (out_of_range (as_float doc "voltage") 0 500); [reflexivity |].
  destruct (out_of_range (as_float doc "current") 0 100); [reflexivity |].
  destruct (out_of_range (as_float doc "power_active") 0 50000);
    [reflexivity | discriminate].
Qed.

Lemma fetchPowerData_out_of_range
      (reply : HttpReply) (now : Z) (data : PowerData) (f : DataFetcher)
      (doc : JsonDocument) :
  http_code reply = HTTP_CODE_OK ->
  http_payload reply = Some doc ->
  containsKey doc "voltage" = true ->
  containsKey doc "current" = true ->
  containsKey doc "power_active" = true ->
  out_of_range (as_float doc "voltage") 0 500
  || out_of_range (as_float doc "current") 0 100
  || out_of_range (as_float doc "power_active") 0 50000 = true ->
  fetchPowerData reply now data f
  = (false,
     mkPowerData (as_float doc "voltage") (as_float doc "current")
                 (as_float doc "power_active"),
     count_failure f).
Proof.
  intros Hc Hp Kv Kc Kp R. unfold fetchPowerData.
  rewrite Hc, Hp, Z.eqb_refl, (parseJSON_out_of_range doc data Kv Kc Kp R).
  reflexivity.
Qed.

(** Claim C10.  When the server answers 200 with a document that has the
    three members and one of the values is outside its bounds,
    [fetchPowerData] returns false and the out-parameter holds the three
    parsed values, the rejected one included; what it held before is
    lost. *)
Theorem rejected_values_reach_the_out_parameter
        (reply : HttpReply) (now : Z) (data : PowerData) (f : DataFetcher)
        (doc : JsonDocument) :
  http_code reply = HTTP_CODE_OK ->
  http_payload reply = Some doc ->
  containsKey doc "voltage" = true ->
  containsKey doc "current" = true ->
  containsKey doc "power_active" = true ->
  out_of_range (as_float doc "voltage") 0 500
  || out_of_range (as_float doc "current") 0 100
  || out_of_range (as_float doc "power_active") 0 50000 = true ->
  fetchPowerData reply now data f
  = (false,
     mkPowerData (as_float doc "voltage") (as_float doc "current")
                 (as_float doc "power_active"),
     count_failure f).
Proof. apply fetchPowerData_out_of_range. Qed.

Lemma rejected_values_reach_the_out_parameter_witness :
  http_code reply_600V = HTTP_CODE_OK
  /\ out_of_range (as_float (json_of sample_600V) "voltage") 0 500 = true
  /\ fetchPowerData reply_600V 5003 scenario_sample DataFetcher_new
     = (false, sample_600V, mkDataFetcher 0 false 1)
  /\ sample_600V <> scenario_sample.
Proof.
  split; [reflexivity |]. split; [vm_compute; reflexivity |]. split.
  - exact (rejected_values_reach_the_out_parameter reply_600V 5003 scenario_sample
             DataFetcher_new (json_of sample_600V)
             eq_refl eq_refl eq_refl eq_refl eq_refl eq_refl).
  - vm_compute. discriminate.
Defined.

(** ** A pass of the loop whose sample is rejected *)

Section RejectedSample.
Variable gtb : surface -> Z -> string -> Z * Z.

Lemma loop_time_update_frame (env : LoopEnv) (s : Sketch) :
  let s' := state_of (loop_time_update gtb env s) in
  dataFetcher s' = dataFetcher s
  /\ currentPower s' = currentPower s
  /\ first_loop s' = first_loop s
  /\ last_data_fetch s' = last_data_fetch s
  /\ prev_power (displayMgr s') = prev_power (displayMgr s)
  /\ prev_power_color (displayMgr s') = prev_power_color (displayMgr s).
Proof.
  unfold loop_time_update. run_prog.
  destruct (_ && _); [| repeat split; reflexivity].
  unfold onDisplay, zoom. run_prog.
  match goal with
  | |- context [drawStatusBar gtb ?st false ?d] =>
      pose proof (drawStatusBar_keeps_power gtb st false d) as K;
      destruct (drawStatusBar gtb st false d) as [[u d'] l]
  end.
  cbn in K. destruct K as [K1 K2].
  destruct (l_time env); cbn; repeat split; assumption.
Qed.

(** Claim C7.  In a pass of [loop] in which a fetch is due, the link is
    up, and the server answers 200 with a document whose three members are
    present but with a value outside its bounds (a voltage of 600, say),
    the fetch returns false, the fetch half of the pass makes no call on
    any drawing surface, so that the main area keeps what it shows and the
    stored previous sample is unchanged, and the count of consecutive
    failures grows by exactly one. *)
Theorem out_of_range_sample_is_rejected (env : LoopEnv) (s : Sketch)
        (doc : JsonDocument) :
  l_fetch_link_up env = true ->
  (Config.LOOP_DELAY_MS
     <=? MachineInt.sub_ulong (MachineInt.to_ulong (l_millis env)) (last_data_fetch s))
  || first_loop s = true ->
  http_code (l_reply env) = HTTP_CODE_OK ->
  http_payload (l_reply env) = Some doc ->
  containsKey doc "voltage" = true ->
  containsKey doc "current" = true ->
  containsKey doc "power_active" = true ->
  out_of_range (as_float doc "voltage") 0 500
  || out_of_range (as_float doc "current") 0 100
  || out_of_range (as_float doc "power_active") 0 50000 = true ->
  0 <= consecutive_failures (dataFetcher s) < MachineInt.INT_MAX ->
  let fetch := fetchPowerData (l_reply env) (l_fetch_millis env)
                              (currentPower s) (dataFetcher s) in
  let s1 := state_of (loop_time_update gtb env s) in
  let r := loop gtb env s in
  fst (fst fetch) = false
  /\ log_of (loop_data_fetch gtb env s1) = []
  /\ log_of r = log_of (loop_time_update gtb env s)
  /\ displayMgr (state_of r) = displayMgr s1
  /\ prev_power (displayMgr (state_of r)) = prev_power (displayMgr s)
  /\ prev_power_color (displayMgr (state_of r)) = prev_power_color (displayMgr s)
  /\ consecutive_failures (dataFetcher (state_of r))
     = consecutive_failures (dataFetcher s) + 1
  /\ last_fetch_successful (dataFetcher (state_of r)) = false.
Proof.
  intros Hup Hdue Hc Hp Kv Kc Kp R Hn fetch s1 r.
  destruct (loop_time_update_frame env s) as (Ff & Fp & Fl & Fd & Fpp & Fpc).
  fold s1 in Ff, Fp, Fl, Fd, Fpp, Fpc.
  assert (Hfetch : forall data f,
             fetchPowerData (l_reply env) (l_fetch_millis env) data f
             = (false,
                mkPowerData (as_float doc "voltage") (as_float doc "current")
                            (as_float doc "power_active"),
                count_failure f)).
  { intros data f.
    exact (fetchPowerData_out_of_range (l_reply env) (l_fetch_millis env)
             data f doc Hc Hp Kv Kc Kp R). }
  assert (Hhalf : loop_data_fetch gtb env s1
                  = (tt,
                     set_first_loop false
                       (set_dataFetcher (count_failure (dataFetcher s1))
                          (set_currentPower
                             (mkPowerData (as_float doc "voltage") (as_float doc "current")
                                          (as_float doc "power_active"))
                             (set_last_data_fetch (MachineInt.to_ulong (l_millis env)) s1))),
                     [])).
  { unfold loop_data_fetch. run_prog. rewrite Fl, Fd, Hdue, Hup.
    cbn [negb]. run_prog.
    cbn [dataFetcher currentPower set_last_data_fetch].
    rewrite Hfetch. reflexivity. }
  assert (Hcount : MachineInt.to_int (consecutive_failures (dataFetcher s) + 1)
                   = consecutive_failures (dataFetcher s) + 1).
  { unfold MachineInt.to_int, MachineInt.wrap_signed, MachineInt.INT_MAX in *.
    rewrite Z.mod_small by lia. lia. }
  assert (Hr : state_of r = state_of (loop_data_fetch gtb env s1)).
  { unfold r, loop. now rewrite state_of_bind. }
  assert (Hl : log_of r
               = (log_of (loop_time_update gtb env s)
                    ++ log_of (loop_data_fetch gtb env s1))%list).
  { unfold r, loop. now rewrite log_of_bind. }
  repeat split.
  - unfold fetch. now rewrite Hfetch.
  - now rewrite Hhalf.
  - rewrite Hl, Hhalf. apply app_nil_r.
  - rewrite Hr, Hhalf. reflexivity.
  - rewrite Hr, Hhalf. exact Fpp.
  - rewrite Hr, Hhalf. exact Fpc.
  - rewrite Hr, Hhalf. cbn. rewrite Ff. exact Hcount.
  - rewrite Hr, Hhalf. reflexivity.
Qed.

End RejectedSample.

Lemma out_of_range_sample_is_rejected_witness :
  let s := sketch_buffered in
  let r := loop classic_font_bounds pass_600V s in
  l_fetch_link_up pass_600V = true
  /\ http_payload (l_reply pass_600V) = Some (json_of sample_600V)
  /\ out_of_range (as_float (json_of sample_600V) "voltage") 0 500 = true
  /\ consecutive_failures (dataFetcher s) = 0
  /\ fst (fst (fetchPowerData (l_reply pass_600V) (l_fetch_millis pass_600V)
                              (currentPower s) (dataFetcher s))) = false
  /\ log_of r = log_of (loop_time_update classic_font_bounds pass_600V s)
  /\ prev_power (displayMgr (state_of r)) = prev_power (displayMgr s)
  /\ consecutive_failures (dataFetcher (state_of r)) = 1.
Proof.
  assert (Hdue : (Config.LOOP_DELAY_MS
                    <=? MachineInt.sub_ulong (MachineInt.to_ulong (l_millis pass_600V))
                                             (last_data_fetch sketch_buffered))
                 || first_loop sketch_buffered = true) by (vm_compute; reflexivity).
  assert (R : out_of_range (as_float (json_of sample_600V) "voltage") 0 500
              || out_of_range (as_float (json_of sample_600V) "current") 0 100
              || out_of_range (as_float (json_of sample_600V) "power_active") 0 50000
              = true) by (vm_compute; reflexivity).
  assert (Hn : 0 <= consecutive_failures (dataFetcher sketch_buffered)
               < MachineInt.INT_MAX) by (vm_compute; split; [discriminate | reflexivity]).
  destruct (out_of_range_sample_is_rejected classic_font_bounds pass_600V
              sketch_buffered (json_of sample_600V)
              eq_refl Hdue eq_refl eq_refl eq_refl eq_refl eq_refl R Hn)
    as (Q1 & _ & Q3 & _ & Q5 & _ & Q7 & _).
  split; [reflexivity |]. split; [reflexivity |].
  split; [vm_compute; reflexivity |]. split; [vm_compute; reflexivity |].
  split; [exact Q1 |]. split; [exact Q3 |]. split; [exact Q5 |].
  exact Q7.
Defined.

(** ** Reconnection and its backoff *)

Lemma backoff_delay_capped (n : Z) : 0 <= backoff_delay n <= 16000.
Proof.
  unfold backoff_delay, MachineInt.to_ulong, MachineInt.wrap_unsigned.
  pose proof (Z.mod_pos_bound
                (MachineInt.mul_int Config.WIFI_RECONNECT_BACKOFF_MS
                                    (MachineInt.shl_int 1 n)) (2 ^ 32) eq_refl).
  lia.
Qed.

(** As long as fewer than 29 attempts have failed in a row the delay is
    the base doubled once per failed attempt, capped. *)
Lemma backoff_delay_doubles (n : nat) :
  (n < 29)%nat ->
  backoff_delay (Z.of_nat n)
  = Z.min (Config.WIFI_RECONNECT_BACKOFF_MS * 2 ^ Z.of_nat n) 16000.
Proof.
  intros H.
  do 29 (destruct n as [| n]; [vm_compute; reflexivity |]).
  lia.
Qed.

Lemma backoff_delay_monotone_below_29 (n m : nat) :
  (n <= m)%nat -> (m < 29)%nat ->
  backoff_delay (Z.of_nat n) <= backoff_delay (Z.of_nat m).
Proof.
  intros Hnm Hm. rewrite !backoff_delay_doubles by lia.
  apply Z.min_le_compat_r. apply Z.mul_le_mono_nonneg_l; [discriminate |].
  apply Z.pow_le_mono_r; lia.
Qed.

(** An attempt that succeeds resets the count, and one that fails adds one
    to it. *)
Lemma reconnect_attempt (env : LinkEnv) (w : WiFiManager) :
  link_up_on_entry env = false ->
  backoff_delay (reconnect_attempts w)
  <= MachineInt.sub_ulong (MachineInt.to_ulong (link_millis env))
                          (last_reconnect_attempt w) ->
  let k := wait_for_link (Z.to_nat Config.WIFI_RECONNECT_TIMEOUT) (link_poll env) 0 in
  (link_poll env k = true ->
   fst (reconnect env w) = true
   /\ reconnect_attempts (snd (reconnect env w)) = 0)
  /\ (link_poll env k = false ->
      fst (reconnect env w) = false
      /\ reconnect_attempts (snd (reconnect env w))
         = MachineInt.to_int (reconnect_attempts w + 1)).
Proof.
  intros Hdown Hdue k. unfold reconnect. rewrite Hdown.
  destruct (Z.ltb_spec
              (MachineInt.sub_ulong (MachineInt.to_ulong (link_millis env))
                                    (last_reconnect_attempt w))
              (backoff_delay (reconnect_attempts w))) as [Hlt | _]; [lia |].
  fold k. split; intros ->; split; reflexivity.
Qed.

(** Claim C9, the code at the failing inputs.  After 28 failed attempts in
    a row the delay is at its cap of 16000 ms; after the 29th the product
    [1000 * (1 << 29)] no longer fits in 32 bits and the delay is 0, and it
    stays 0 for 30 and 31 failed attempts.  And [reconnect], called after
    three failed attempts when the link has come back by itself,
    returns true and leaves the count at 3, so that the first delay after
    the next loss of the link is 8000 ms and not the base of 1000 ms. *)
Lemma backoff_delay_drops_after_29_failures :
  backoff_delay 0 = 1000
  /\ backoff_delay 28 = 16000
  /\ backoff_delay 29 = 0
  /\ backoff_delay 30 = 0
  /\ backoff_delay 31 = 0
  /\ reconnect link_up (mkWiFiManager WIFI_RECONNECTING 3 60000)
     = (true, mkWiFiManager WIFI_CONNECTED 3 60000)
  /\ backoff_delay 3 = 8000.
Proof. repeat split; vm_compute; reflexivity. Qed.

(** ** Forced redraws and the recovery after a reconnection *)






Section Forced.
Variable gtb : surface -> Z -> string -> Z * Z.





End Forced.

Section Recovery.
Variable gtb : surface -> Z -> string -> Z * Z.











End Recovery.

Section RecoveryCycle.
Variable gtb : surface -> Z -> string -> Z * Z.



(** *** A forced redraw does not look at the stored values *)





(** *** The texts of a full redraw *)



(** *** Where the main area is drawn *)





End RecoveryCycle.


(** * Further properties of the code *)

(** ** Helpers: checking a finite range by evaluation, comparisons with
    integer constants *)

Lemma check_range (P : Z -> bool) (lo : Z) (n : nat) :
  forallb (fun k => P (lo + Z.of_nat k)) (seq 0 n) = true ->
  forall z, lo <= z < lo + Z.of_nat n -> P z = true.
Proof.
  intros C z Hz.
  rewrite forallb_forall in C.
  specialize (C (Z.to_nat (z - lo))).
  replace (lo + Z.of_nat (Z.to_nat (z - lo))) with z in C by lia.
  apply C. apply in_seq. lia.
Qed.

Lemma leb_integer (p : F32.float) (n : Z) :
  F32.valid p = true -> Fl.is_finite p = true ->
  F32.valid (F32.of_Z n) = true -> Fl.is_finite (F32.of_Z n) = true ->
  (Fl.to_Q (F32.of_Z n) == inject_Z n)%Q ->
  F32.leb p (F32.of_Z n) = Qle_bool (Fl.to_Q p) (inject_Z n).
Proof.
  intros V F Vn Fn E.
  apply eq_true_iff_eq. unfold F32.leb.
  rewrite (SFleb_exact p (F32.of_Z n) V Vn F Fn), Qle_bool_iff, E. reflexivity.
Qed.

Lemma ltb_integer (p : F32.float) (n : Z) :
  F32.valid p = true -> Fl.is_finite p = true ->
  F32.valid (F32.of_Z n) = true -> Fl.is_finite (F32.of_Z n) = true ->
  (Fl.to_Q (F32.of_Z n) == inject_Z n)%Q ->
  F32.ltb p (F32.of_Z n) = negb (Qle_bool (inject_Z n) (Fl.to_Q p)).
Proof.
  intros V F Vn Fn E.
  apply eq_true_iff_eq. unfold F32.ltb.
  rewrite (SFltb_exact p (F32.of_Z n) V Vn F Fn), negb_true_iff, E.
  rewrite <- not_true_iff_false, Qle_bool_iff. split.
  - intros H H'. exact (Qlt_not_le _ _ H H').
  - apply Qnot_le_lt.
Qed.

Lemma gtb_integer (p : F32.float) (n : Z) :
  F32.valid p = true -> Fl.is_finite p = true ->
  F32.valid (F32.of_Z n) = true -> Fl.is_finite (F32.of_Z n) = true ->
  (Fl.to_Q (F32.of_Z n) == inject_Z n)%Q ->
  F32.gtb p (F32.of_Z n) = negb (Qle_bool (Fl.to_Q p) (inject_Z n)).
Proof.
  intros V F Vn Fn E.
  apply eq_true_iff_eq. unfold F32.gtb.
  rewrite (SFltb_exact (F32.of_Z n) p Vn V Fn F), negb_true_iff, E.
  rewrite <- not_true_iff_false, Qle_bool_iff. split.
  - intros H H'. exact (Qlt_not_le _ _ H H').
  - apply Qnot_le_lt.
Qed.

(** ** The signal level and its icon *)

(** Property X1.  [getRSSILevel] maps a signal strength to a level from 0
    to 4, never lower for a stronger signal, and the level is at least [k]
    (for [k] from 1 to 4) exactly when the strength is at least
    [10 k - 95] dBm: -85, -75, -65 and -55. *)
Theorem rssi_level_thresholds (r r' k : Z) :
  0 <= getRSSILevel r <= 4
  /\ (r <= r' -> getRSSILevel r <= getRSSILevel r')
  /\ (1 <= k <= 4 -> (k <= getRSSILevel r <-> 10 * k - 95 <= r)).
Proof.
  unfold getRSSILevel.
  repeat match goal with
         | |- context [?a <=? ?b] => destruct (Z.leb_spec a b)
         end; lia.
Qed.

Lemma rssi_level_thresholds_witness :
  getRSSILevel (-70) <= getRSSILevel (-60)
  /\ (3 <= getRSSILevel (-60) <-> 10 * 3 - 95 <= -60).
Proof.
  destruct (rssi_level_thresholds (-70) (-60) 3) as (_ & M & _).
  destruct (rssi_level_thresholds (-60) (-60) 3) as (_ & _ & T).
  split; [apply M; lia | apply T; lia].
Defined.

(** Property X2.  With the layout [begin] computes, [drawWiFiIcon] clears
    the 24 by 18 rectangle of the icon and then fills four bars inside it,
    4 wide, 6 apart, of heights 4, 9, 13 and 18, standing on the bottom
    edge of the icon; bar [k] is lit when the level is at least [k], so
    the number of lit bars is the level, held to the range 0 to 4. *)
Theorem signal_icon_shows_the_level (d : DisplayManager) (t : surface) (level : Z) :
  laid_out d ->
  drawWiFiIcon d t level
  = [ Gfx t (FillRect 291 11 24 18 Config.STATUS_BAR_BG_COLOR);
      Gfx t (FillRect 292 25 4 4 (bar_color 1 level));
      Gfx t (FillRect 298 20 4 9 (bar_color 2 level));
      Gfx t (FillRect 304 16 4 13 (bar_color 3 level));
      Gfx t (FillRect 310 11 4 18 (bar_color 4 level)) ]
  /\ lit_bars (drawWiFiIcon d t level) = Z.max 0 (Z.min 4 level).
Proof.
  intros (_ & X & Y & _).
  assert (E : drawWiFiIcon d t level
              = [ Gfx t (FillRect 291 11 24 18 Config.STATUS_BAR_BG_COLOR);
                  Gfx t (FillRect 292 25 4 4 (bar_color 1 level));
                  Gfx t (FillRect 298 20 4 9 (bar_color 2 level));
                  Gfx t (FillRect 304 16 4 13 (bar_color 3 level));
                  Gfx t (FillRect 310 11 4 18 (bar_color 4 level)) ]).
  { unfold drawWiFiIcon, wifi_bars, bar_color. rewrite X, Y.
    change (0 + 1) with 1.
    change (1 + 1 + 1 + 1) with 4. change (1 + 1 + 1) with 3. change (1 + 1) with 2.
    destruct (1 <=? level), (2 <=? level), (3 <=? level), (4 <=? level);
      reflexivity. }
  split; [exact E |].
  rewrite E. unfold lit_bars, bar_color.
  destruct (Z.leb_spec 1 level), (Z.leb_spec 2 level),
           (Z.leb_spec 3 level), (Z.leb_spec 4 level);
    try lia;
    match goal with
    | |- Z.of_nat ?n = _ => let v := eval vm_compute in n in change n with v
    end; lia.
Qed.

Lemma signal_icon_shows_the_level_witness :
  laid_out (displayMgr sketch_direct)
  /\ lit_bars (drawWiFiIcon (displayMgr sketch_direct) Tft (getRSSILevel (-60))) = 3.
Proof.
  assert (L : laid_out (displayMgr sketch_direct))
    by (repeat split; vm_compute; reflexivity).
  split; [exact L |].
  exact (proj2 (signal_icon_shows_the_level (displayMgr sketch_direct) Tft
                  (getRSSILevel (-60)) L)).
Defined.

(** ** The colour of the power field *)

Lemma integer_constants_are_floats :
  forallb (fun n => F32.valid (F32.of_Z n) && Fl.is_finite (F32.of_Z n)
                    && Qeq_bool (Fl.to_Q (F32.of_Z n)) (inject_Z n))
          [0; 100; 500; 1000; 1500; 2500; 3500; 50000] = true.
Proof. vm_compute. reflexivity. Qed.

Lemma integer_constant (n : Z) :
  In n [0; 100; 500; 1000; 1500; 2500; 3500; 50000] ->
  F32.valid (F32.of_Z n) = true /\ Fl.is_finite (F32.of_Z n) = true
  /\ (Fl.to_Q (F32.of_Z n) == inject_Z n)%Q.
Proof.
  intros H.
  pose proof (proj1 (forallb_forall _ _) integer_constants_are_floats n H) as C.
  apply andb_true_iff in C. destruct C as [C Q].
  apply andb_true_iff in C. destruct C as [V F].
  repeat split; try assumption. now apply Qeq_bool_iff.
Qed.

Lemma leb_constant (p : F32.float) (n : Z) :
  In n [0; 100; 500; 1000; 1500; 2500; 3500; 50000] ->
  F32.valid p = true -> Fl.is_finite p = true ->
  F32.leb p (F32.of_Z n) = Qle_bool (Fl.to_Q p) (inject_Z n).
Proof.
  intros H V F. destruct (integer_constant n H) as (Vn & Fn & E).
  now apply leb_integer.
Qed.

Lemma ltb_constant (p : F32.float) (n : Z) :
  In n [0; 100; 500; 1000; 1500; 2500; 3500; 50000] ->
  F32.valid p = true -> Fl.is_finite p = true ->
  F32.ltb p (F32.of_Z n) = negb (Qle_bool (inject_Z n) (Fl.to_Q p)).
Proof.
  intros H V F. destruct (integer_constant n H) as (Vn & Fn & E).
  now apply ltb_integer.
Qed.

Lemma gtb_constant (p : F32.float) (n : Z) :
  In n [0; 100; 500; 1000; 1500; 2500; 3500; 50000] ->
  F32.valid p = true -> Fl.is_finite p = true ->
  F32.gtb p (F32.of_Z n) = negb (Qle_bool (Fl.to_Q p) (inject_Z n)).
Proof.
  intros H V F. destruct (integer_constant n H) as (Vn & Fn & E).
  now apply gtb_integer.
Qed.

Ltac in_list := cbn [In]; tauto.

Lemma Qle_bool_false (x y : Q) : (y < x)%Q -> Qle_bool x y = false.
Proof.
  intros H. apply not_true_iff_false. rewrite Qle_bool_iff.
  intros H'. exact (Qlt_not_le _ _ H H').
Qed.

Lemma Qle_bool_true (x y : Q) : (x <= y)%Q -> Qle_bool x y = true.
Proof. apply Qle_bool_iff. Qed.

(** Property X3.  [getPowerColor] chooses the colour by the exact value of
    the power: green up to 1500 W (negative values included), yellow above
    1500 and up to 2500 W, orange above 2500 and up to 3500 W, red above
    3500 W.  Of the values that are no numbers, positive infinity and NaN
    (for which every comparison fails) are red, negative infinity is
    green. *)
Theorem power_colour_buckets (p : F32.float) :
  (F32.valid p = true -> Fl.is_finite p = true ->
   ((Fl.to_Q p <= 1500)%Q -> getPowerColor p = Config.POWER_COLOR_NORMAL)
   /\ ((1500 < Fl.to_Q p)%Q -> (Fl.to_Q p <= 2500)%Q ->
       getPowerColor p = Config.POWER_COLOR_MEDIUM)
   /\ ((2500 < Fl.to_Q p)%Q -> (Fl.to_Q p <= 3500)%Q ->
       getPowerColor p = Config.POWER_COLOR_HIGH)
   /\ ((3500 < Fl.to_Q p)%Q -> getPowerColor p = Config.POWER_COLOR_MAX))
  /\ getPowerColor S754_nan = Config.POWER_COLOR_MAX
  /\ getPowerColor (S754_infinity false) = Config.POWER_COLOR_MAX
  /\ getPowerColor (S754_infinity true) = Config.POWER_COLOR_NORMAL.
Proof.
  split; [| repeat split].
  intros V F. unfold getPowerColor.
  rewrite !leb_constant by (assumption || in_list).
  change (inject_Z 1500) with 1500%Q. change (inject_Z 2500) with 2500%Q.
  change (inject_Z 3500) with 3500%Q.
  assert (L1 : (1500 < 2500)%Q) by reflexivity.
  assert (L2 : (2500 < 3500)%Q) by reflexivity.
  repeat split.
  - intros H. now rewrite (Qle_bool_true _ _ H).
  - intros H1 H2. now rewrite (Qle_bool_false _ _ H1), (Qle_bool_true _ _ H2).
  - intros H1 H2.
    rewrite (Qle_bool_false _ _ H1), (Qle_bool_true _ _ H2).
    rewrite (Qle_bool_false _ 1500); [reflexivity |].
    now apply Qlt_trans with 2500%Q.
  - intros H.
    rewrite (Qle_bool_false _ _ H).
    rewrite (Qle_bool_false _ 2500), (Qle_bool_false _ 1500); [reflexivity | |].
    + apply Qlt_trans with 2500%Q; [exact L1 |]. now apply Qlt_trans with 3500%Q.
    + now apply Qlt_trans with 3500%Q.
Qed.

Lemma power_colour_buckets_witness :
  F32.valid (F32.of_Z 2000) = true
  /\ Fl.is_finite (F32.of_Z 2000) = true
  /\ (1500 < Fl.to_Q (F32.of_Z 2000))%Q
  /\ (Fl.to_Q (F32.of_Z 2000) <= 2500)%Q
  /\ getPowerColor (F32.of_Z 2000) = Config.POWER_COLOR_MEDIUM.
Proof.
  assert (V : F32.valid (F32.of_Z 2000) = true) by reflexivity.
  assert (F : Fl.is_finite (F32.of_Z 2000) = true) by reflexivity.
  assert (H1 : (1500 < Fl.to_Q (F32.of_Z 2000))%Q) by reflexivity.
  assert (H2 : (Fl.to_Q (F32.of_Z 2000) <= 2500)%Q) by (vm_compute; discriminate).
  split; [exact V | split; [exact F | split; [exact H1 | split; [exact H2 |]]]].
  exact (proj1 (proj2 (proj1 (power_colour_buckets (F32.of_Z 2000)) V F)) H1 H2).
Defined.

(** ** Grey levels *)

Lemma gray_checked : forallb (fun k => gray_check (0 + Z.of_nat k)) (seq 0 256) = true.
Proof. vm_compute. reflexivity. Qed.

(** Property X4.  For a grey level from 0 to 255 [grayToRGB565] packs the
    level's upper five bits as red and as blue and its upper six bits as
    green in a 16-bit colour; so level 0 is black, level 255 is white, and
    a higher level never gives a lower colour value or channel.  The
    argument is taken as a byte: levels 256 apart give the same colour. *)
Theorem gray_levels_pack_into_rgb565 (g g' : Z) :
  (0 <= g <= 255 ->
   let c := grayToRGB565 g in
   red_of c = g / 8 /\ green_of c = g / 4 /\ blue_of c = g / 8
   /\ 0 <= c < 65536)
  /\ (0 <= g <= g' -> g' <= 255 -> grayToRGB565 g <= grayToRGB565 g')
  /\ grayToRGB565 0 = Config.ST77XX_BLACK
  /\ grayToRGB565 255 = Config.ST77XX_WHITE
  /\ grayToRGB565 (g + 256) = grayToRGB565 g.
Proof.
  assert (C : forall z, 0 <= z <= 255 -> gray_check z = true).
  { intros z Hz. apply (check_range gray_check 0 256 gray_checked). lia. }
  split; [| split; [| split; [| split]]]; try reflexivity.
  - intros H. specialize (C g H). unfold gray_check in C.
    repeat (apply andb_true_iff in C; destruct C as [C ?]).
    cbv zeta.
    repeat match goal with H : (_ =? _) = true |- _ => apply Z.eqb_eq in H end.
    repeat split; try assumption; lia.
  - intros H H'.
    pose proof (C g ltac:(lia)) as C1. pose proof (C g' ltac:(lia)) as C2.
    unfold gray_check in C1, C2.
    repeat (apply andb_true_iff in C1; destruct C1 as [C1 ?]).
    repeat (apply andb_true_iff in C2; destruct C2 as [C2 ?]).
    repeat match goal with H : (_ =? _) = true |- _ => apply Z.eqb_eq in H end.
    assert (g / 8 <= g' / 8) by (apply Z.div_le_mono; lia).
    assert (g / 4 <= g' / 4) by (apply Z.div_le_mono; lia).
    lia.
  - unfold grayToRGB565, MachineInt.to_uint8, MachineInt.wrap_unsigned.
    replace ((g + 256) mod 2 ^ 8) with (g mod 2 ^ 8); [reflexivity |].
    change (2 ^ 8) with 256.
    replace (g + 256) with (g + 1 * 256) by lia. now rewrite Z.mod_add.
Qed.

Lemma gray_levels_pack_into_rgb565_witness :
  0 <= 100 <= 255
  /\ red_of (grayToRGB565 100) = 12 /\ green_of (grayToRGB565 100) = 25
  /\ grayToRGB565 100 <= grayToRGB565 240.
Proof.
  destruct (gray_levels_pack_into_rgb565 100 240) as (A & B & _).
  destruct (A ltac:(lia)) as (R & G & _).
  split; [lia | split; [exact R | split; [exact G | apply B; lia]]].
Defined.

(** ** The startup animation *)

Lemma to_int16_small (z : Z) : -32768 <= z < 32768 -> MachineInt.to_int16 z = z.
Proof.
  intros H. unfold MachineInt.to_int16, MachineInt.wrap_signed.
  change (2 ^ (16 - 1)) with 32768. change (2 ^ 16) with 65536.
  rewrite Z.mod_small by lia. lia.
Qed.

Lemma strip_rows_app (l1 l2 : list event) :
  strip_rows (l1 ++ l2) = (strip_rows l1 ++ strip_rows l2)%list.
Proof. apply flat_map_app. Qed.

Lemma all_on_app (t : surface) (l1 l2 : list event) :
  all_on t (l1 ++ l2) = all_on t l1 && all_on t l2.
Proof. apply forallb_app. Qed.

Lemma calls_on_app (t : surface) (l1 l2 : list event) :
  calls_on t (l1 ++ l2) = (calls_on t l1 ++ calls_on t l2)%list.
Proof. apply filter_app. Qed.

Section Startup.

Variable gtb : surface -> Z -> string -> Z * Z.

(** The text drawn into a strip never reaches the panel. *)
Lemma startup_step (fuel : nat) (y h bg fg : Z) (show : bool) (title sub : string)
      (tx ty sx sy : Z) :
  y < Panel.height ->
  exists text,
    startup_strips (S fuel) y h bg fg show title sub tx ty sx sy
    = (fillScreen Strip bg :: text
         ++ drawRGBBitmap Tft 0 y Strip Panel.width (Z.min h (Panel.height - y))
         :: startup_strips fuel (y + h) h bg fg show title sub tx ty sx sy)%list
    /\ strip_rows text = [] /\ all_on Strip text = true.
Proof.
  intros Hy.
  exists (if show
          then ((if (ty <? y + Z.min h (Panel.height - y)) && (y <? ty + 21)
                 then [ setTextColor Strip fg; setTextSize Strip 3;
                        setCursor Strip tx (ty - y); print Strip title ]
                 else [])
                ++ (if (sy <? y + Z.min h (Panel.height - y)) && (y <? sy + 14)
                    then [ setTextColor Strip fg; setTextSize Strip 2;
                           setCursor Strip sx (sy - y); print Strip sub ]
                    else []))%list
          else []).
  split; [| split].
  - cbn [startup_strips]. apply Z.ltb_lt in Hy. rewrite Hy. reflexivity.
  - destruct show; [| reflexivity].
    destruct ((ty <? y + Z.min h (Panel.height - y)) && (y <? ty + 21)),
             ((sy <? y + Z.min h (Panel.height - y)) && (y <? sy + 14)); reflexivity.
  - destruct show; [| reflexivity].
    destruct ((ty <? y + Z.min h (Panel.height - y)) && (y <? ty + 21)),
             ((sy <? y + Z.min h (Panel.height - y)) && (y <? sy + 14)); reflexivity.
Qed.

Lemma startup_done (fuel : nat) (y h bg fg : Z) (show : bool) (title sub : string)
      (tx ty sx sy : Z) :
  Panel.height <= y ->
  startup_strips fuel y h bg fg show title sub tx ty sx sy = [].
Proof.
  intros Hy. destruct fuel; [reflexivity |]. cbn [startup_strips].
  apply Z.ltb_ge in Hy. now rewrite Hy.
Qed.

Lemma startup_strips_tile (fuel : nat) (y h bg fg : Z) (show : bool)
      (title sub : string) (tx ty sx sy : Z) :
  1 <= h -> 0 <= y < Panel.height -> Panel.height - y <= Z.of_nat fuel ->
  tiles h y Panel.height
        (strip_rows (startup_strips fuel y h bg fg show title sub tx ty sx sy)) = true.
Proof.
  intros Hh. revert y.
  induction fuel as [| fuel IH]; intros y Hy Hf; [lia |].
  destruct (startup_step fuel y h bg fg show title sub tx ty sx sy (proj2 Hy))
    as (text & E & T & _).
  rewrite E. change (fillScreen Strip bg :: text ++ ?l)%list
    with ([fillScreen Strip bg] ++ text ++ l)%list.
  rewrite !strip_rows_app, T.
  cbn [strip_rows flat_map app drawRGBBitmap fillScreen].
  unfold Panel.height in *.
  rewrite !to_int16_small by lia.
  cbn [tiles].
  rewrite Z.eqb_refl.
  replace (0 <? Z.min h (240 - y)) with true by (symmetry; apply Z.ltb_lt; lia).
  replace (Z.min h (240 - y) <=? h) with true by (symmetry; apply Z.leb_le; lia).
  cbn [andb].
  destruct (Z.le_gt_cases 240 (y + h)) as [Hd | Hd].
  - rewrite startup_done by (unfold Panel.height; lia).
    cbn [strip_rows flat_map tiles]. apply Z.eqb_eq. lia.
  - replace (Z.min h (240 - y)) with h by lia.
    apply IH; lia.
Qed.

Lemma startup_strips_on_strip (fuel : nat) (y h bg fg : Z) (show : bool)
      (title sub : string) (tx ty sx sy : Z) :
  calls_on Tft (startup_strips fuel y h bg fg show title sub tx ty sx sy)
  = filter is_paint_event
           (calls_on Tft (startup_strips fuel y h bg fg show title sub tx ty sx sy))
  /\ List.length (calls_on Tft (startup_strips fuel y h bg fg show title sub tx ty sx sy))
     = List.length (strip_rows (startup_strips fuel y h bg fg show title sub tx ty sx sy)).
Proof.
  revert y. induction fuel as [| fuel IH]; intros y; [split; reflexivity |].
  destruct (Z.lt_ge_cases y Panel.height) as [Hy | Hy].
  - destruct (startup_step fuel y h bg fg show title sub tx ty sx sy Hy)
      as (text & E & T & A).
    rewrite E. change (fillScreen Strip bg :: text ++ ?l)%list
      with ([fillScreen Strip bg] ++ text ++ l)%list.
    rewrite !calls_on_app, !strip_rows_app, T.
    assert (N : calls_on Tft text = []).
    { clear - A. induction text as [| e text IHt]; [reflexivity |].
      cbn [all_on forallb] in A. apply andb_true_iff in A. destruct A as [A1 A2].
      cbn [calls_on filter]. destruct e as [t c | |]; try discriminate.
      destruct t; try discriminate. cbn [is_call_on surface_eqb].
      apply IHt, A2. }
    rewrite N. destruct (IH (y + h)) as [I1 I2].
    cbn [calls_on filter is_call_on fillScreen surface_eqb app drawRGBBitmap
         strip_rows flat_map is_paint_event is_paint List.length].
    fold (calls_on Tft (startup_strips fuel (y + h) h bg fg show title sub tx ty sx sy)).
    fold (strip_rows (startup_strips fuel (y + h) h bg fg show title sub tx ty sx sy)).
    split; [now rewrite <- I1 | now rewrite I2].
  - rewrite startup_done by exact Hy. split; reflexivity.
Qed.

(** Property X5.  [drawStartupFrame] sends the frame to the panel in
    strips that tile it: for every strip height from 1 on, the bitmap
    transfers start at row 0, each begins where the one before ended, none
    is empty or higher than the strip buffer, and the last ends at row
    240, the last strip being cut to the rows that remain.  Everything
    else a frame draws goes to the strip buffer: the transfers are the
    only calls made on the panel. *)
Theorem startup_frame_tiles_the_panel (strip_h bg fg : Z) (show : bool)
        (title sub : string) (tx ty sx sy : Z) :
  1 <= strip_h <= MachineInt.INT_MAX - Panel.height ->
  let frame := drawStartupFrame strip_h bg fg show title sub tx ty sx sy in
  tiles strip_h 0 Panel.height (strip_rows frame) = true
  /\ List.length (calls_on Tft frame) = List.length (strip_rows frame)
  /\ paint_events (calls_on Tft frame) = calls_on Tft frame.
Proof.
  intros H frame. subst frame. unfold drawStartupFrame.
  split; [apply startup_strips_tile; unfold Panel.height; lia |].
  destruct (startup_strips_on_strip (Z.to_nat Panel.height) 0 strip_h bg fg show
              title sub tx ty sx sy) as [A B].
  split; [exact B | symmetry; exact A].
Qed.

End Startup.

Lemma startup_frame_tiles_the_panel_witness :
  1 <= 100 <= MachineInt.INT_MAX - Panel.height
  /\ strip_rows (drawStartupFrame 100 0 0 false "ESP32-C3" "Energy Monitor" 88 100 76 139)
     = [(0, 100); (100, 100); (200, 40)]
  /\ tiles 100 0 Panel.height
           (strip_rows (drawStartupFrame 100 0 0 false "ESP32-C3" "Energy Monitor"
                                         88 100 76 139)) = true.
Proof.
  assert (H : 1 <= 100 <= MachineInt.INT_MAX - Panel.height) by (vm_compute; split; discriminate).
  split; [exact H |]. split; [vm_compute; reflexivity |].
  exact (proj1 (startup_frame_tiles_the_panel 100 0 0 false "ESP32-C3" "Energy Monitor"
                  88 100 76 139 H)).
Defined.

(** ** The data fetcher *)

Lemma in_range_number (x : F32.float) (hi : Z) :
  In hi [0; 100; 500; 1000; 1500; 2500; 3500; 50000] ->
  is_number x = true ->
  out_of_range x 0 hi
  = negb (Qle_bool 0 (Fl.to_Q x) && Qle_bool (Fl.to_Q x) (inject_Z hi)).
Proof.
  intros H N. apply andb_true_iff in N. destruct N as [V F].
  unfold out_of_range.
  rewrite (ltb_constant x 0) by (assumption || in_list).
  rewrite (gtb_constant x hi) by assumption.
  change (inject_Z 0) with 0%Q.
  destruct (Qle_bool 0 (Fl.to_Q x)), (Qle_bool (Fl.to_Q x) (inject_Z hi)); reflexivity.
Qed.

Lemma parseJSON_fields (doc : JsonDocument) (data : PowerData) :
  has_fields doc = true ->
  parseJSON (Some doc) data
  = (negb (out_of_range (as_float doc "voltage") 0 500)
     && negb (out_of_range (as_float doc "current") 0 100)
     && negb (out_of_range (as_float doc "power_active") 0 50000),
     sample_of doc).
Proof.
  unfold has_fields. intros H.
  apply andb_true_iff in H. destruct H as [H H3].
  apply andb_true_iff in H. destruct H as [H1 H2].
  unfold parseJSON, sample_of. rewrite H1, H2, H3. cbn [negb orb].
  cbn [voltage current power_active].
  destruct (out_of_range (as_float doc "voltage") 0 500),
           (out_of_range (as_float doc "current") 0 100),
           (out_of_range (as_float doc "power_active") 0 50000); reflexivity.
Qed.

Lemma parseJSON_no_fields (doc : JsonDocument) (data : PowerData) :
  has_fields doc = false -> parseJSON (Some doc) data = (false, data).
Proof.
  unfold has_fields, parseJSON. intros H.
  destruct (containsKey doc "voltage"), (containsKey doc "current"),
           (containsKey doc "power_active"); try discriminate; reflexivity.
Qed.

(** Property X6.  [parseJSON] accepts a document exactly when it has the
    three members and each value lies in its range, bounds included: the
    voltage from 0 to 500, the current from 0 to 100, the power from 0 to
    50000 (for values that are numbers; the comparison is the comparison
    of the exact values).  An accepted document leaves its three values
    in the out-parameter.  A document without one of the members, and a
    payload that is no document, are refused with the out-parameter as it
    was.  A value that is NaN fails both comparisons of its range test
    and so passes it. *)
Theorem parseJSON_accepts_exactly_the_ranges (doc : JsonDocument) (data : PowerData) :
  (is_number (as_float doc "voltage") = true ->
   is_number (as_float doc "current") = true ->
   is_number (as_float doc "power_active") = true ->
   (fst (parseJSON (Some doc) data) = true
    <-> has_fields doc = true
        /\ (0 <= Fl.to_Q (as_float doc "voltage") <= 500)%Q
        /\ (0 <= Fl.to_Q (as_float doc "current") <= 100)%Q
        /\ (0 <= Fl.to_Q (as_float doc "power_active") <= 50000)%Q))
  /\ (fst (parseJSON (Some doc) data) = true ->
      snd (parseJSON (Some doc) data) = sample_of doc)
  /\ (has_fields doc = false -> parseJSON (Some doc) data = (false, data))
  /\ parseJSON None data = (false, data)
  /\ (forall lo hi : Z, out_of_range S754_nan lo hi = false).
Proof.
  split; [| split; [| split; [| split]]].
  - intros N1 N2 N3.
    destruct (has_fields doc) eqn:Hf.
    + rewrite (parseJSON_fields doc data Hf). cbn [fst].
      rewrite (in_range_number _ 500), (in_range_number _ 100),
        (in_range_number _ 50000) by (assumption || in_list).
      rewrite !negb_involutive, !andb_true_iff, !Qle_bool_iff.
      change (inject_Z 500) with 500%Q. change (inject_Z 100) with 100%Q.
      change (inject_Z 50000) with 50000%Q. tauto.
    + rewrite (parseJSON_no_fields doc data Hf). cbn [fst].
      split; [discriminate | intros [H _]; discriminate].
  - destruct (has_fields doc) eqn:Hf.
    + now rewrite (parseJSON_fields doc data Hf).
    + rewrite (parseJSON_no_fields doc data Hf). discriminate.
  - apply parseJSON_no_fields.
  - reflexivity.
  - intros lo hi. unfold out_of_range, F32.ltb, F32.gtb.
    destruct (F32.of_Z lo), (F32.of_Z hi); reflexivity.
Qed.

Lemma parseJSON_accepts_exactly_the_ranges_witness :
  is_number (F32.of_decimal 2304 1) = true
  /\ (fst (parseJSON (Some (json_of scenario_sample)) watts_100_0) = true
      <-> has_fields (json_of scenario_sample) = true
          /\ (0 <= Fl.to_Q (as_float (json_of scenario_sample) "voltage") <= 500)%Q
          /\ (0 <= Fl.to_Q (as_float (json_of scenario_sample) "current") <= 100)%Q
          /\ (0 <= Fl.to_Q (as_float (json_of scenario_sample) "power_active") <= 50000)%Q)
  /\ parseJSON (Some (json_of scenario_sample)) watts_100_0 = (true, scenario_sample)
  /\ parseJSON (Some [("voltage", F32.of_Z 230)]) watts_100_0 = (false, watts_100_0).
Proof.
  assert (N1 : is_number (as_float (json_of scenario_sample) "voltage") = true)
    by (vm_compute; reflexivity).
  assert (N2 : is_number (as_float (json_of scenario_sample) "current") = true)
    by (vm_compute; reflexivity).
  assert (N3 : is_number (as_float (json_of scenario_sample) "power_active") = true)
    by (vm_compute; reflexivity).
  destruct (parseJSON_accepts_exactly_the_ranges (json_of scenario_sample) watts_100_0)
    as (A & _ & _).
  destruct (parseJSON_accepts_exactly_the_ranges [("voltage", F32.of_Z 230)] watts_100_0)
    as (_ & _ & C & _).
  split; [exact N1 |]. split; [exact (A N1 N2 N3) |].
  split; [vm_compute; reflexivity |].
  apply C. reflexivity.
Defined.

(** Property X7.  A fetch that fails before the values are read leaves
    the out-parameter as it was: when the status code is not 200, when the
    payload is no JSON document, and when the document lacks one of the
    three members.  Every failure, of any kind, returns false, adds one to
    the count of consecutive failures and clears the validity flag, and
    leaves the time of the last successful fetch alone. *)
Theorem failed_fetch_keeps_the_sample (reply : HttpReply) (now : Z) (data : PowerData)
        (f : DataFetcher) :
  (http_code reply <> HTTP_CODE_OK
   \/ http_payload reply = None
   \/ (exists doc, http_payload reply = Some doc /\ has_fields doc = false) ->
   fetchPowerData reply now data f = (false, data, count_failure f))
  /\ (fst (fst (fetchPowerData reply now data f)) = false ->
      snd (fetchPowerData reply now data f) = count_failure f
      /\ isDataValid (snd (fetchPowerData reply now data f)) = false
      /\ getLastFetchTime (snd (fetchPowerData reply now data f)) = getLastFetchTime f).
Proof.
  split.
  - intros H. unfold fetchPowerData.
    destruct (Z.eqb_spec (http_code reply) HTTP_CODE_OK) as [E | N].
    + destruct H as [H | [H | (doc & H & Hf)]]; [contradiction | |]; rewrite H.
      * reflexivity.
      * now rewrite (parseJSON_no_fields doc data Hf).
    + destruct (0 <? http_code reply); reflexivity.
  - unfold fetchPowerData.
    destruct (http_code reply =? HTTP_CODE_OK).
    + destruct (parseJSON (http_payload reply) data) as [[|] d1]; cbn [fst snd];
        [discriminate | intros _; repeat split].
    + destruct (0 <? http_code reply); cbn [fst snd]; intros _; repeat split.
Qed.

Lemma failed_fetch_keeps_the_sample_witness :
  http_code (mkHttpReply 404 None) <> HTTP_CODE_OK
  /\ fetchPowerData (mkHttpReply 404 None) 5003 scenario_sample (mkDataFetcher 4000 true 0)
     = (false, scenario_sample, mkDataFetcher 4000 false 1)
  /\ fetchPowerData (mkHttpReply (-1) None) 5003 scenario_sample (mkDataFetcher 4000 true 0)
     = (false, scenario_sample, mkDataFetcher 4000 false 1).
Proof.
  assert (H : http_code (mkHttpReply 404 None) <> HTTP_CODE_OK) by discriminate.
  assert (H' : http_code (mkHttpReply (-1) None) <> HTTP_CODE_OK) by discriminate.
  split; [exact H |]. split.
  - exact (proj1 (failed_fetch_keeps_the_sample (mkHttpReply 404 None) 5003 scenario_sample
                    (mkDataFetcher 4000 true 0)) (or_introl H)).
  - exact (proj1 (failed_fetch_keeps_the_sample (mkHttpReply (-1) None) 5003
                    scenario_sample (mkDataFetcher 4000 true 0)) (or_introl H')).
Defined.

(** *** Runs of fetches *)

Lemma fetch_result (reply : HttpReply) (now : Z) (data : PowerData) (f : DataFetcher) :
  let r := fetchPowerData reply now data f in
  last_fetch_successful (snd r) = fst (fst r)
  /\ consecutive_failures (snd r)
     = if fst (fst r) then 0 else MachineInt.to_int (consecutive_failures f + 1).
Proof.
  unfold fetchPowerData.
  destruct (http_code reply =? HTTP_CODE_OK).
  - destruct (parseJSON (http_payload reply) data) as [[|] d1]; split; reflexivity.
  - destruct (0 <? http_code reply); split; reflexivity.
Qed.

Lemma fetch_all_snoc (answers : list (HttpReply * Z)) (a : HttpReply * Z)
      (data : PowerData) (f : DataFetcher) :
  fetch_all (answers ++ [a]) data f
  = let '(oks, d1, f1) := fetch_all answers data f in
    let '(ok, d2, f2) := fetchPowerData (fst a) (snd a) d1 f1 in
    (oks ++ [ok], d2, f2)%list.
Proof.
  revert data f. induction answers as [| [reply now] rest IH]; intros data f.
  - destruct a as [reply now]. cbn [app fetch_all fst snd].
    destruct (fetchPowerData reply now data f) as [[ok d1] f1]. reflexivity.
  - cbn [app fetch_all].
    destruct (fetchPowerData reply now data f) as [[ok d1] f1].
    rewrite IH.
    destruct (fetch_all rest d1 f1) as [[oks d2] f2].
    destruct (fetchPowerData (fst a) (snd a) d2 f2) as [[ok' d3] f3]. reflexivity.
Qed.

Lemma to_int_small (z : Z) :
  MachineInt.INT_MIN <= z <= MachineInt.INT_MAX -> MachineInt.to_int z = z.
Proof.
  unfold MachineInt.INT_MIN, MachineInt.INT_MAX, MachineInt.to_int,
    MachineInt.wrap_signed.
  intros H. change (2 ^ (32 - 1)) with 2147483648. change (2 ^ 32) with 4294967296.
  rewrite Z.mod_small by lia. lia.
Qed.

Lemma fetch_all_counts (answers : list (HttpReply * Z)) (data : PowerData)
      (f : DataFetcher) :
  0 <= consecutive_failures f ->
  consecutive_failures f + Z.of_nat (List.length answers) <= MachineInt.INT_MAX ->
  let r := fetch_all answers data f in
  List.length (fst (fst r)) = List.length answers
  /\ consecutive_failures (snd r)
     = (if forallb negb (fst (fst r)) then consecutive_failures f else 0)
       + Z.of_nat (trailing_failures (fst (fst r)))
  /\ last_fetch_successful (snd r) = last (fst (fst r)) (last_fetch_successful f).
Proof.
  intros H0. induction answers as [| a answers IH] using rev_ind; intros Hb r.
  - subst r. cbn. repeat split. lia.
  - subst r. rewrite fetch_all_snoc.
    rewrite length_app in Hb. cbn [List.length] in Hb.
    destruct IH as (IL & IC & IV); [lia |].
    destruct (fetch_all answers data f) as [[oks d1] f1]. cbn [fst snd] in IL, IC, IV.
    pose proof (fetch_result (fst a) (snd a) d1 f1) as [RV RC].
    destruct (fetchPowerData (fst a) (snd a) d1 f1) as [[ok d2] f2].
    cbn [fst snd] in RV, RC |- *.
    assert (T : (trailing_failures oks <= List.length oks)%nat).
    { unfold trailing_failures. rewrite <- length_rev.
      generalize (rev oks). intros l. induction l as [| [|] l IHl]; cbn; lia. }
    rewrite !length_app, forallb_app, last_last. cbn [List.length forallb].
    unfold trailing_failures. rewrite rev_app_distr. cbn [rev app leading_failures].
    fold (trailing_failures oks).
    split; [lia |]. split; [| exact RV].
    rewrite RC. destruct ok; cbn [negb andb].
    + rewrite andb_false_r. reflexivity.
    + rewrite andb_true_r, to_int_small.
      * rewrite IC. destruct (forallb negb oks); lia.
      * unfold MachineInt.INT_MIN, MachineInt.INT_MAX in *.
        rewrite IC. destruct (forallb negb oks); lia.
Qed.

(** Property X8.  Over any run of fetches, the count of consecutive
    failures is the number of failed fetches since the last successful
    one (added to the count at the start when none succeeded), and the
    validity flag is the result of the last fetch; the count is a 32-bit
    [int], so this holds while it stays below [INT_MAX]. *)
Theorem failure_count_is_the_current_run (answers : list (HttpReply * Z))
        (data : PowerData) (f : DataFetcher) :
  0 <= consecutive_failures f ->
  consecutive_failures f + Z.of_nat (List.length answers) <= MachineInt.INT_MAX ->
  let r := fetch_all answers data f in
  getConsecutiveFailures (snd r)
  = (if forallb negb (fst (fst r)) then consecutive_failures f else 0)
    + Z.of_nat (trailing_failures (fst (fst r)))
  /\ isDataValid (snd r) = last (fst (fst r)) (isDataValid f).
Proof.
  intros H0 Hb r.
  destruct (fetch_all_counts answers data f H0 Hb) as (_ & C & V).
  split; [exact C | exact V].
Qed.

Lemma failure_count_is_the_current_run_witness :
  let good := mkHttpReply 200 (Some (json_of scenario_sample)) in
  let bad := mkHttpReply 500 None in
  let r := fetch_all [(bad, 1000); (good, 2000); (reply_600V, 3000); (bad, 4000)]
                     watts_100_0 DataFetcher_new in
  fst (fst r) = [false; true; false; false]
  /\ getConsecutiveFailures (snd r) = 2
  /\ isDataValid (snd r) = false
  /\ getLastFetchTime (snd r) = 2000.
Proof.
  assert (H0 : 0 <= consecutive_failures DataFetcher_new) by (vm_compute; discriminate).
  assert (Hb : consecutive_failures DataFetcher_new
               + Z.of_nat (List.length
                   [(mkHttpReply 500 None, 1000);
                    (mkHttpReply 200 (Some (json_of scenario_sample)), 2000);
                    (reply_600V, 3000); (mkHttpReply 500 None, 4000)])
               <= MachineInt.INT_MAX) by (vm_compute; discriminate).
  destruct (failure_count_is_the_current_run
              [(mkHttpReply 500 None, 1000);
               (mkHttpReply 200 (Some (json_of scenario_sample)), 2000);
               (reply_600V, 3000); (mkHttpReply 500 None, 4000)]
              watts_100_0 DataFetcher_new H0 Hb) as [C V].
  split; [vm_compute; reflexivity |].
  split; [exact C |]. split; [exact V |]. vm_compute. reflexivity.
Defined.

(** ** The WiFi manager *)

(** The wait loop leaves at the first poll that finds the link up, or
    when the countdown is used up. *)
Lemma wait_for_link_spec (timeout : nat) (poll : nat -> bool) (k0 : nat) :
  let k := wait_for_link timeout poll k0 in
  (k0 < k <= k0 + timeout + 1)%nat
  /\ (forall i, (k0 <= i)%nat -> (i < k - 1)%nat -> poll i = false)
  /\ ((k - 1 < k0 + timeout)%nat -> poll (k - 1)%nat = true).
Proof.
  revert k0. induction timeout as [| t IH]; intros k0; cbn [wait_for_link].
  - destruct (poll k0) eqn:E; cbn zeta;
      (split; [lia |]); (split; [intros i H1 H2; lia |]); intros H; lia.
  - destruct (poll k0) eqn:E; cbn zeta.
    + split; [lia |]. split; [intros i H1 H2; lia |].
      intros _. replace (S k0 - 1)%nat with k0 by lia. exact E.
    + destruct (IH (S k0)) as (B & F & T). cbn zeta in B, F, T.
      split; [lia |]. split.
      * intros i H1 H2. destruct (Nat.eq_dec i k0) as [-> | N]; [exact E |].
        apply F; lia.
      * intros H. apply T. lia.
Qed.

(** Property X9.  [connect] waits for the link in at most 20 steps of
    half a second: the status check that decides its result is poll
    number [k] with [k] from 1 to 21, every poll before poll [k - 1]
    found the link down, and if the wait ended before the countdown was
    used up, poll [k - 1] found it up.  The result is that last check: a
    link that is down at every poll up to the 21st makes [connect] fail,
    in state [WIFI_FAILED] and with the attempt counter as it was, and a
    link that comes up within the first 21 polls and is still up at the
    next makes it succeed, in state [WIFI_CONNECTED] and with the
    counter at zero. *)
Theorem connect_waits_at_most_twenty_steps (env : LinkEnv) (w : WiFiManager) :
  let k := wait_for_link (Z.to_nat Config.WIFI_CONNECT_TIMEOUT) (link_poll env) 0 in
  (1 <= k <= 21)%nat
  /\ (forall i, (i < k - 1)%nat -> link_poll env i = false)
  /\ ((k <= 20)%nat -> link_poll env (k - 1)%nat = true)
  /\ fst (connect env w) = link_poll env k
  /\ snd (connect env w)
     = (if link_poll env k
        then mkWiFiManager WIFI_CONNECTED 0 (last_reconnect_attempt w)
        else mkWiFiManager WIFI_FAILED (reconnect_attempts w) (last_reconnect_attempt w))
  /\ ((forall i, (i <= 21)%nat -> link_poll env i = false) -> fst (connect env w) = false)
  /\ (forall j, (j <= 20)%nat ->
                (forall i, (i < j)%nat -> link_poll env i = false) ->
                link_poll env j = true -> link_poll env (S j) = true ->
                fst (connect env w) = true).
Proof.
  intros k.
  destruct (wait_for_link_spec (Z.to_nat Config.WIFI_CONNECT_TIMEOUT) (link_poll env) 0)
    as (B & F & T).
  fold k in B, F, T.
  change (Z.to_nat Config.WIFI_CONNECT_TIMEOUT) with 20%nat in *.
  assert (R : fst (connect env w) = link_poll env k).
  { unfold connect. change (Z.to_nat Config.WIFI_CONNECT_TIMEOUT) with 20%nat.
    fold k. destruct (link_poll env k); reflexivity. }
  split; [lia |]. split; [intros i H; apply F; lia |].
  split; [intros H; apply T; lia |].
  split; [exact R |].
  split.
  { unfold connect. change (Z.to_nat Config.WIFI_CONNECT_TIMEOUT) with 20%nat.
    fold k. destruct (link_poll env k); reflexivity. }
  split.
  { intros H. rewrite R. apply H. lia. }
  intros j Hj Hdown Hup Hnext. rewrite R.
  assert (E : k = S j).
  { destruct (Nat.lt_trichotomy (k - 1) j) as [L | [E | G]].
    - specialize (T ltac:(lia)). rewrite (Hdown _ L) in T. discriminate.
    - lia.
    - specialize (F j ltac:(lia) G). congruence. }
  now rewrite E.
Qed.

Lemma connect_waits_at_most_twenty_steps_witness :
  let env := mkLinkEnv false 0 (fun i => (3 <=? i)%nat) in
  wait_for_link (Z.to_nat Config.WIFI_CONNECT_TIMEOUT) (link_poll env) 0 = 4%nat
  /\ link_poll env 3 = true
  /\ connect env WiFiManager_new = (true, mkWiFiManager WIFI_CONNECTED 0 0).
Proof.
  destruct (connect_waits_at_most_twenty_steps
              (mkLinkEnv false 0 (fun i => (3 <=? i)%nat)) WiFiManager_new)
    as (_ & _ & _ & _ & _ & _ & S).
  pose proof (S 3%nat ltac:(lia)) as S3.
  split; [reflexivity |]. split; [reflexivity |].
  assert (E : fst (connect (mkLinkEnv false 0 (fun i => (3 <=? i)%nat)) WiFiManager_new)
              = true).
  { apply S3; [| reflexivity | reflexivity].
    intros i Hi. cbn [link_poll]. apply Nat.leb_gt. exact Hi. }
  reflexivity.
Defined.

(** The subtraction of two readings of [millis] gives the time that
    passed, also when the counter has wrapped in between. *)
Lemma sub_ulong_elapsed (now last elapsed : Z) :
  0 <= last < 2 ^ 32 -> 0 <= elapsed < 2 ^ 32 ->
  MachineInt.to_ulong now = MachineInt.to_ulong (last + elapsed) ->
  MachineInt.sub_ulong (MachineInt.to_ulong now) last = elapsed.
Proof.
  intros Hl He E. unfold MachineInt.sub_ulong. rewrite E.
  unfold MachineInt.to_ulong, MachineInt.wrap_unsigned.
  rewrite Zminus_mod_idemp_l.
  replace (last + elapsed - last) with elapsed by lia.
  apply Z.mod_small. exact He.
Qed.

(** Property X10.  [reconnect] holds back until the backoff delay has
    passed since the last attempt: with the link down, a call made
    sooner returns false and leaves the manager as it was (the attempt
    counter and the state included); a call made later makes an attempt
    and records its time.  The time that passed is taken modulo 2^32, so
    the test is right also when [millis] has wrapped since the last
    attempt.  An attempt that succeeds sets the counter to zero and the
    state to [WIFI_CONNECTED]; one that fails adds one to the counter,
    and the state is [WIFI_FAILED] from the third failure in a row on and
    [WIFI_RECONNECTING] before. *)
Theorem reconnect_waits_for_the_backoff (env : LinkEnv) (w : WiFiManager) (elapsed : Z) :
  link_up_on_entry env = false ->
  0 <= last_reconnect_attempt w < 2 ^ 32 ->
  0 <= elapsed < 2 ^ 32 ->
  MachineInt.to_ulong (link_millis env)
  = MachineInt.to_ulong (last_reconnect_attempt w + elapsed) ->
  (elapsed < backoff_delay (reconnect_attempts w) -> reconnect env w = (false, w))
  /\ (backoff_delay (reconnect_attempts w) <= elapsed ->
      let w' := snd (reconnect env w) in
      last_reconnect_attempt w' = MachineInt.to_ulong (link_millis env)
      /\ (fst (reconnect env w) = true ->
          reconnect_attempts w' = 0 /\ getState w' = WIFI_CONNECTED)
      /\ (fst (reconnect env w) = false ->
          reconnect_attempts w' = MachineInt.to_int (reconnect_attempts w + 1)
          /\ getState w'
             = if Config.WIFI_RECONNECT_MAX_ATTEMPTS <=? reconnect_attempts w'
               then WIFI_FAILED else WIFI_RECONNECTING)).
Proof.
  intros Hd Hl He E.
  pose proof (sub_ulong_elapsed _ _ _ Hl He E) as S.
  unfold reconnect. rewrite Hd, S.
  split.
  - intros H. apply Z.ltb_lt in H. now rewrite H.
  - intros H. apply Z.ltb_ge in H. rewrite H.
    destruct (link_poll env _); cbn [fst snd last_reconnect_attempt reconnect_attempts
                                       getState state];
      (split; [reflexivity |]); split; intros X; try discriminate; split; reflexivity.
Qed.

Lemma reconnect_waits_for_the_backoff_witness :
  let w := mkWiFiManager WIFI_RECONNECTING 2 4294967000 in
  let early := mkLinkEnv false 3000 (fun _ => true) in
  let late := mkLinkEnv false 4000 (fun _ => true) in
  backoff_delay 2 = 4000
  /\ reconnect early w = (false, w)
  /\ last_reconnect_attempt (snd (reconnect late w)) = 4000
  /\ reconnect_attempts (snd (reconnect late w)) = 0.
Proof.
  assert (Hd : link_up_on_entry (mkLinkEnv false 3000 (fun _ => true)) = false)
    by reflexivity.
  assert (Hd' : link_up_on_entry (mkLinkEnv false 4000 (fun _ => true)) = false)
    by reflexivity.
  assert (Hl : 0 <= last_reconnect_attempt (mkWiFiManager WIFI_RECONNECTING 2 4294967000)
               < 2 ^ 32) by (vm_compute; split; [discriminate | reflexivity]).
  assert (H1 : 0 <= 3296 < 2 ^ 32) by (vm_compute; split; [discriminate | reflexivity]).
  assert (H2 : 0 <= 4296 < 2 ^ 32) by (vm_compute; split; [discriminate | reflexivity]).
  destruct (reconnect_waits_for_the_backoff (mkLinkEnv false 3000 (fun _ => true))
              (mkWiFiManager WIFI_RECONNECTING 2 4294967000) 3296 Hd Hl H1 eq_refl)
    as [A _].
  destruct (reconnect_waits_for_the_backoff (mkLinkEnv false 4000 (fun _ => true))
              (mkWiFiManager WIFI_RECONNECTING 2 4294967000) 4296 Hd' Hl H2 eq_refl)
    as [_ B].
  split; [reflexivity |].
  split; [apply A; vm_compute; reflexivity |].
  destruct (B ltac:(vm_compute; discriminate)) as (B1 & B2 & _).
  split; [exact B1 |]. apply B2. reflexivity.
Defined.

(** *** The credentials *)

Lemma length_pos (s : string) : (0 <? String.length s)%nat = negb (String.eqb s "").
Proof. destruct s; reflexivity. Qed.

(** Property X11.  The credentials survive in the storage: once the
    manager is initialised, [loadCredentials] after [saveCredentials]
    returns the pair that was saved, and reports success exactly when
    neither string is empty; after [clearCredentials] it finds nothing.
    Before [begin] the three operations do nothing.  [begin] uses the
    stored pair when both strings are present, and otherwise replaces
    whatever is stored by the defaults and saves them; so a stored
    network with an empty password is replaced by the defaults at the
    next start.  [connect(ssid, password)] saves the pair it was given
    only when the connection succeeds and the pair differs from the
    stored one. *)
Theorem credentials_round_trip (c : Credentials) (ssid password dssid dpassword : string)
        (env : LinkEnv) (w : WiFiManager) :
  (preferences_initialized c = true ->
   loadCredentials (saveCredentials ssid password c)
   = (negb (String.eqb ssid "") && negb (String.eqb password ""),
      saveCredentials ssid password c)
   /\ getSSID (saveCredentials ssid password c) = ssid
   /\ fst (loadCredentials (clearCredentials c)) = false
   /\ getSSID (clearCredentials c) = "")
  /\ (preferences_initialized c = false ->
      saveCredentials ssid password c = c
      /\ clearCredentials c = c
      /\ loadCredentials c = (false, c))
  /\ (let stored_ssid := getString (preferences c) "ssid" "" in
      let stored_password := getString (preferences c) "password" "" in
      let c' := WiFiManager_begin dssid dpassword c in
      preferences_initialized c' = true
      /\ (stored_ssid <> "" -> stored_password <> "" ->
          c' = mkCredentials (preferences c) stored_ssid stored_password true)
      /\ (stored_ssid = "" \/ stored_password = "" ->
          getSSID c' = dssid /\ saved_password c' = dpassword
          /\ getString (preferences c') "ssid" "" = dssid
          /\ getString (preferences c') "password" "" = dpassword))
  /\ (fst (connect env w) = false ->
      snd (connect_with env ssid password w c) = c)
  /\ (fst (connect env w) = true ->
      snd (connect_with env ssid password w c)
      = if String.eqb ssid (saved_ssid c) && String.eqb password (saved_password c)
        then c else saveCredentials ssid password c).
Proof.
  split; [| split; [| split; [| split]]].
  - intros I. destruct c as [p s pw i]. cbn [preferences_initialized] in I. subst i.
    unfold saveCredentials, loadCredentials, clearCredentials, getSSID.
    cbn [negb preferences preferences_initialized saved_ssid saved_password
         getString putString String.eqb Ascii.eqb Bool.eqb].
    rewrite !length_pos.
    repeat split.
  - intros I. destruct c as [p s pw i]. cbn [preferences_initialized] in I. subst i.
    repeat split.
  - cbv zeta. destruct c as [p s pw i].
    unfold WiFiManager_begin, loadCredentials, saveCredentials, getSSID.
    cbn [negb preferences preferences_initialized saved_ssid saved_password].
    rewrite !length_pos.
    destruct (String.eqb_spec (getString p "ssid" "") "") as [E1 | N1];
      destruct (String.eqb_spec (getString p "password" "") "") as [E2 | N2];
      cbn [negb andb];
      (split; [reflexivity |]); split.
    + intros N _. contradiction.
    + intros _. repeat split.
    + intros N _. contradiction.
    + intros _. repeat split.
    + intros _ N. contradiction.
    + intros _. repeat split.
    + intros _ _. reflexivity.
    + intros [X | X]; contradiction.
  - intros H. unfold connect_with. destruct (connect env w) as [ok w1].
    cbn [fst] in H. subst ok. reflexivity.
  - intros H. unfold connect_with. destruct (connect env w) as [ok w1].
    cbn [fst] in H. subst ok. cbn [snd].
    destruct (String.eqb ssid (saved_ssid c)), (String.eqb password (saved_password c));
      reflexivity.
Qed.

Lemma credentials_round_trip_witness :
  let c := WiFiManager_begin "home" "secret" (Credentials_new [("ssid", "cafe")]) in
  getSSID c = "home"
  /\ loadCredentials (saveCredentials "lab" "12345678" c)
     = (true, saveCredentials "lab" "12345678" c)
  /\ fst (loadCredentials (saveCredentials "cafe" "" c)) = false
  /\ getSSID (WiFiManager_begin "home" "secret"
                (Credentials_new (preferences (saveCredentials "cafe" "" c)))) = "home".
Proof.
  destruct (credentials_round_trip (Credentials_new [("ssid", "cafe")])
              "lab" "12345678" "home" "secret" link_up WiFiManager_new)
    as (_ & _ & (_ & _ & D) & _).
  destruct (credentials_round_trip
              (WiFiManager_begin "home" "secret" (Credentials_new [("ssid", "cafe")]))
              "lab" "12345678" "home" "secret" link_up WiFiManager_new)
    as (R & _).
  destruct (R eq_refl) as (R1 & _).
  destruct (credentials_round_trip
              (WiFiManager_begin "home" "secret" (Credentials_new [("ssid", "cafe")]))
              "cafe" "" "home" "secret" link_up WiFiManager_new)
    as (R' & _).
  destruct (R' eq_refl) as (R2 & _).
  split; [exact (proj1 (D (or_intror eq_refl))) |].
  split; [exact R1 |].
  split; [rewrite R2; reflexivity |].
  reflexivity.
Defined.

(** ** The display manager *)

(** Property X12.  What [begin] leaves behind, for every outcome of the
    two allocations: the layout of the status bar; for each canvas either
    a usable canvas, 320 by 40 for the status bar and 320 by 179 for the
    main area, or none (an object whose buffer is missing is freed at
    once); buffer mode [DIRECT] exactly when both are missing.  Each
    canvas is requested once, and the stored values are not touched.
    The main canvas, which is sent to the panel from row 61 on, ends at
    the last row of the panel. *)
Theorem begin_outcome (a_status a_main : alloc_result) (d : DisplayManager) :
  let r := begin a_status a_main d in
  let d' := state_of r in
  laid_out d'
  /\ status_canvas d' = kept_canvas a_status 320 40
  /\ main_canvas d' = kept_canvas a_main 320 179
  /\ buffer_mode d' = (if alloc_failed a_status && alloc_failed a_main
                       then DIRECT else TILE)
  /\ usable (status_canvas d') = negb (alloc_failed a_status)
  /\ usable (main_canvas d') = negb (alloc_failed a_main)
  /\ allocations StatusCanvas (log_of r) = 1%nat
  /\ allocations MainCanvas (log_of r) = 1%nat
  /\ releases StatusCanvas (log_of r)
     = (match a_status with AllocNoBuffer => 1 | _ => 0 end)%nat
  /\ releases MainCanvas (log_of r)
     = (match a_main with AllocNoBuffer => 1 | _ => 0 end)%nat
  /\ stored_values d' = stored_values d
  /\ main_area_y + 179 = Panel.height.
Proof.
  destruct d as [sc mc bm sw ix iy tr tl pp ps pc pl].
  destruct a_status, a_main; cbv zeta; unfold laid_out;
    repeat split; vm_compute; reflexivity.
Qed.

(** *** Drawing the same values again *)

Section Idempotence.
Variable gtb : surface -> Z -> string -> Z * Z.

Lemma drawStatusBar_direct_state (st : StatusData) (f : bool) (d : DisplayManager) :
  usable (status_canvas d) = false ->
  state_of (drawStatusBar gtb st f d)
  = (if time_changed d st || f
     then set_prev_time (hours st) (minutes st) (seconds st) else fun x => x)
      ((if temp_changed d st || f
        then set_prev_temp (internal_temp st) else fun x => x)
         ((if rssi_changed d st || f
           then set_prev_rssi_level (getRSSILevel (rssi st)) else fun x => x) d)).
Proof.
  intros U. unfold drawStatusBar. run_prog.
  unfold getDrawTarget. rewrite U. cbn [surface_eqb orb].
  rewrite !orb_false_r.
  destruct (rssi_changed d st), (temp_changed d st), (time_changed d st), f;
    cbn [negb andb orb]; run_prog; simpl_dm; reflexivity.
Qed.

Lemma drawStatusBar_direct_quiet (st : StatusData) (d : DisplayManager) :
  usable (status_canvas d) = false ->
  rssi_changed d st = false -> temp_changed d st = false -> time_changed d st = false ->
  drawStatusBar gtb st false d = (tt, d, []).
Proof.
  intros U R T Ti. unfold drawStatusBar. run_prog.
  unfold getDrawTarget. rewrite U. cbn [surface_eqb orb].
  rewrite R, T, Ti. reflexivity.
Qed.

Lemma temp_round_trip_checked :
  forallb (fun k => temp_round_trip_check (-1000 + Z.of_nat k)) (seq 0 2001) = true.
Proof. vm_compute. reflexivity. Qed.

(** A rounded temperature compares equal to itself as [long] and as
    [double]. *)
Lemma temp_round_trip (t : F32.float) :
  Fl.is_finite t = true ->
  -1000 <= Fl.round_half_away (Fl.to_Q t) <= 1000 ->
  SFeqb (F64.of_Z (F32.to_int (F32.round t))) (F64.of_float (F32.round t)) = true.
Proof.
  intros F H.
  destruct t as [s | s | | s m e]; try discriminate.
  - destruct s; reflexivity.
  - unfold F32.round.
    assert (B : -1000 <= Fl.round_half_away (Fl.to_Q (S754_finite s m e))
                < -1000 + Z.of_nat 2001)
      by (change (Z.of_nat 2001) with 2001; lia).
    pose proof (check_range temp_round_trip_check (-1000) 2001 temp_round_trip_checked
                  _ B) as C.
    unfold temp_round_trip_check in C. apply andb_true_iff in C.
    destruct s; tauto.
Qed.

(** Property X13.  Drawn directly on the panel, the status bar is
    idempotent: after a status update, forced or not, an unforced update
    with the same status makes no call and changes nothing (for a
    temperature that is a number, between -1000 and 1000 degrees). *)
Theorem status_bar_redraw_is_idempotent (st : StatusData) (force : bool)
        (d : DisplayManager) :
  usable (status_canvas d) = false ->
  Fl.is_finite (internal_temp st) = true ->
  -1000 <= Fl.round_half_away (Fl.to_Q (internal_temp st)) <= 1000 ->
  let d1 := state_of (drawStatusBar gtb st force d) in
  drawStatusBar gtb st false d1 = (tt, d1, []).
Proof.
  intros U F H d1.
  pose proof (temp_round_trip _ F H) as RT.
  assert (E : d1 = _) by (subst d1; apply (drawStatusBar_direct_state st force d U)).
  apply drawStatusBar_direct_quiet.
  - rewrite E.
    destruct (time_changed d st || force), (temp_changed d st || force),
             (rssi_changed d st || force); exact U.
  - rewrite E.
    destruct (time_changed d st || force), (temp_changed d st || force);
      destruct (rssi_changed d st || force) eqn:R; cbv beta;
      first [ unfold rssi_changed; simpl_dm; now rewrite Z.eqb_refl
            | apply orb_false_iff in R; destruct R as [R _];
              unfold rssi_changed in *; simpl_dm; exact R ].
  - rewrite E.
    destruct (time_changed d st || force), (rssi_changed d st || force);
      destruct (temp_changed d st || force) eqn:T; cbv beta;
      first [ unfold temp_changed, rounded_temp_of; simpl_dm; now rewrite RT
            | apply orb_false_iff in T; destruct T as [T _];
              unfold temp_changed, rounded_temp_of in *; simpl_dm; exact T ].
  - rewrite E.
    destruct (temp_changed d st || force), (rssi_changed d st || force);
      destruct (time_changed d st || force) eqn:T; cbv beta;
      first [ unfold time_changed; simpl_dm; now rewrite !String.eqb_refl
            | apply orb_false_iff in T; destruct T as [T _];
              unfold time_changed in *; simpl_dm; exact T ].
Qed.

(** The distance of a value to itself is zero, or NaN for an infinity
    or a NaN: it is above neither threshold. *)
Lemma same_value_distance (x : F32.float) :
  F32.abs (F32.sub x x) = S754_zero false \/ F32.abs (F32.sub x x) = S754_nan.
Proof.
  unfold F32.abs, F32.sub.
  destruct x as [s | s | | s m e].
  - left. destruct s; reflexivity.
  - right. destruct s; reflexivity.
  - right. reflexivity.
  - left. cbn [SFsub]. rewrite Z.sub_diag. reflexivity.
Qed.

Lemma same_power_not_changed (x : F32.float) :
  F64.gtb (F64.of_float (F32.abs (F32.sub x x))) Config.POWER_CHANGE_THRESHOLD = false.
Proof. destruct (same_value_distance x) as [E | E]; rewrite E; reflexivity. Qed.

Lemma same_current_not_changed (x : F32.float) :
  F64.gtb (F64.of_float (F32.abs (F32.sub x x))) Config.CURRENT_CHANGE_THRESHOLD = false.
Proof. destruct (same_value_distance x) as [E | E]; rewrite E; reflexivity. Qed.

Lemma SFeqb_refl (x : spec_float) : x <> S754_nan -> SFeqb x x = true.
Proof.
  destruct x as [s | s | | s m e]; try congruence; intros _; unfold SFeqb; cbn.
  - reflexivity.
  - destruct s; reflexivity.
  - destruct s; rewrite Z.compare_refl, ?Pos.compare_cont_refl; cbn;
      rewrite ?Pos.compare_refl; reflexivity.
Qed.

Lemma round_not_nan (x : F32.float) : x <> S754_nan -> F32.round x <> S754_nan.
Proof.
  destruct x as [s | s | | s m e]; intros N.
  - discriminate.
  - discriminate.
  - congruence.
  - unfold F32.round.
    destruct (Fl.round_half_away (Fl.to_Q (S754_finite s m e))) as [| n | n];
      cbn [binary_normalize]; try discriminate;
      unfold binary_round; destruct (shl_align _ _ _);
      apply binary_round_aux_not_nan; lia.
Qed.

(** Property X14.  Drawn directly on the panel, the main area is
    idempotent: after a render, forced or not, an unforced render of the
    same sample makes no call and changes nothing, whatever the power
    and the current are (a value never differs from itself by more than
    a threshold), provided the voltage is not NaN. *)
Theorem main_display_redraw_is_idempotent (p : PowerData) (force : bool)
        (d : DisplayManager) :
  usable (main_canvas d) = false ->
  voltage p <> S754_nan ->
  let d1 := state_of (drawMainDisplay gtb p force d) in
  drawMainDisplay gtb p false d1 = (tt, d1, []).
Proof.
  intros U V d1.
  assert (E : d1 = set_prev_power_color (getPowerColor (power_active p))
                                        (set_prev_power p d))
    by (subst d1; apply drawMainDisplay_state).
  assert (U1 : usable (main_canvas d1) = false) by (rewrite E; exact U).
  assert (L : log_of (drawMainDisplay gtb p false d1) = []).
  { rewrite (drawMainDisplay_log_direct gtb p false d1 U1).
    unfold main_power_events, main_va_events, drawPowerValue, drawVoltageCurrentRevised,
      getDrawTarget.
    rewrite U1, E. simpl_dm. cbn [surface_eqb orb].
    rewrite same_power_not_changed, same_current_not_changed, Z.eqb_refl.
    rewrite (SFeqb_refl _ (of_float_not_nan _ (round_not_nan _ V))).
    reflexivity. }
  assert (S : state_of (drawMainDisplay gtb p false d1) = d1).
  { rewrite drawMainDisplay_state, E. destruct d. reflexivity. }
  destruct (drawMainDisplay gtb p false d1) as [[[] s1] l1].
  cbn [state_of log_of fst snd] in L, S. now subst.
Qed.

(** Property X15.  With a canvas in use, what an update draws reaches
    the panel in one transfer: whatever the flag and the values, the only
    call [drawStatusBar] makes on the panel is the transfer of the status
    canvas to the top left corner, and the only call [drawMainDisplay]
    makes on the panel is the transfer of the main canvas to row 61; the
    update starts by clearing the canvas. *)
Theorem buffered_update_is_one_transfer (st : StatusData) (p : PowerData) (force : bool)
        (d : DisplayManager) :
  (usable (status_canvas d) = true ->
   calls_on Tft (log_of (drawStatusBar gtb st force d))
   = flushCanvas StatusCanvas (status_canvas d) 0 0
   /\ hd_error (log_of (drawStatusBar gtb st force d))
      = Some (fillScreen StatusCanvas Config.STATUS_BAR_BG_COLOR)
   /\ List.length (flushCanvas StatusCanvas (status_canvas d) 0 0) = 1%nat)
  /\ (usable (main_canvas d) = true ->
      calls_on Tft (log_of (drawMainDisplay gtb p force d))
      = flushCanvas MainCanvas (main_canvas d) 0 main_area_y
      /\ hd_error (log_of (drawMainDisplay gtb p force d))
         = Some (fillScreen MainCanvas Config.BG_COLOR)
      /\ List.length (flushCanvas MainCanvas (main_canvas d) 0 main_area_y) = 1%nat).
Proof.
  split; intros U.
  - rewrite (drawStatusBar_log_canvas gtb st force d U).
    unfold drawWiFiIcon, drawTemperature, drawTimeSeparator, slot_repaint, flushCanvas.
    destruct (temp_clear_rect d) as [cx cw].
    destruct (status_canvas d) as [[w h []] |]; try discriminate.
    repeat split.
  - rewrite (drawMainDisplay_log_canvas gtb p force d U).
    unfold main_power_events, main_va_events, getDrawTarget. rewrite U.
    cbn [surface_eqb]. rewrite !orb_true_r.
    unfold drawPowerValue, drawVoltageCurrentRevised, draw_centered, getTextCenterPos,
      flushCanvas.
    rewrite !andb_false_r, !orb_true_r.
    destruct (power_text (power_active p)) as [[vs us] g].
    destruct (main_canvas d) as [[w h []] |]; try discriminate.
    repeat split.
Qed.

End Idempotence.

Lemma status_bar_redraw_is_idempotent_witness :
  let d := displayMgr sketch_direct in
  let d1 := state_of (drawStatusBar classic_font_bounds status_12_34_10 false d) in
  usable (status_canvas d) = false
  /\ Fl.is_finite (internal_temp status_12_34_10) = true
  /\ drawStatusBar classic_font_bounds status_12_34_10 false d1 = (tt, d1, []).
Proof.
  assert (U : usable (status_canvas (displayMgr sketch_direct)) = false)
    by (vm_compute; reflexivity).
  assert (F : Fl.is_finite (internal_temp status_12_34_10) = true)
    by (vm_compute; reflexivity).
  assert (H : -1000 <= Fl.round_half_away (Fl.to_Q (internal_temp status_12_34_10)) <= 1000)
    by (vm_compute; split; discriminate).
  split; [exact U |]. split; [exact F |].
  exact (status_bar_redraw_is_idempotent classic_font_bounds status_12_34_10 false
           (displayMgr sketch_direct) U F H).
Defined.

Lemma main_display_redraw_is_idempotent_witness :
  let d := displayMgr sketch_direct in
  let d1 := state_of (drawMainDisplay classic_font_bounds scenario_sample true d) in
  usable (main_canvas d) = false
  /\ voltage scenario_sample <> S754_nan
  /\ log_of (drawMainDisplay classic_font_bounds scenario_sample true d) <> []
  /\ drawMainDisplay classic_font_bounds scenario_sample false d1 = (tt, d1, []).
Proof.
  assert (U : usable (main_canvas (displayMgr sketch_direct)) = false)
    by (vm_compute; reflexivity).
  assert (V : voltage scenario_sample <> S754_nan) by (vm_compute; discriminate).
  split; [exact U |]. split; [exact V |]. split; [vm_compute; discriminate |].
  exact (main_display_redraw_is_idempotent classic_font_bounds scenario_sample true
           (displayMgr sketch_direct) U V).
Defined.

Lemma buffered_update_is_one_transfer_witness :
  let d := displayMgr sketch_buffered in
  usable (status_canvas d) = true
  /\ usable (main_canvas d) = true
  /\ calls_on Tft (log_of (drawStatusBar classic_font_bounds status_12_34_10 false d))
     = [drawRGBBitmap Tft 0 0 StatusCanvas 320 40]
  /\ calls_on Tft (log_of (drawMainDisplay classic_font_bounds scenario_sample false d))
     = [drawRGBBitmap Tft 0 61 MainCanvas 320 179].
Proof.
  assert (U1 : usable (status_canvas (displayMgr sketch_buffered)) = true)
    by (vm_compute; reflexivity).
  assert (U2 : usable (main_canvas (displayMgr sketch_buffered)) = true)
    by (vm_compute; reflexivity).
  destruct (buffered_update_is_one_transfer classic_font_bounds status_12_34_10
              scenario_sample false (displayMgr sketch_buffered)) as [A B].
  split; [exact U1 |]. split; [exact U2 |].
  split; [exact (proj1 (A U1)) | exact (proj1 (B U2))].
Defined.

(** *** The layout *)



Lemma two_digits_checked :
  forallb (fun k => two_digits_check (0 + Z.of_nat k)) (seq 0 100) = true.
Proof. vm_compute. reflexivity. Qed.

Lemma temperature_text_checked :
  forallb (fun k => temperature_text_fits (-99 + Z.of_nat k)) (seq 0 1099) = true.
Proof. vm_compute. reflexivity. Qed.

Lemma classic_text_w (t : surface) (size : Z) (s : string) :
  0 <= 6 * size * Z.of_nat (String.length s) < 65536 ->
  text_w classic_font_bounds t size s = 6 * size * Z.of_nat (String.length s).
Proof.
  intros H. unfold text_w, classic_font_bounds. cbn [fst].
  unfold MachineInt.to_uint16, MachineInt.wrap_unsigned.
  apply Z.mod_small. change (2 ^ 16) with 65536. lia.
Qed.

Lemma classic_text_h_2 (t : surface) (s : string) :
  text_h classic_font_bounds t 2 s = 16.
Proof. reflexivity. Qed.

(** Property X17.  In the built-in font of the graphics library, whose
    characters are 6 by 8 pixels times the text size, the texts of the
    status bar fit the rectangles cleared for them.  A number from 0 to
    99 printed with two digits is 24 pixels wide and is drawn from column
    4 of its 28-pixel slot, on row 13.  With the layout of [begin], the
    text of a temperature from -99 to 999 degrees ends at column 283 and
    starts at column 218, where the cleared rectangle starts, or right
    of it; the text of 1000 degrees starts at column 211, left of the
    cleared rectangle. *)
Theorem status_texts_fit (d : DisplayManager) (t : surface) (x z n : Z) :
  (0 <= z <= 99 ->
   slot_repaint classic_font_bounds t x (Format.two_digits z)
   = [ fillRect t x 0 28 40 Config.STATUS_BAR_BG_COLOR;
       setTextSize t 2; setTextColor t Config.TIME_COLOR;
       setCursor t (x + 4) 13; print t (Format.two_digits z) ])
  /\ (laid_out d -> -99 <= n <= 999 ->
      let w := 12 * Z.of_nat (String.length (temperature_text n)) in
      drawTemperature classic_font_bounds d t n
      = [ fillRect t 218 0 65 40 Config.STATUS_BAR_BG_COLOR;
          setTextSize t 2; setTextColor t (temp_color n);
          setCursor t (283 - w) 13; print t (temperature_text n) ]
      /\ 218 <= 283 - w)
  /\ (laid_out d ->
      drawTemperature classic_font_bounds d t 1000
      = [ fillRect t 218 0 65 40 Config.STATUS_BAR_BG_COLOR;
          setTextSize t 2; setTextColor t Config.TEMP_COLOR_RED;
          setCursor t 211 13; print t (temperature_text 1000) ]).
Proof.
  split; [| split].
  - intros Hz.
    assert (B : 0 <= z < 0 + Z.of_nat 100) by (change (Z.of_nat 100) with 100; lia).
    pose proof (check_range two_digits_check 0 100 two_digits_checked z B) as C.
    unfold two_digits_check in C. apply Nat.eqb_eq in C.
    unfold slot_repaint.
    change Config.TIME_FONT_SIZE with 2.
    rewrite classic_text_w by (rewrite C; cbn; lia).
    rewrite classic_text_h_2, C.
    change Config.TIME_SEGMENT_WIDTH with 28. change Config.STATUS_BAR_HEIGHT with 40.
    replace (x + 28 - 6 * 2 * Z.of_nat 2) with (x + 4) by (cbn; lia).
    reflexivity.
  - intros (W & X & Y & T & L) Hn w.
    assert (B : -99 <= n < -99 + Z.of_nat 1099) by (change (Z.of_nat 1099) with 1099; lia).
    pose proof (check_range temperature_text_fits (-99) 1099 temperature_text_checked n B)
      as C.
    unfold temperature_text_fits in C. apply Z.leb_le in C.
    unfold drawTemperature, temp_clear_rect. rewrite T.
    change Config.STATUS_BAR_FONT_SIZE with 2.
    rewrite classic_text_w by lia.
    rewrite classic_text_h_2.
    subst w. split; [| lia].
    change (283 - 65) with 218. change (218 <? 0) with false.
    change (218 =? 0) with false. cbv beta iota zeta.
    change Config.STATUS_BAR_HEIGHT with 40. change (MachineInt.cdiv (40 - 16) 2 + 1) with 13.
    replace (6 * 2 * Z.of_nat (String.length (temperature_text n)))
      with (12 * Z.of_nat (String.length (temperature_text n))) by lia.
    reflexivity.
  - intros (W & X & Y & T & L).
    unfold drawTemperature, temp_clear_rect. rewrite T. reflexivity.
Qed.

Lemma status_texts_fit_witness :
  laid_out (displayMgr sketch_direct)
  /\ slot_repaint classic_font_bounds Tft 41 "07"
     = [ fillRect Tft 41 0 28 40 0; setTextSize Tft 2; setTextColor Tft 65535;
         setCursor Tft 45 13; print Tft "07" ]
  /\ nth_error (drawTemperature classic_font_bounds (displayMgr sketch_direct) Tft 45) 3
     = Some (setCursor Tft 235 13).
Proof.
  assert (L : laid_out (displayMgr sketch_direct)) by (vm_compute; repeat split).
  destruct (status_texts_fit (displayMgr sketch_direct) Tft 41 7 45) as (A & B & _).
  split; [exact L |].
  split.
  - exact (A ltac:(lia)).
  - rewrite (proj1 (B L ltac:(lia))). reflexivity.
Defined.

(** ** The sketch *)

Section Passes.
Variable gtb : surface -> Z -> string -> Z * Z.

(** Property X18.  Between its deadlines a pass of [loop] does nothing:
    after the first pass, when less than [LOOP_DELAY_MS] milliseconds
    have gone by since the last fetch, and less than
    [TIME_UPDATE_INTERVAL] since the last update of the status bar (or
    the link is down), the pass makes no call and changes no variable.
    The elapsed times are taken modulo 2^32, so this also holds when
    [millis()] has wrapped around since the last fetch or update. *)
Theorem idle_pass_does_nothing (env : LoopEnv) (s : Sketch) (since_time since_fetch : Z) :
  first_loop s = false ->
  0 <= last_time_update s < 2 ^ 32 ->
  0 <= last_data_fetch s < 2 ^ 32 ->
  0 <= since_time < 2 ^ 32 ->
  0 <= since_fetch < Config.LOOP_DELAY_MS ->
  MachineInt.to_ulong (l_millis env) = MachineInt.to_ulong (last_time_update s + since_time) ->
  MachineInt.to_ulong (l_millis env) = MachineInt.to_ulong (last_data_fetch s + since_fetch) ->
  since_time < Config.TIME_UPDATE_INTERVAL \/ l_status_link_up env = false ->
  loop gtb env s = (tt, s, []).
Proof.
  intros F Ht Hd Hst Hsf Et Ed Q.
  assert (Hsf' : 0 <= since_fetch < 2 ^ 32)
    by (unfold Config.LOOP_DELAY_MS in Hsf; change (2 ^ 32) with 4294967296; lia).
  pose proof (sub_ulong_elapsed _ _ _ Ht Hst Et) as E1.
  pose proof (sub_ulong_elapsed _ _ _ Hd Hsf' Ed) as E2.
  assert (C1 : (Config.TIME_UPDATE_INTERVAL <=? since_time) && l_status_link_up env = false).
  { destruct Q as [Q | Q].
    - apply andb_false_iff. left. apply Z.leb_gt. exact Q.
    - rewrite Q. apply andb_false_r. }
  assert (C2 : (Config.LOOP_DELAY_MS <=? since_fetch) = false) by (apply Z.leb_gt; lia).
  unfold loop, loop_time_update, loop_data_fetch. run_prog.
  rewrite E1, C1. run_prog. rewrite E2, C2, F. reflexivity.
Qed.

(** Property X19.  A pass that fetches a valid sample shows it: when the
    fetch is due (at least [LOOP_DELAY_MS] milliseconds after the last
    one, or on the first pass), the link is up and [fetchPowerData]
    succeeds with [data], the second half of [loop] makes exactly the
    calls of [drawMainDisplay] for [data], forced on the first pass only;
    afterwards [data] is the current sample and the sample stored by the
    display, the time of the fetch is the current time, and the pass is no
    longer the first. *)
Theorem fetch_pass_shows_the_sample (env : LoopEnv) (s : Sketch)
        (data : PowerData) (f : DataFetcher) :
  l_fetch_link_up env = true ->
  fetchPowerData (l_reply env) (l_fetch_millis env) (currentPower s) (dataFetcher s)
  = (true, data, f) ->
  first_loop s = true
  \/ Config.LOOP_DELAY_MS
     <= MachineInt.sub_ulong (MachineInt.to_ulong (l_millis env)) (last_data_fetch s) ->
  let r := loop_data_fetch gtb env s in
  log_of r = log_of (drawMainDisplay gtb data (first_loop s) (displayMgr s))
  /\ currentPower (state_of r) = data
  /\ prev_power (displayMgr (state_of r)) = data
  /\ prev_power_color (displayMgr (state_of r)) = getPowerColor (power_active data)
  /\ dataFetcher (state_of r) = f
  /\ last_data_fetch (state_of r) = MachineInt.to_ulong (l_millis env)
  /\ first_loop (state_of r) = false.
Proof.
  intros Up Fe Due r.
  assert (D : (Config.LOOP_DELAY_MS
                 <=? MachineInt.sub_ulong (MachineInt.to_ulong (l_millis env))
                                          (last_data_fetch s))
              || first_loop s = true).
  { destruct Due as [Q | Q].
    - rewrite Q. apply orb_true_r.
    - apply orb_true_iff. left. apply Z.leb_le. exact Q. }
  pose proof (drawMainDisplay_state gtb data (first_loop s) (displayMgr s)) as St.
  subst r. unfold loop_data_fetch. run_prog. rewrite D, Up. cbn [negb]. run_prog.
  cbn [dataFetcher currentPower set_last_data_fetch]. rewrite Fe. run_prog.
  unfold onDisplay. run_prog.
  cbn [displayMgr set_dataFetcher set_currentPower set_last_data_fetch first_loop].
  destruct (drawMainDisplay gtb data (first_loop s) (displayMgr s)) as [[[] d1] l1].
  cbn [state_of log_of fst snd] in St. subst d1.
  cbn [app]. rewrite ?app_nil_r.
  repeat split; reflexivity.
Qed.

End Passes.

Lemma idle_pass_does_nothing_witness :
  let env := mkLoopEnv 200 true (F32.of_Z 40) rssi_good None true
                       (mkHttpReply 200 None) 200 handler_link_back in
  let s := set_first_loop false
             (set_last_time_update (2 ^ 32 - 300)
                (set_last_data_fetch (2 ^ 32 - 300) sketch_direct)) in
  MachineInt.sub_ulong (MachineInt.to_ulong (l_millis env)) (last_data_fetch s) = 500
  /\ loop classic_font_bounds env s = (tt, s, []).
Proof.
  split; [vm_compute; reflexivity |].
  apply (idle_pass_does_nothing classic_font_bounds _ _ 500 500);
    try (vm_compute; reflexivity);
    try (vm_compute; split; [discriminate | reflexivity]).
  left. vm_compute. reflexivity.
Defined.

Lemma fetch_pass_shows_the_sample_witness :
  let env := mkLoopEnv 5000 true (F32.of_Z 40) rssi_good (Some (mkTm 12 34 10)) true
                       (mkHttpReply 200 (Some (json_of scenario_sample))) 5003
                       handler_link_back in
  let r := loop_data_fetch classic_font_bounds env sketch_direct in
  first_loop sketch_direct = true
  /\ printed (log_of r) = ["1.0"; "kW"; "230V"; "4.3A"]
  /\ prev_power (displayMgr (state_of r)) = scenario_sample
  /\ first_loop (state_of r) = false.
Proof.
  pose (env := mkLoopEnv 5000 true (F32.of_Z 40) rssi_good (Some (mkTm 12 34 10)) true
                         (mkHttpReply 200 (Some (json_of scenario_sample))) 5003
                         handler_link_back).
  assert (Up : l_fetch_link_up env = true) by reflexivity.
  assert (Fe : fetchPowerData (l_reply env) (l_fetch_millis env)
                 (currentPower sketch_direct) (dataFetcher sketch_direct)
               = (true, scenario_sample, mkDataFetcher 5003 true 0))
    by (vm_compute; reflexivity).
  assert (Fi : first_loop sketch_direct = true) by (vm_compute; reflexivity).
  destruct (fetch_pass_shows_the_sample classic_font_bounds env sketch_direct
              scenario_sample (mkDataFetcher 5003 true 0) Up Fe (or_introl Fi))
    as (A & _ & B & _ & _ & _ & C).
  split; [exact Fi |].
  split; [| split; [exact B | exact C]].
  fold env. rewrite A. vm_compute. reflexivity.
Defined.

